(** * Tenant resolution, usage ledger and feature-flag evaluation

    A shallow embedding of the data-service layer (data-service.tsx:
    [TenantService.resolve], [UsageService], [FeatureFlagService.isEnabled])
    and of the route handlers that touch the same records (routes/usage.tsx:
    [trackUsage] and the tenant usage listing; routes/features.tsx: the
    tenant feature listing), followed by the properties proved about them.

    The two backends are explicit: the key-value store is a finite map from
    key strings to stored objects, the relational [tenants] table is a list
    of rows.  Every handler is a computation in a small state monad over a
    [World] that also records, in order, the backend calls it issued.

    Conventions.  A JS [number] is a binary64 float, with the language's own
    [||], [>=], [!==], [Math.round] and [Math.min]; the rollout percentage,
    documented as 0-100, and the character-code sum are integers.  A string
    is a sequence of 8-bit character codes: the identifiers, keys and dates
    handled here are ASCII.  A stored object is a record of the fields the
    handlers read or write, an absent field being [None].  [new Date()] is
    read from the world, which does not tick while a handler runs. *)

From Stdlib Require Import ZArith String Ascii List Bool.
From Stdlib Require Import Floats.PrimFloat Floats.SpecFloat Floats.FloatOps
  Floats.FloatAxioms.
From Stdlib Require Import Uint63.
From stdpp Require Import gmap strings list fin_maps pretty.

Open Scope string_scope.
Open Scope Z_scope.

(* ===================================================================== *)
(** ** JavaScript primitives used by the handlers *)
(* ===================================================================== *)

Module Js.

(** A JS [number] is an IEEE-754 binary64 value. *)
Abbreviation number := float.

(** Truthiness of a number: [0], [-0] and [NaN] are falsy. *)
Definition truthy (x : number) : bool :=
  negb (PrimFloat.is_zero x || PrimFloat.is_nan x).

(** [x || d] on numbers. *)
Definition or_num (x d : number) : number := if truthy x then x else d.

(** [o || d] where [o] may be [undefined]. *)
Definition or_undef_num (o : option number) (d : number) : number :=
  match o with
  | Some x => or_num x d
  | None => d
  end.

(** [a >= b] and [a !== b] on numbers. *)
Definition ge (a b : number) : bool := PrimFloat.leb b a.
Definition strict_ne (a b : number) : bool := negb (PrimFloat.eqb a b).

(** The number of an integer of magnitude below 2^63. *)
Definition of_Z (r : Z) : number :=
  if r <? 0 then PrimFloat.opp (PrimFloat.of_uint63 (Uint63.of_Z (- r)))
  else PrimFloat.of_uint63 (Uint63.of_Z r).

(** [Math.round]: the nearest integer, ties towards +infinity; zeros,
    infinities and NaN are returned as they are, and a result of zero
    keeps the sign of the argument. *)
Definition Math_round (x : number) : number :=
  match Prim2SF x with
  | S754_finite s m e =>
      if 0 <=? e then x
      else
        let d := 2 ^ (- e) in
        let n := if s then Z.neg m else Z.pos m in
        let r := (2 * n + d) / (2 * d) in
        if r =? 0 then (if s then (-0)%float else 0%float) else of_Z r
  | _ => x
  end.

(** [Math.min(a, b)]: NaN if either is NaN, otherwise the smaller, with
    [-0] below [+0]. *)
Definition Math_min (a b : number) : number :=
  if PrimFloat.is_nan a || PrimFloat.is_nan b then PrimFloat.nan
  else if PrimFloat.ltb a b then a
  else if PrimFloat.ltb b a then b
  else if PrimFloat.is_zero a && PrimFloat.get_sign a then a
  else b.

(** Truthiness of a string and [o || d] on possibly-undefined strings. *)
Definition truthy_str (s : string) : bool :=
  match s with
  | EmptyString => false
  | String _ _ => true
  end.

Definition or_str (o : option string) (d : string) : string :=
  match o with
  | Some s => if truthy_str s then s else d
  | None => d
  end.

(** [arr.includes(x)] on an array of strings. *)
Definition includes (arr : list string) (x : string) : bool :=
  existsb (String.eqb x) arr.

(** [s.charCodeAt(0)] summed over [s.split('')]. *)
Fixpoint charCodeSum (s : string) : Z :=
  match s with
  | EmptyString => 0
  | String c rest => Z.of_nat (nat_of_ascii c) + charCodeSum rest
  end.

(** [s.toLowerCase()] on ASCII text. *)
Definition lower_ascii (c : ascii) : ascii :=
  let n := nat_of_ascii c in
  if ((65 <=? n) && (n <=? 90))%nat then ascii_of_nat (n + 32) else c.

Fixpoint toLowerCase (s : string) : string :=
  match s with
  | EmptyString => EmptyString
  | String c rest => String (lower_ascii c) (toLowerCase rest)
  end.

(** [s.toLowerCase()] on text of code units below 256: besides [A-Z], the
    letters U+00C0 to U+00DE (all but the sign U+00D7) have a lower case,
    32 above. *)
Definition lower_latin1 (c : ascii) : ascii :=
  let n := nat_of_ascii c in
  if (((65 <=? n) && (n <=? 90))
      || ((192 <=? n) && (n <=? 222) && negb (n =? 215)))%nat
  then ascii_of_nat (n + 32) else c.

Fixpoint toLowerCase_latin1 (s : string) : string :=
  match s with
  | EmptyString => EmptyString
  | String c rest => String (lower_latin1 c) (toLowerCase_latin1 rest)
  end.

(** The property names that every plain object inherits from
    [Object.prototype].  Read on an object without an own property of the
    name, each gives a function (and [__proto__] the prototype object): a
    value that is truthy and is not a number. *)
Definition inherited (k : string) : bool :=
  includes ["constructor"; "hasOwnProperty"; "isPrototypeOf";
            "propertyIsEnumerable"; "toLocaleString"; "toString"; "valueOf";
            "__proto__"; "__defineGetter__"; "__defineSetter__";
            "__lookupGetter__"; "__lookupSetter__"] k.

(** What [obj[k]] reads on a plain object whose own properties are
    numbers: the own property, else what the prototype has under the name,
    else [undefined]. *)
Inductive Property :=
| own (x : number)
| from_prototype
| undefined.

Definition get (obj : gmap string number) (k : string) : Property :=
  match obj !! k with
  | Some x => own x
  | None => if inherited k then from_prototype else undefined
  end.

(** A limit that is not a number (the function the prototype has under a
    name), in a record whose limit is a number: it is held as NaN, which is
    what such a value reads as in number arithmetic and comparisons. *)
Definition no_number : number := PrimFloat.nan.

(** [obj[k] || d]: an own number when it is truthy, the prototype's value
    (truthy, and no number) for an inherited name, and [d] otherwise. *)
Definition or_get (obj : gmap string number) (k : string) (d : number)
  : number :=
  match get obj k with
  | own x => or_num x d
  | from_prototype => no_number
  | undefined => d
  end.

(** [s.split(sep)[0]]: the text before the first separator. *)
Fixpoint split_head (sep : ascii) (s : string) : string :=
  match s with
  | EmptyString => EmptyString
  | String c rest =>
      if Ascii.eqb c sep then EmptyString else String c (split_head sep rest)
  end.

(** [s.padStart(2, '0')]. *)
Definition padStart2 (s : string) : string :=
  match String.length s with
  | O => "00"
  | S O => "0" +:+ s
  | _ => s
  end.

(** The three readings of [new Date()] the handlers take: local year,
    local month (0-11) and the ISO-8601 UTC text. *)
Record Date := mkDate {
  getFullYear : Z;
  getMonth : Z;
  toISOString : string;
}.

(** [/^[0-9a-f]{8}-[0-9a-f]{4}-[0-9a-f]{4}-[0-9a-f]{4}-[0-9a-f]{12}$/i] *)
Definition is_hex (c : ascii) : bool :=
  let n := nat_of_ascii c in
  (((48 <=? n) && (n <=? 57)) || ((97 <=? n) && (n <=? 102))
   || ((65 <=? n) && (n <=? 70)))%nat.

Fixpoint hex_run (n : nat) (s : string) : option string :=
  match n with
  | O => Some s
  | S n' =>
      match s with
      | String c rest => if is_hex c then hex_run n' rest else None
      | EmptyString => None
      end
  end.

Fixpoint hex_groups (groups : list nat) (s : string) : bool :=
  match groups with
  | [] => false
  | [n] =>
      match hex_run n s with
      | Some EmptyString => true
      | _ => false
      end
  | n :: more =>
      match hex_run n s with
      | Some (String "-" rest) => hex_groups more rest
      | _ => false
      end
  end.

Definition matches_uuid (s : string) : bool :=
  hex_groups [8; 4; 4; 4; 12]%nat s.

End Js.

(* ===================================================================== *)
(** ** Data model (models.tsx and the objects the routes store) *)
(* ===================================================================== *)

(** The normalized tenant object of the key-value store. *)
Record Tenant := mkTenant {
  t_id : string;
  t_uuid : option string;
  t_name : string;
  t_status : string;
  t_plan : string;
  t_email : string;
  t_phone : string;
  t_address : string;
  t_city : string;
  t_state : string;
  t_country : string;
  t_postalCode : string;
  t_website : string;
  t_industry : string;
  t_size : string;
  t_timezone : string;
  t_currency : string;
  t_logo : string;
  t_primaryColor : string;
  t_createdAt : option string;
  t_created : string;
  t_lastActiveAt : option string;
}.

(** A row of the relational [tenants] table; [settings] is a JSON object
    (here with text values), and nullable columns are options. *)
Record PgTenant := mkPgTenant {
  pg_id : string;
  pg_name : string;
  pg_status : string;
  pg_email : option string;
  pg_phone : option string;
  pg_settings : option (gmap string string);
  pg_created_at : option string;
}.

(** A usage object as it sits in the store.  The service writes
    [id, tenantId, metric, period, current, limit, percentage, daily,
    updatedAt]; the routes write [metric, current, limit, period,
    updated_at].  A field an object does not carry is [None]. *)
Record UsageRecord := mkUsage {
  u_id : option string;
  u_tenantId : option string;
  u_metric : string;
  u_period : string;
  u_current : Js.number;
  u_limit : Js.number;
  u_percentage : option Js.number;
  u_daily : option (gmap string Js.number);
  u_updatedAt : option string;
  u_updated_at : option string;
}.

Inductive FeatureFlagStatus := enabled | disabled | beta.
Inductive FeatureFlagScope := scope_global | scope_plan | scope_tenant.

(** A feature flag ([flag:] keys) or feature ([feature:] keys) object. *)
Record FeatureFlag := mkFlag {
  f_id : string;
  f_key : string;
  f_name : string;
  f_scope : option FeatureFlagScope;
  f_status : FeatureFlagStatus;
  f_enabledForPlans : option (list string);
  f_enabledForTenants : option (list string);
  f_disabledForTenants : option (list string);
  f_rolloutPercentage : option Z;
}.

(** A plan object ([plan:] keys); only its limit table is read here. *)
Record Plan := mkPlan {
  p_name : string;
  p_limits : option (gmap string Js.number);
}.

(** What a key of the store holds.  Keys are namespaced by prefix
    ([tenant:], [usage:], [flag:], [feature:], [plan:]) and a key holds an
    object of its namespace; a handler that expects one kind of object takes
    a key holding another kind as holding nothing. *)
Inductive KvValue :=
| VTenant (t : Tenant)
| VUsage (u : UsageRecord)
| VFlag (f : FeatureFlag)
| VPlan (p : Plan).

Definition as_tenant (v : option KvValue) : option Tenant :=
  match v with Some (VTenant t) => Some t | _ => None end.
Definition as_usage (v : option KvValue) : option UsageRecord :=
  match v with Some (VUsage u) => Some u | _ => None end.
Definition as_plan (v : option KvValue) : option Plan :=
  match v with Some (VPlan p) => Some p | _ => None end.
Definition flags_of (vs : list KvValue) : list FeatureFlag :=
  omap (fun v => match v with VFlag f => Some f | _ => None end) vs.
Definition usages_of (vs : list KvValue) : list UsageRecord :=
  omap (fun v => match v with VUsage u => Some u | _ => None end) vs.

(** Object spread with overrides, [{...record, field: value}]. *)
Definition with_limit (u : UsageRecord) (l : Js.number) (stamp : string)
  : UsageRecord :=
  mkUsage (u_id u) (u_tenantId u) (u_metric u) (u_period u) (u_current u) l
          (u_percentage u) (u_daily u) (u_updatedAt u) (Some stamp).

Definition with_current (u : UsageRecord) (c : Js.number) (stamp : string)
  : UsageRecord :=
  mkUsage (u_id u) (u_tenantId u) (u_metric u) (u_period u) c (u_limit u)
          (u_percentage u) (u_daily u) (u_updatedAt u) (Some stamp).

(* ===================================================================== *)
(** ** The two backends and the handler monad *)
(* ===================================================================== *)

(** A backend call, as it appears on the wire. *)
Inductive Op :=
| KvGet (key : string)
| KvSet (key : string)
| KvGetByPrefix (prefix : string)
| PgSelectById (id : string)
| PgSelectByExternalId (external_id : string).

Record World := mkWorld {
  kv : gmap string KvValue;
  pg : list PgTenant;
  now : Js.Date;
  log : list Op;
}.

(** An [async] handler: it reads and writes the world and returns. *)
Definition M (A : Type) : Type := World -> A * World.

Definition ret {A} (a : A) : M A := fun w => (a, w).

Definition bind {A B} (m : M A) (k : A -> M B) : M B :=
  fun w => let (a, w') := m w in k a w'.

Notation "'await' x <- m ; k" := (bind m (fun x => k))
  (at level 10, x name, m at level 100, k at level 200,
   format "'[v' 'await'  x  <-  m ; '/' k ']'").
Notation "'await_' m ; k" := (bind m (fun _ => k))
  (at level 10, m at level 100, k at level 200,
   format "'[v' 'await_'  m ; '/' k ']'").

Definition emit (o : Op) (w : World) : World :=
  mkWorld (kv w) (pg w) (now w) (log w ++ [o])%list.

(** [new Date()] *)
Definition new_Date : M Js.Date := fun w => (now w, w).

Module kv_store.

(** Modelled from the spec: [kv_store.tsx] is not among the sources; its
    contract is [get(key) -> value | null]. *)
Definition get (key : string) : M (option KvValue) :=
  fun w => (kv w !! key, emit (KvGet key) w).

(** Modelled from the spec: [set(key, value) -> void] of the same absent
    module; the value replaces whatever the key held. *)
Definition set (key : string) (v : KvValue) : M unit :=
  fun w => (tt, emit (KvSet key)
                  (mkWorld (<[key := v]> (kv w)) (pg w) (now w) (log w))).

(** Modelled from the spec: [getByPrefix(prefix) -> list of values] of the
    same absent module: the values (not the keys) of every entry whose key
    starts with the prefix, in the store's order. *)
Definition getByPrefix (prefix : string) : M (list KvValue) :=
  fun w =>
    (map snd (List.filter (fun e => String.prefix prefix (fst e))
                          (map_to_list (kv w))),
     emit (KvGetByPrefix prefix) w).

End kv_store.

Module supabase.

(** The query builder of the relational client.  The [data] of [.single()]
    and of [.maybeSingle()] is the row when exactly one row matches and null
    otherwise; a failed query also answers null, with an [error] that
    [resolve] does not look at. *)
Definition single {A} (rows : list A) : option A :=
  match rows with
  | [r] => Some r
  | _ => None
  end.

(** Equality on the [uuid] primary key: the text form is compared without
    regard to letter case. *)
Definition uuid_eqb (a b : string) : bool :=
  String.eqb (Js.toLowerCase a) (Js.toLowerCase b).

(** [settings->>external_id] of a row. *)
Definition external_id (r : PgTenant) : option string :=
  s ← pg_settings r; s !! "external_id".

Definition has_external_id (x : string) (r : PgTenant) : bool :=
  match external_id r with
  | Some e => String.eqb e x
  | None => false
  end.

(** [from('tenants').select('*').eq('id', id).single()] *)
Definition tenants_by_id (id : string) : M (option PgTenant) :=
  fun w =>
    (single (List.filter (fun r => uuid_eqb (pg_id r) id) (pg w)),
     emit (PgSelectById id) w).

(** [from('tenants').select('*').eq('settings->>external_id', x).maybeSingle()] *)
Definition tenants_by_external_id (x : string) : M (option PgTenant) :=
  fun w =>
    (single (List.filter (has_external_id x) (pg w)),
     emit (PgSelectByExternalId x) w).

End supabase.

(** [getCurrentPeriod()]: the calendar month, [YYYY-MM]. *)
Definition period_of (d : Js.Date) : string :=
  pretty (Js.getFullYear d) +:+ "-" +:+ Js.padStart2 (pretty (Js.getMonth d + 1)).

Definition getCurrentPeriod : M string :=
  await d <- new_Date; ret (period_of d).

(** [new Date().toISOString().split('T')[0]] *)
Definition today_of (d : Js.Date) : string :=
  Js.split_head "T" (Js.toISOString d).

(** [period || getCurrentPeriod()] *)
Definition period_or_current (period : option string) : M string :=
  match period with
  | Some p => if Js.truthy_str p then ret p else getCurrentPeriod
  | None => getCurrentPeriod
  end.

(* ===================================================================== *)
(** ** TenantService (data-service.tsx) *)
(* ===================================================================== *)

Inductive Source := src_kv | src_postgres.

Module TenantService.

(** The "convert to KV format" object literal that both relational branches
    of [resolve] build from a row. *)
Definition to_kv_format (d : Js.Date) (r : PgTenant) : Tenant :=
  let setting (k : string) : option string := s ← pg_settings r; s !! k in
  {| t_id := Js.or_str (setting "external_id") (pg_id r);
     t_uuid := Some (pg_id r);
     t_name := pg_name r;
     t_status := pg_status r;
     t_plan := Js.or_str (setting "plan") "Trial";
     t_email := Js.or_str (pg_email r) "";
     t_phone := Js.or_str (pg_phone r) "";
     t_address := Js.or_str (setting "address") "";
     t_city := Js.or_str (setting "city") "";
     t_state := Js.or_str (setting "state") "";
     t_country := Js.or_str (setting "country") "";
     t_postalCode := Js.or_str (setting "postal_code") "";
     t_website := Js.or_str (setting "website") "";
     t_industry := Js.or_str (setting "industry") "";
     t_size := Js.or_str (setting "size") "";
     t_timezone := Js.or_str (setting "timezone") "UTC";
     t_currency := Js.or_str (setting "currency") "USD";
     t_logo := Js.or_str (setting "logo") "";
     t_primaryColor := Js.or_str (setting "primary_color") "#ea580c";
     t_createdAt := pg_created_at r;
     t_created :=
       Js.or_str (Js.split_head "T" <$> pg_created_at r) (today_of d);
     t_lastActiveAt := setting "last_active_at" |}.

Definition convert (r : PgTenant) : M Tenant :=
  await d <- new_Date; ret (to_kv_format d r).

(** [TenantService.get]: key-value store only. *)
Definition get (tenantId : string) : M (option Tenant) :=
  await v <- kv_store.get ("tenant:" +:+ tenantId); ret (as_tenant v).

(** The tail of [resolve]: the query on [settings->>external_id]. *)
Definition resolve_by_external_id (identifier : string)
  : M (option Tenant * option Source) :=
  await pgTenant <- supabase.tenants_by_external_id identifier;
  match pgTenant with
  | Some r => await tenant <- convert r; ret (Some tenant, Some src_postgres)
  | None => ret (None, None)
  end.

(** [TenantService.resolve(identifier)] *)
Definition resolve (identifier : string) : M (option Tenant * option Source) :=
  await v <- kv_store.get ("tenant:" +:+ identifier);
  match as_tenant v with
  | Some tenant => ret (Some tenant, Some src_kv)
  | None =>
      if Js.matches_uuid identifier then
        await pgTenant <- supabase.tenants_by_id identifier;
        match pgTenant with
        | Some r =>
            await tenant <- convert r; ret (Some tenant, Some src_postgres)
        | None => resolve_by_external_id identifier
        end
      else resolve_by_external_id identifier
  end.

End TenantService.

(* ===================================================================== *)
(** ** UsageService (data-service.tsx) *)
(* ===================================================================== *)

Module UsageService.

(** The key template of [get] and [record]. *)
Definition key (tenantId metric p : string) : string :=
  "usage:" +:+ tenantId +:+ ":" +:+ metric +:+ ":" +:+ p.

(** [Math.min(100, Math.round((value / limit) * 100))] *)
Definition percentage_of (value limit : Js.number) : Js.number :=
  Js.Math_min 100 (Js.Math_round (PrimFloat.mul (PrimFloat.div value limit) 100)).

Definition get (tenantId metric : string) (period : option string)
  : M (option UsageRecord) :=
  await p <- period_or_current period;
  await v <- kv_store.get (key tenantId metric p);
  ret (as_usage v).

Definition record (tenantId metric : string) (value limit : Js.number)
                  (period : option string) : M UsageRecord :=
  await p <- period_or_current period;
  let id := key tenantId metric p in
  await d <- new_Date;
  let today := today_of d in
  await existing <- kv_store.get id;
  let daily := <[today := value]> (default ∅ (as_usage existing ≫= u_daily)) in
  await stamp <- new_Date;
  let usage :=
    {| u_id := Some id;
       u_tenantId := Some tenantId;
       u_metric := metric;
       u_period := p;
       u_current := value;
       u_limit := limit;
       u_percentage := Some (percentage_of value limit);
       u_daily := Some daily;
       u_updatedAt := Some (Js.toISOString stamp);
       u_updated_at := None |} in
  await_ kv_store.set id (VUsage usage);
  ret usage.

(** [amount] defaults to 1 when the caller passes [undefined]. *)
Definition increment (tenantId metric : string) (amount : option Js.number)
                     (limit : Js.number) (period : option string)
  : M UsageRecord :=
  let amount := default 1%float amount in
  await existing <- get tenantId metric period;
  let currentValue :=
    Js.or_undef_num (u_current <$> existing) 0%float in
  record tenantId metric (PrimFloat.add currentValue amount) limit period.

Definition isOverLimit (tenantId metric : string) (period : option string)
  : M bool :=
  await usage <- get tenantId metric period;
  ret match usage with
      | Some u => Js.ge (u_current u) (u_limit u)
      | None => false
      end.

End UsageService.

(* ===================================================================== *)
(** ** FeatureFlagService (data-service.tsx) *)
(* ===================================================================== *)

Definition status_eqb (a b : FeatureFlagStatus) : bool :=
  match a, b with
  | enabled, enabled | disabled, disabled | beta, beta => true
  | _, _ => false
  end.

Module FeatureFlagService.

(** [flag.xs?.includes(id)] *)
Definition opt_includes (xs : option (list string)) (id : string) : bool :=
  match xs with
  | Some l => Js.includes l id
  | None => false
  end.

(** The tenant's rollout bucket: the character-code sum, [% 100]. *)
Definition bucket (tenantId : string) : Z :=
  Z.rem (Js.charCodeSum tenantId) 100.

Definition list : M (list FeatureFlag) :=
  await vs <- kv_store.getByPrefix "flag:"; ret (flags_of vs).

Definition isEnabled (flagKey tenantId : string) (planType : option string)
  : M bool :=
  await flags <- list;
  ret match List.find (fun f => String.eqb (f_key f) flagKey) flags with
      | None => false
      | Some flag =>
          if status_eqb (f_status flag) disabled then false
          else if opt_includes (f_disabledForTenants flag) tenantId then false
          else if opt_includes (f_enabledForTenants flag) tenantId then true
          else if
            match planType, f_enabledForPlans flag with
            | Some p, Some plans => Js.truthy_str p && negb (Js.includes plans p)
            | _, _ => false
            end
          then false
          else
            match f_rolloutPercentage flag with
            | Some pct =>
                if pct <? 100 then bucket tenantId <? pct
                else status_eqb (f_status flag) enabled
            | None => status_eqb (f_status flag) enabled
            end
      end.

End FeatureFlagService.

(* ===================================================================== *)
(** ** Usage routes (routes/usage.tsx) *)
(* ===================================================================== *)

(** A handler's JSON answer: [200] with data, or [404] with an error. *)
Inductive Response (A : Type) :=
| ok (data : A)
| not_found (error : string).
Arguments ok {A} data.
Arguments not_found {A} error.

(** An item of the usage listing. *)
Record UsageView := mkUsageView {
  uv_metric : string;
  uv_current : Js.number;
  uv_limit : Js.number;
  uv_unit : string;
}.

Module usage_routes.

(** The key template of the route layer. *)
Definition key (tenantId period metric : string) : string :=
  "usage:" +:+ tenantId +:+ ":" +:+ period +:+ ":" +:+ metric.

(** [`plan:plan_${tenant.plan.toLowerCase()}`] *)
Definition plan_key (plan : string) : string :=
  "plan:plan_" +:+ Js.toLowerCase_latin1 plan.

(** [metric === 'api_calls' ? 'apiCalls' : metric] *)
Definition metric_key (metric : string) : string :=
  if String.eqb metric "api_calls" then "apiCalls" else metric.

(** [metric === 'storage' ? 'GB' : metric === 'api_calls' ? '/month' : ''] *)
Definition unit_of (metric : string) : string :=
  if String.eqb metric "storage" then "GB"
  else if String.eqb metric "api_calls" then "/month" else "".

(** The record a route writes for a metric it has not seen this period. *)
Definition fresh (metric : string) (current limit : Js.number)
                 (period stamp : string) : UsageRecord :=
  {| u_id := None;
     u_tenantId := None;
     u_metric := metric;
     u_period := period;
     u_current := current;
     u_limit := limit;
     u_percentage := None;
     u_daily := None;
     u_updatedAt := None;
     u_updated_at := Some stamp |}.

(** [trackUsage(tenantId, metric, amount = 1)] *)
Definition trackUsage (tenantId metric : string) (amount : option Js.number)
  : M unit :=
  let amount := default 1%float amount in
  await d <- new_Date;
  let period := period_of d in
  let key := key tenantId period metric in
  await existing <- kv_store.get key;
  match as_usage existing with
  | None =>
      await tenant <- kv_store.get ("tenant:" +:+ tenantId);
      await limit <-
        match as_tenant tenant with
        | Some t =>
            await planData <- kv_store.get (plan_key (t_plan t));
            ret match as_plan planData ≫= p_limits with
                | Some limits => Js.or_get limits (metric_key metric) 1000%float
                | None => 1000%float
                end
        | None => ret 1000%float
        end;
      await stamp <- new_Date;
      kv_store.set key
        (VUsage (fresh metric amount limit period (Js.toISOString stamp)))
  | Some existing =>
      await stamp <- new_Date;
      kv_store.set key
        (VUsage (with_current existing
                   (PrimFloat.add (Js.or_num (u_current existing) 0%float) amount)
                   (Js.toISOString stamp)))
  end.

(** The hard-coded limit profiles, by plan name. *)
Definition limits_table (rooms users properties api_calls storage : Js.number)
  : gmap string Js.number :=
  list_to_map [("rooms", rooms); ("users", users); ("properties", properties);
               ("api_calls", api_calls); ("storage", storage)].

(** What [fallbackLimits[plan]] is when the plan is not one of the four
    but the name of a property the table inherits: the function (or the
    prototype object) found under the name.  It is truthy, so it is taken
    for the tenant's table, and it has none of the limit names [rooms],
    [users], [properties], [apiCalls], [api_calls], [storage] as a property:
    read at these it is a table without entries.  (Its other properties, as
    [length] and [name] of a function, are left out.) *)
Definition inheritedTable : gmap string Js.number := ∅.

(** [fallbackLimits[plan]] *)
Definition fallbackLimits (plan : string) : option (gmap string Js.number) :=
  if String.eqb plan "Trial" then Some (limits_table 10 3 1 1000 1)
  else if String.eqb plan "Basic" then Some (limits_table 25 5 1 10000 10)
  else if String.eqb plan "Pro" then Some (limits_table 35 10 2 100000 50)
  else if String.eqb plan "Enterprise" then Some (limits_table 50 15 3 999999 500)
  else if Js.inherited plan then Some inheritedTable
  else None.

Definition trialLimits : gmap string Js.number := limits_table 10 3 1 1000 1.

Definition defaultMetrics : list string :=
  ["rooms"; "users"; "properties"; "api_calls"; "storage"].

(** [limits[metric === 'api_calls' ? 'apiCalls' : metric] || limits[metric] || 0] *)
Definition limit_in (limits : gmap string Js.number) (metric : string)
  : Js.number :=
  Js.or_get limits (metric_key metric) (Js.or_get limits metric 0%float).

(** The limits of the tenant's current plan, as the listing derives them
    once usage records exist. *)
Definition currentPlanLimits (planData : option Plan) (plan : string)
  : gmap string Js.number :=
  match planData ≫= p_limits with
  | Some l =>
      let field k := Js.or_undef_num (l !! k) 0%float in
      limits_table (field "rooms") (field "users") (field "properties")
        (Js.or_undef_num (l !! "apiCalls")
           (Js.or_undef_num (l !! "api_calls") 0%float))
        (field "storage")
  | None => default trialLimits (fallbackLimits plan)
  end.

(** First-time initialisation: one zeroed record per default metric. *)
Fixpoint initialise (kvTenantId period : string)
                    (limits : gmap string Js.number) (metrics : list string)
  : M unit :=
  match metrics with
  | [] => ret tt
  | metric :: rest =>
      await stamp <- new_Date;
      await_ kv_store.set (key kvTenantId period metric)
               (VUsage (fresh metric 0%float (limit_in limits metric) period
                          (Js.toISOString stamp)));
      initialise kvTenantId period limits rest
  end.

(** The reconciliation loop over the records found: a record whose limit
    differs from the current plan's is rewritten with the plan's. *)
Fixpoint reconcile (kvTenantId period : string)
                   (limits : gmap string Js.number) (records : list UsageRecord)
  : M (list UsageView) :=
  match records with
  | [] => ret []
  | record :: rest =>
      let metric := u_metric record in
      let correctLimit := Js.or_get limits metric (u_limit record) in
      await_ (if Js.strict_ne correctLimit (u_limit record) then
                await stamp <- new_Date;
                kv_store.set (key kvTenantId period metric)
                  (VUsage (with_limit record correctLimit (Js.toISOString stamp)))
              else ret tt);
      await views <- reconcile kvTenantId period limits rest;
      ret (mkUsageView metric (u_current record) correctLimit (unit_of metric)
             :: views)
  end.

(** The loop that adds the required metrics no record was found for. *)
Fixpoint complete (kvTenantId period : string)
                  (limits : gmap string Js.number)
                  (existingMetrics metrics : list string)
  : M (list UsageView) :=
  match metrics with
  | [] => ret []
  | metric :: rest =>
      if Js.includes existingMetrics metric then
        complete kvTenantId period limits existingMetrics rest
      else
        let limit := Js.or_get limits metric 0%float in
        await stamp <- new_Date;
        await_ kv_store.set (key kvTenantId period metric)
                 (VUsage (fresh metric 0%float limit period (Js.toISOString stamp)));
        await views <- complete kvTenantId period limits existingMetrics rest;
        ret (mkUsageView metric 0%float limit (unit_of metric) :: views)
  end.

(** The tenant lookup of the listing: store first, then the relational
    table by external id and, failing that, by primary key.  Only [id] and
    [plan] of the result are read afterwards. *)
Definition find_tenant (tenantId : string) : M (option (string * string)) :=
  await tenant <- kv_store.get ("tenant:" +:+ tenantId);
  match as_tenant tenant with
  | Some t => ret (Some (t_id t, t_plan t))
  | None =>
      await byExternal <- supabase.tenants_by_external_id tenantId;
      await pgTenant <-
        match byExternal with
        | Some r => ret (Some r)
        | None => supabase.tenants_by_id tenantId
        end;
      ret ((fun r =>
              let setting (k : string) : option string :=
                s ← pg_settings r; s !! k in
              (Js.or_str (setting "external_id") (pg_id r),
               Js.or_str (setting "plan") "Trial")) <$> pgTenant)
  end.

(** [GET /tenants/:tenantId/usage] *)
Definition list_usage (tenantId : string) : M (Response (list UsageView)) :=
  await tenant <- find_tenant tenantId;
  match tenant with
  | None => ret (not_found "Tenant not found")
  | Some (id, plan) =>
      let kvTenantId := Js.or_str (Some id) tenantId in
      await d <- new_Date;
      let period := period_of d in
      await found <-
        kv_store.getByPrefix ("usage:" +:+ kvTenantId +:+ ":" +:+ period +:+ ":");
      let usageRecords := usages_of found in
      match usageRecords with
      | [] =>
          await planData <- kv_store.get (plan_key plan);
          let limits :=
            default (default trialLimits (fallbackLimits plan))
                    (as_plan planData ≫= p_limits) in
          await_ initialise kvTenantId period limits defaultMetrics;
          ret (ok (map (fun metric =>
                          mkUsageView metric 0%float (limit_in limits metric)
                                      (unit_of metric))
                       defaultMetrics))
      | _ =>
          await planData <- kv_store.get (plan_key plan);
          let limits := currentPlanLimits (as_plan planData) plan in
          await usage <- reconcile kvTenantId period limits usageRecords;
          await added <-
            complete kvTenantId period limits (map u_metric usageRecords)
                     defaultMetrics;
          ret (ok (usage ++ added)%list)
      end
  end.

End usage_routes.

(* ===================================================================== *)
(** ** Feature routes (routes/features.tsx) *)
(* ===================================================================== *)

(** An item of the tenant feature listing. *)
Record FeatureView := mkFeatureView {
  fv_id : string;
  fv_key : string;
  fv_name : string;
  fv_enabled : bool;
  fv_planLocked : bool;
  fv_scope : option FeatureFlagScope;
}.

Module features_routes.

(** [tenantIdentifiers]: the id, and the uuid when it is set and differs. *)
Definition tenantIdentifiers (tenant : Tenant) : list string :=
  t_id tenant ::
  match t_uuid tenant with
  | Some uuid =>
      if Js.truthy_str uuid && negb (String.eqb uuid (t_id tenant))
      then [uuid] else []
  | None => []
  end.

(** The body of [allFeatures.map(...)]. *)
Definition view (tenant : Tenant) (feature : FeatureFlag) : FeatureView :=
  let ids := tenantIdentifiers tenant in
  let isExplicitlyEnabled :=
    existsb (FeatureFlagService.opt_includes (f_enabledForTenants feature)) ids in
  let isExplicitlyDisabled :=
    existsb (FeatureFlagService.opt_includes (f_disabledForTenants feature)) ids in
  let enabled :=
    if isExplicitlyEnabled then true
    else if isExplicitlyDisabled then false
    else FeatureFlagService.opt_includes (f_enabledForPlans feature) (t_plan tenant) in
  {| fv_id := f_id feature;
     fv_key := f_key feature;
     fv_name := f_name feature;
     fv_enabled := enabled;
     fv_planLocked :=
       match f_scope feature with Some scope_plan => true | _ => false end;
     fv_scope := f_scope feature |}.

(** [GET /tenants/:tenantId/features] *)
Definition tenant_features (tenantId : string)
  : M (Response (list FeatureView)) :=
  await resolved <- TenantService.resolve tenantId;
  match fst resolved with
  | None => ret (not_found "Tenant not found")
  | Some tenant =>
      await allFeatures <- kv_store.getByPrefix "feature:";
      ret (ok (map (view tenant) (flags_of allFeatures)))
  end.

End features_routes.

(* ===================================================================== *)
(** ** Worlds *)
(* ===================================================================== *)

(** The same world at another reading of the clock. *)
Definition at_time (d : Js.Date) (w : World) : World :=
  mkWorld (kv w) (pg w) d (log w).

(** The [tenants] table has [id] as its primary key. *)
Definition primary_key (rows : list PgTenant) : Prop :=
  NoDup (map (fun r => Js.toLowerCase (pg_id r)) rows).

(** At most one tenant per external code. *)
Definition one_tenant_per_code (rows : list PgTenant) : Prop :=
  forall r1 r2 code,
    r1 ∈ rows -> r2 ∈ rows ->
    supabase.external_id r1 = Some code ->
    supabase.external_id r2 = Some code ->
    r1 = r2.

(** Two tenant objects with the same id, uuid, name, status, plan, contact
    and mapped settings fields (every attribute but the derived creation
    day [created]). *)
Definition same_attributes (a b : Tenant) : Prop :=
  t_id a = t_id b /\ t_uuid a = t_uuid b /\ t_name a = t_name b
  /\ t_status a = t_status b /\ t_plan a = t_plan b
  /\ t_email a = t_email b /\ t_phone a = t_phone b
  /\ t_address a = t_address b /\ t_city a = t_city b
  /\ t_state a = t_state b /\ t_country a = t_country b
  /\ t_postalCode a = t_postalCode b /\ t_website a = t_website b
  /\ t_industry a = t_industry b /\ t_size a = t_size b
  /\ t_timezone a = t_timezone b /\ t_currency a = t_currency b
  /\ t_logo a = t_logo b /\ t_primaryColor a = t_primaryColor b
  /\ t_createdAt a = t_createdAt b /\ t_lastActiveAt a = t_lastActiveAt b.

(** The scope rules of a flag, in the words of the specification. *)

(** The identifier is on an (optional) list of the flag. *)
Definition on_list (xs : option (list string)) (x : string) : Prop :=
  exists l, xs = Some l /\ x ∈ l.

(** A plan name is supplied and the flag declares an entitled-plan list that
    does not include it. *)
Definition plan_excluded (planType : option string) (flag : FeatureFlag) : Prop :=
  exists p plans,
    planType = Some p /\ p <> "" /\ f_enabledForPlans flag = Some plans /\ p ∉ plans.

(** The flag the evaluator picks for a key: the first one listed with it. *)
Definition flag_for (flagKey : string) (w : World) : option FeatureFlag :=
  List.find (fun f => String.eqb (f_key f) flagKey) (fst (FeatureFlagService.list w)).

(** Concrete data for the examples below. *)
Module Sample.

Definition nov2 : Js.Date := Js.mkDate 2026 10 "2026-11-02T04:46:00.000Z".
Definition nov20 : Js.Date := Js.mkDate 2026 10 "2026-11-20T18:00:00.000Z".

(** Nothing stored anywhere. *)
Definition empty : World := mkWorld ∅ [] nov2 [].

(** A record as [UsageService.record] leaves it: 100 of 100 used. *)
Definition full_record : UsageRecord :=
  {| u_id := Some "usage:tn_1:api_calls:2026-11";
     u_tenantId := Some "tn_1";
     u_metric := "api_calls";
     u_period := "2026-11";
     u_current := 100%float;
     u_limit := 100%float;
     u_percentage := Some 100%float;
     u_daily := Some {[ "2026-11-01" := 100%float ]};
     u_updatedAt := Some "2026-11-01T09:00:00.000Z";
     u_updated_at := None |}.

Definition service_ledger : World :=
  mkWorld {[ "usage:tn_1:api_calls:2026-11" := VUsage full_record ]} [] nov2 [].

(** A tenant now on plan Pro, whose [api_calls] record for the month was
    created while the plan allowed 1000 calls. *)
Definition tn_1 : Tenant :=
  {| t_id := "tn_1"; t_uuid := None; t_name := "Hotel Adriatik";
     t_status := "active"; t_plan := "Pro"; t_email := ""; t_phone := "";
     t_address := ""; t_city := ""; t_state := ""; t_country := "";
     t_postalCode := ""; t_website := ""; t_industry := ""; t_size := "";
     t_timezone := "UTC"; t_currency := "USD"; t_logo := "";
     t_primaryColor := "#ea580c"; t_createdAt := None;
     t_created := "2026-01-15"; t_lastActiveAt := None |}.

Definition plan_pro : Plan :=
  {| p_name := "Pro";
     p_limits := Some (list_to_map [("rooms", 35%float); ("users", 10%float);
                                    ("properties", 2%float);
                                    ("apiCalls", 100000%float);
                                    ("storage", 50%float)]) |}.

Definition tracked_record : UsageRecord :=
  usage_routes.fresh "api_calls" 40%float 1000%float "2026-11"
                     "2026-11-01T09:00:00.000Z".

Definition route_ledger : World :=
  mkWorld (list_to_map [("tenant:tn_1", VTenant tn_1);
                        ("plan:plan_pro", VPlan plan_pro);
                        ("usage:tn_1:2026-11:api_calls", VUsage tracked_record)])
          [] nov2 [].

(** Two tenants that live in the relational table only. *)
Definition row_7 : PgTenant :=
  {| pg_id := "123e4567-e89b-12d3-a456-426614174000";
     pg_name := "Hotel Dajti";
     pg_status := "active";
     pg_email := Some "info@dajti.example";
     pg_phone := None;
     pg_settings := Some (list_to_map [("external_id", "T-7"); ("plan", "Basic");
                                       ("city", "Tirana");
                                       ("postal_code", "1001")]);
     pg_created_at := Some "2025-03-09T10:15:00.000Z" |}.

Definition row_8 : PgTenant :=
  {| pg_id := "9b2f0c1e-0a4d-4c6b-8f3e-5d7a1b2c3d4e";
     pg_name := "Vila Ksamil";
     pg_status := "trial";
     pg_email := None;
     pg_phone := None;
     pg_settings := Some (list_to_map [("external_id", "T-8")]);
     pg_created_at := None |}.

Definition relational_only : World := mkWorld ∅ [row_7; row_8] nov2 [].

(** The same with tenant [tn_1] in the key-value store. *)
Definition both_stores : World :=
  mkWorld {[ "tenant:tn_1" := VTenant tn_1 ]} [row_7; row_8] nov2 [].

(** A flag with all five rules present at once. *)
Definition new_ui : FeatureFlag :=
  {| f_id := "ff_1"; f_key := "new_ui"; f_name := "New UI";
     f_scope := Some scope_plan; f_status := enabled;
     f_enabledForPlans := Some ["Pro"; "Enterprise"];
     f_enabledForTenants := Some ["T-1"; "T-2"];
     f_disabledForTenants := Some ["T-1"; "T-3"];
     f_rolloutPercentage := Some 50 |}.

(** A disabled flag that still declares a rollout. *)
Definition reports : FeatureFlag :=
  {| f_id := "ff_2"; f_key := "reports"; f_name := "Reports";
     f_scope := Some scope_global; f_status := disabled;
     f_enabledForPlans := Some ["Basic"; "Pro"]; f_enabledForTenants := None;
     f_disabledForTenants := None; f_rolloutPercentage := Some 50 |}.

(** A beta flag with a rollout, and one without. *)
Definition beta_rollout : FeatureFlag :=
  {| f_id := "ff_3"; f_key := "beta_rollout"; f_name := "Beta rollout";
     f_scope := None; f_status := beta;
     f_enabledForPlans := None; f_enabledForTenants := None;
     f_disabledForTenants := None; f_rolloutPercentage := Some 50 |}.

Definition beta_plain : FeatureFlag :=
  {| f_id := "ff_4"; f_key := "beta_plain"; f_name := "Beta plain";
     f_scope := None; f_status := beta;
     f_enabledForPlans := None; f_enabledForTenants := None;
     f_disabledForTenants := None; f_rolloutPercentage := Some 100 |}.

Definition T_1 : Tenant :=
  {| t_id := "T-1"; t_uuid := Some "5f0c2a9e-7b1d-4e3a-9c8b-2d4f6a8c0e1b";
     t_name := "Hotel Butrinti"; t_status := "active"; t_plan := "Basic";
     t_email := ""; t_phone := ""; t_address := ""; t_city := "";
     t_state := ""; t_country := ""; t_postalCode := ""; t_website := "";
     t_industry := ""; t_size := ""; t_timezone := "UTC";
     t_currency := "USD"; t_logo := ""; t_primaryColor := "#ea580c";
     t_createdAt := None; t_created := "2026-02-01"; t_lastActiveAt := None |}.

(** The flags under [flag:], the same objects as features under
    [feature:], and the tenant [T-1]. *)
Definition flags_world : World :=
  mkWorld (list_to_map [("flag:ff_1", VFlag new_ui);
                        ("flag:ff_2", VFlag reports);
                        ("flag:ff_3", VFlag beta_rollout);
                        ("flag:ff_4", VFlag beta_plain);
                        ("feature:new_ui", VFlag new_ui);
                        ("feature:reports", VFlag reports);
                        ("tenant:T-1", VTenant T_1)])
          [] nov2 [].

End Sample.

(* ===================================================================== *)
(** ** List helpers of the data service (data-service.tsx) *)
(* ===================================================================== *)

Module Pagination.

Record PaginationParams := mkParams {
  page : option Z;
  limit : option Z;
}.

Record PageInfo := mkPageInfo {
  pi_page : Z;
  pi_limit : Z;
  pi_total : Z;
  pi_totalPages : Z;
  hasNext : bool;
  hasPrev : bool;
}.

Record PaginationResult (T : Type) := mkResult {
  data : list T;
  pagination : PageInfo;
}.
Arguments mkResult {T} data pagination.
Arguments data {T} _.
Arguments pagination {T} _.

(** [x || d] on a page number or page size: these are integers, and on
    integers below 2^53 the number arithmetic used here is exact. *)
Definition or_int (o : option Z) (d : Z) : Z :=
  match o with
  | Some x => if x =? 0 then d else x
  | None => d
  end.

(** [Math.ceil(a / b)] for a divisor that is not zero. *)
Definition ceil_div (a b : Z) : Z := - ((- a) / b).

(** [items.slice(start, end)]: a negative index counts from the end, and
    both are clamped to the list. *)
Definition slice {T} (items : list T) (start end_ : Z) : list T :=
  let len := Z.of_nat (length items) in
  let clamp i := if i <? 0 then Z.max (len + i) 0 else Z.min i len in
  let from := clamp start in
  let to := clamp end_ in
  firstn (Z.to_nat (to - from)) (skipn (Z.to_nat from) items).

Definition paginateArray {T} (items : list T) (params : option PaginationParams)
  : PaginationResult T :=
  let page := or_int (params ≫= page) 1 in
  let limit := or_int (params ≫= limit) 50 in
  let total := Z.of_nat (length items) in
  let totalPages := ceil_div total limit in
  let start := (page - 1) * limit in
  let end_ := start + limit in
  {| data := slice items start end_;
     pagination := {| pi_page := page;
                      pi_limit := limit;
                      pi_total := total;
                      pi_totalPages := totalPages;
                      hasNext := page <? totalPages;
                      hasPrev := 1 <? page |} |}.

(** The request for page [p] with [l] items a page. *)
Definition request (p l : Z) : option PaginationParams :=
  Some (mkParams (Some p) (Some l)).

End Pagination.

(* ===================================================================== *)
(** ** More of TenantService and UsageService (data-service.tsx) *)
(* ===================================================================== *)

Module TenantCounts.

(** A property of the [counts] object: a count, or the text that [+ 1]
    makes of the value the object inherits under a name, which is that
    value's text followed by one digit [1] for every [+ 1] so far. *)
Inductive Count :=
| Num (n : Z)
| Text (name : string) (ones : nat).

(** [counts[k] = (counts[k] || 0) + 1].  Where the object has no entry
    for [k] it reads what it inherits: under most inherited names a
    function, whose text with a [1] appended becomes the entry; under
    [__proto__] the prototype, and the assignment of a text to [__proto__]
    is ignored. *)
Definition bump (counts : gmap string Count) (k : string) : gmap string Count :=
  match counts !! k with
  | Some (Num n) => <[k := Num (Pagination.or_int (Some n) 0 + 1)]> counts
  | Some (Text name ones) => <[k := Text name (S ones)]> counts
  | None =>
      if String.eqb k "__proto__" then counts
      else if Js.inherited k then <[k := Text k 1]> counts
      else <[k := Num 1]> counts
  end.

(** [values.forEach(...)] from the empty object, over the property keys
    the values give. *)
Definition tally (keys : list string) : gmap string Count :=
  fold_left bump keys ∅.

Definition status_text (s : FeatureFlagStatus) : string :=
  match s with
  | enabled => "enabled"
  | disabled => "disabled"
  | beta => "beta"
  end.

(** [counts[value.status]] and [counts[value.plan]] are addressed by the
    text of the property; a value that has no such property (a usage
    record, a plan object; in the store also the arrays kept under
    [tenant:<id>:rooms] and [tenant:<id>:room_categories]) gives the key
    [undefined]. *)
Definition status_key (v : KvValue) : string :=
  match v with
  | VTenant t => t_status t
  | VFlag f => status_text (f_status f)
  | VUsage _ | VPlan _ => "undefined"
  end.

Definition plan_key (v : KvValue) : string :=
  match v with
  | VTenant t => t_plan t
  | VUsage _ | VFlag _ | VPlan _ => "undefined"
  end.

(** The scan is cast to [Tenant[]], not filtered: every value under the
    prefix is counted. *)
Definition countByStatus : M (gmap string Count) :=
  await vs <- kv_store.getByPrefix "tenant:"; ret (tally (map status_key vs)).

Definition countByPlan : M (gmap string Count) :=
  await vs <- kv_store.getByPrefix "tenant:"; ret (tally (map plan_key vs)).

(** How many of the values give the key [k]. *)
Definition having (key : KvValue -> string) (k : string) (vs : list KvValue)
  : Z :=
  Z.of_nat (length (List.filter (fun v => String.eqb (key v) k) vs)).

(** The sum of the counts of a table. *)
Definition count_of (c : Count) : Z :=
  match c with
  | Num n => n
  | Text _ _ => 0
  end.

Definition sum_of (counts : gmap string Count) : Z :=
  map_fold (fun _ c acc => count_of c + acc) 0 counts.

(** A table as the loop builds it under keys that no object inherits:
    every entry is a positive count. *)
Definition counted (counts : gmap string Count) : Prop :=
  forall k c, counts !! k = Some c -> exists n, c = Num n /\ 0 < n.

End TenantCounts.

Module UsageServiceMore.

(** [UsageService.getAll(tenantId, period?)]: the period is worked out and
    then not used: the scan is over the tenant's whole prefix. *)
Definition getAll (tenantId : string) (period : option string)
  : M (list UsageRecord) :=
  await p <- period_or_current period;
  await vs <- kv_store.getByPrefix ("usage:" +:+ tenantId +:+ ":");
  ret (usages_of vs).

End UsageServiceMore.

(* ===================================================================== *)
(** ** More of the usage routes (routes/usage.tsx) *)
(* ===================================================================== *)

Module kv_store_more.

(** Modelled from the spec: [del(key) -> void] of the absent [kv_store.tsx];
    the key holds nothing afterwards.  (The call log of a world lists its
    reads and writes; a deletion shows in the store.) *)
Definition del (key : string) : M unit :=
  fun w => (tt, mkWorld (delete key (kv w)) (pg w) (now w) (log w)).

End kv_store_more.

Module usage_routes_more.

(** The prefix under which the routes keep a tenant's records of a period. *)
Definition period_prefix (tenantId period : string) : string :=
  "usage:" +:+ tenantId +:+ ":" +:+ period +:+ ":".

(** [POST /tenants/:tenantId/usage/:metric/set] with [value] in the body. *)
Definition set_usage (tenantId metric : string) (value : Js.number) : M unit :=
  await d <- new_Date;
  let period := period_of d in
  let key := usage_routes.key tenantId period metric in
  await existing <- kv_store.get key;
  let limit := Js.or_undef_num (u_limit <$> as_usage existing) 1000%float in
  await stamp <- new_Date;
  kv_store.set key
    (VUsage (usage_routes.fresh metric value limit period (Js.toISOString stamp))).

(** The loop of the reset route: [{...record, current: 0, updated_at}]
    written at the key the record's metric names. *)
Fixpoint reset_all (tenantId period : string) (records : list UsageRecord)
  : M unit :=
  match records with
  | [] => ret tt
  | record :: rest =>
      await stamp <- new_Date;
      await_ kv_store.set (usage_routes.key tenantId period (u_metric record))
               (VUsage (with_current record 0%float (Js.toISOString stamp)));
      reset_all tenantId period rest
  end.

(** [POST /tenants/:tenantId/usage/reset] *)
Definition reset_usage (tenantId : string) : M unit :=
  await d <- new_Date;
  let period := period_of d in
  await found <- kv_store.getByPrefix (period_prefix tenantId period);
  reset_all tenantId period (usages_of found).

(** The loop of the delete route. *)
Fixpoint delete_all (tenantId period : string) (records : list UsageRecord)
  : M unit :=
  match records with
  | [] => ret tt
  | record :: rest =>
      await_ kv_store_more.del
               (usage_routes.key tenantId period (u_metric record));
      delete_all tenantId period rest
  end.

(** [DELETE /tenants/:tenantId/usage] *)
Definition delete_usage (tenantId : string) : M unit :=
  await d <- new_Date;
  let period := period_of d in
  await found <- kv_store.getByPrefix (period_prefix tenantId period);
  delete_all tenantId period (usages_of found).

(** The routes keep a record at the key its metric names: every usage
    record under the tenant's prefix for the period sits at
    [usage:<tenantId>:<period>:<record.metric>]. *)
Definition keyed_by_metric (tenantId period : string) (w : World) : Prop :=
  forall k r,
    kv w !! k = Some (VUsage r) ->
    String.prefix (period_prefix tenantId period) k = true ->
    k = usage_routes.key tenantId period (u_metric r).

End usage_routes_more.

(* ===================================================================== *)
(** ** More of the feature routes (routes/features.tsx) *)
(* ===================================================================== *)

Definition as_flag (v : option KvValue) : option FeatureFlag :=
  match v with Some (VFlag f) => Some f | _ => None end.

Module features_routes_more.

(** An element of [body.features] of the initialise route: what it may
    leave out is optional. *)
Record FeatureInput := mkFeatureInput {
  fi_key : string;
  fi_name : string;
  fi_status : option FeatureFlagStatus;
  fi_enabledForPlans : option (list string);
  fi_enabledForTenants : option (list string);
  fi_disabledForTenants : option (list string);
  fi_rolloutPercentage : option Z;
}.

(** The [featureData] object literal. *)
Definition featureData (feature : FeatureInput) : FeatureFlag :=
  {| f_id := "feature:" +:+ fi_key feature;
     f_key := fi_key feature;
     f_name := fi_name feature;
     f_scope := None;
     f_status := default enabled (fi_status feature);
     f_enabledForPlans := Some (default [] (fi_enabledForPlans feature));
     f_enabledForTenants := Some (default [] (fi_enabledForTenants feature));
     f_disabledForTenants := Some (default [] (fi_disabledForTenants feature));
     f_rolloutPercentage :=
       Some (Pagination.or_int (fi_rolloutPercentage feature) 100) |}.

(** [POST /initialize]: each feature is stored under [feature:<key>]. *)
Fixpoint initialize (features : list FeatureInput) : M (list FeatureFlag) :=
  match features with
  | [] => ret []
  | feature :: rest =>
      await_ kv_store.set ("feature:" +:+ fi_key feature)
               (VFlag (featureData feature));
      await initialized <- initialize rest;
      ret (featureData feature :: initialized)
  end.

(** [list.filter(id => id !== x)] *)
Definition without (x : string) (l : list string) : list string :=
  List.filter (fun id => negb (String.eqb id x)) l.

(** [if (!list.includes(x)) list.push(x)] *)
Definition with_member (x : string) (l : list string) : list string :=
  if Js.includes l x then l else (l ++ [x])%list.

(** [{...feature, enabledForTenants, disabledForTenants}] *)
Definition with_tenant_lists (feature : FeatureFlag)
                             (enabledForTenants disabledForTenants : list string)
  : FeatureFlag :=
  mkFlag (f_id feature) (f_key feature) (f_name feature) (f_scope feature)
         (f_status feature) (f_enabledForPlans feature)
         (Some enabledForTenants) (Some disabledForTenants)
         (f_rolloutPercentage feature).

(** [{...feature, enabledForPlans}] *)
Definition with_plans (feature : FeatureFlag) (enabledForPlans : list string)
  : FeatureFlag :=
  mkFlag (f_id feature) (f_key feature) (f_name feature) (f_scope feature)
         (f_status feature) (Some enabledForPlans)
         (f_enabledForTenants feature) (f_disabledForTenants feature)
         (f_rolloutPercentage feature).

(** [POST /:key/tenants] with [{ tenant_id, enabled }] in the body. *)
Definition toggle_tenant (key tenant_id : string) (enabled : bool)
  : M (Response FeatureFlag) :=
  let featureId := "feature:" +:+ key in
  await found <- kv_store.get featureId;
  match as_flag found with
  | None => ret (not_found "Feature not found")
  | Some feature =>
      let enabledForTenants := default [] (f_enabledForTenants feature) in
      let disabledForTenants := default [] (f_disabledForTenants feature) in
      let updated :=
        if enabled then
          with_tenant_lists feature (with_member tenant_id enabledForTenants)
                            (without tenant_id disabledForTenants)
        else
          with_tenant_lists feature (without tenant_id enabledForTenants)
                            (with_member tenant_id disabledForTenants) in
      await_ kv_store.set featureId (VFlag updated);
      ret (ok updated)
  end.

(** [POST /:key/plans] with [{ plan, enabled }] in the body. *)
Definition toggle_plan (key plan : string) (enabled : bool)
  : M (Response FeatureFlag) :=
  let featureId := "feature:" +:+ key in
  await found <- kv_store.get featureId;
  match as_flag found with
  | None => ret (not_found "Feature not found")
  | Some feature =>
      let enabledForPlans := default [] (f_enabledForPlans feature) in
      let updated :=
        with_plans feature
          (if enabled then with_member plan enabledForPlans
           else without plan enabledForPlans) in
      await_ kv_store.set featureId (VFlag updated);
      ret (ok updated)
  end.

End features_routes_more.

(** More concrete data. *)
Module SampleMore.

(** Tenant [tn_1] on plan Pro with the plan object, and no usage yet. *)
Definition plan_only : World :=
  mkWorld (list_to_map [("tenant:tn_1", VTenant Sample.tn_1);
                        ("plan:plan_pro", VPlan Sample.plan_pro)])
          [] Sample.nov2 [].

End SampleMore.

(* ===================================================================== *)
(** * Properties *)
(* ===================================================================== *)

(** ** Running a handler *)

Ltac run :=
  unfold bind, ret, new_Date, getCurrentPeriod,
         kv_store.get, kv_store.set, kv_store.getByPrefix,
         supabase.tenants_by_id, supabase.tenants_by_external_id, emit;
  cbn [fst snd kv pg now log].

Lemma period_or_current_world period w :
  snd (period_or_current period w) = w.
Proof.
  unfold period_or_current.
  destruct period as [p|]; [destruct (Js.truthy_str p)|]; reflexivity.
Qed.

Lemma period_or_current_eta period w :
  period_or_current period w = (fst (period_or_current period w), w).
Proof.
  rewrite <- (period_or_current_world period w) at 3.
  destruct (period_or_current period w); reflexivity.
Qed.

(** ** JavaScript primitives *)
Module JsFacts.

Lemma includes_iff l x : Js.includes l x = true <-> x ∈ l.
Proof.
  unfold Js.includes. rewrite existsb_exists. split.
  - intros (y & Hin & Heq). apply String.eqb_eq in Heq. subst y.
    apply list_elem_of_In. assumption.
  - intros Hin. exists x. split; [apply list_elem_of_In; assumption|].
    apply String.eqb_refl.
Qed.

(** On a name that no object inherits, [obj[k] || d] is the own property
    or the default. *)
Lemma or_get_not_inherited obj k d :
  Js.inherited k = false -> Js.or_get obj k d = Js.or_undef_num (obj !! k) d.
Proof.
  intros Hk. unfold Js.or_get, Js.get. destruct (obj !! k); [reflexivity|].
  rewrite Hk. reflexivity.
Qed.

(** An own property is read as it is, whatever its name. *)
Lemma or_get_own obj k x d :
  obj !! k = Some x -> Js.or_get obj k d = Js.or_num x d.
Proof. intros Hk. unfold Js.or_get, Js.get. rewrite Hk. reflexivity. Qed.

End JsFacts.

(** ** UsageService *)

Module UsageFacts.

(** What [get] does: one point read at the service key. *)
Lemma get_run tenantId metric period w :
  let p := fst (period_or_current period w) in
  let k := UsageService.key tenantId metric p in
  UsageService.get tenantId metric period w
  = (as_usage (kv w !! k), emit (KvGet k) w).
Proof.
  cbn zeta. unfold UsageService.get, bind at 1.
  rewrite period_or_current_eta. run. reflexivity.
Qed.

(** What [record] does: one read and one write at the service key. *)
Lemma record_run tenantId metric value limit period w :
  let p := fst (period_or_current period w) in
  let k := UsageService.key tenantId metric p in
  let daily :=
    <[today_of (now w) := value]> (default ∅ (as_usage (kv w !! k) ≫= u_daily)) in
  let usage :=
    mkUsage (Some k) (Some tenantId) metric p value limit
            (Some (UsageService.percentage_of value limit)) (Some daily)
            (Some (Js.toISOString (now w))) None in
  UsageService.record tenantId metric value limit period w
  = (usage,
     mkWorld (<[k := VUsage usage]> (kv w)) (pg w) (now w)
             (log w ++ [KvGet k; KvSet k])%list).
Proof.
  cbn zeta. unfold UsageService.record, bind at 1.
  rewrite period_or_current_eta. run.
  rewrite <- app_assoc. reflexivity.
Qed.

(** The default period is read off the clock and off nothing else. *)
Lemma period_or_current_now period w1 w2 :
  now w1 = now w2 ->
  fst (period_or_current period w1) = fst (period_or_current period w2).
Proof.
  intros Hnow. unfold period_or_current.
  destruct period as [p|]; [destruct (Js.truthy_str p)|];
    cbn; unfold getCurrentPeriod; run; rewrite ?Hnow; reflexivity.
Qed.

(** Bring every reading of the period in the goal back to the world [w0],
    whose clock the others share. *)
Ltac same_clock period w0 :=
  repeat match goal with
         | |- context [period_or_current period ?W] =>
             lazymatch W with
             | w0 => fail
             | _ => rewrite (period_or_current_now period W w0 eq_refl)
             end
         end.

(** What [increment] does: read the current value, then [record] the sum. *)
Lemma increment_run tenantId metric amount limit period w :
  let p := fst (period_or_current period w) in
  let k := UsageService.key tenantId metric p in
  let currentValue :=
    Js.or_undef_num (u_current <$> as_usage (kv w !! k)) 0%float in
  UsageService.increment tenantId metric amount limit period w
  = UsageService.record tenantId metric
      (PrimFloat.add currentValue (default 1%float amount)) limit period
      (emit (KvGet k) w).
Proof.
  cbn zeta. unfold UsageService.increment, bind at 1.
  rewrite get_run. reflexivity.
Qed.

(** What [isOverLimit] does: one read, then the comparison. *)
Lemma isOverLimit_run tenantId metric period w :
  let p := fst (period_or_current period w) in
  let k := UsageService.key tenantId metric p in
  UsageService.isOverLimit tenantId metric period w
  = (match as_usage (kv w !! k) with
     | Some u => Js.ge (u_current u) (u_limit u)
     | None => false
     end, emit (KvGet k) w).
Proof.
  cbn zeta. unfold UsageService.isOverLimit, bind at 1.
  rewrite get_run. reflexivity.
Qed.

(** Equal numbers are ordered both ways (NaN equals nothing). *)
Lemma SFeqb_SFleb a b : SFeqb a b = true -> SFleb b a = true.
Proof.
  unfold SFeqb, SFleb.
  destruct a as [sa|sa| |sa ma ea], b as [sb|sb| |sb mb eb]; cbn;
    try discriminate; try reflexivity;
    try (destruct sa, sb; cbn; discriminate || reflexivity).
  destruct sa, sb; try discriminate;
    destruct (Z.compare_spec ea eb) as [He|He|He]; try discriminate; subst eb;
    rewrite Z.compare_refl;
    fold (Pos.compare ma mb); fold (Pos.compare mb ma);
    destruct (Pos.compare_spec ma mb) as [Hm|Hm|Hm]; cbn; try discriminate;
    subst mb; rewrite Pos.compare_refl; reflexivity.
Qed.

Lemma number_eq_ge (a b : Js.number) :
  PrimFloat.eqb a b = true -> Js.ge a b = true.
Proof.
  unfold Js.ge. rewrite FloatAxioms.eqb_spec, FloatAxioms.leb_spec. apply SFeqb_SFleb.
Qed.

(** C8.  When a usage record exists for the tenant, metric and period,
    [isOverLimit] answers true exactly when the record's current value is
    greater than or equal to its limit (the comparison [>=] of numbers); in
    particular it answers true when current equals limit. *)
Theorem isOverLimit_iff_current_ge_limit tenantId metric period w r :
  fst (UsageService.get tenantId metric period w) = Some r ->
  (fst (UsageService.isOverLimit tenantId metric period w) = true
   <-> PrimFloat.leb (u_limit r) (u_current r) = true)
  /\ (PrimFloat.eqb (u_current r) (u_limit r) = true ->
      fst (UsageService.isOverLimit tenantId metric period w) = true).
Proof.
  rewrite get_run, isOverLimit_run. cbn [fst].
  intros ->. split; [reflexivity | apply number_eq_ge].
Qed.

Lemma isOverLimit_iff_current_ge_limit_witness :
  fst (UsageService.get "tn_1" "api_calls" None Sample.service_ledger)
  = Some Sample.full_record
  /\ fst (UsageService.isOverLimit "tn_1" "api_calls" None Sample.service_ledger)
     = true.
Proof.
  assert (H : fst (UsageService.get "tn_1" "api_calls" None Sample.service_ledger)
              = Some Sample.full_record) by (vm_compute; reflexivity).
  split; [exact H|].
  apply (isOverLimit_iff_current_ge_limit "tn_1" "api_calls" None
           Sample.service_ledger Sample.full_record H).
  reflexivity.
Defined.

(** C10.  When no usage record exists for the tenant, metric and period,
    [isOverLimit] answers false, and it only reads: the store and the
    relational table are left as they were, and the one backend call it
    makes is the point read of the record's key. *)
Theorem isOverLimit_absent_false_no_write tenantId metric period w :
  fst (UsageService.get tenantId metric period w) = None ->
  let w' := snd (UsageService.isOverLimit tenantId metric period w) in
  fst (UsageService.isOverLimit tenantId metric period w) = false
  /\ kv w' = kv w
  /\ pg w' = pg w
  /\ log w' = (log w ++ [KvGet (UsageService.key tenantId metric
                                  (fst (period_or_current period w)))])%list.
Proof.
  rewrite get_run, isOverLimit_run. cbn [fst snd].
  intros ->. repeat split.
Qed.

Lemma isOverLimit_absent_false_no_write_witness :
  fst (UsageService.isOverLimit "tn_1" "storage" None Sample.service_ledger)
  = false
  /\ kv (snd (UsageService.isOverLimit "tn_1" "storage" None Sample.service_ledger))
     = kv Sample.service_ledger.
Proof.
  assert (H : fst (UsageService.get "tn_1" "storage" None Sample.service_ledger)
              = None) by (vm_compute; reflexivity).
  destruct (isOverLimit_absent_false_no_write "tn_1" "storage" None
              Sample.service_ledger H) as (Hf & Hkv & _).
  split; assumption.
Defined.

(** After [record], the record's key holds the record it returned. *)
Lemma record_stored tenantId metric value limit period w :
  let p := fst (period_or_current period w) in
  let k := UsageService.key tenantId metric p in
  let r := fst (UsageService.record tenantId metric value limit period w) in
  kv (snd (UsageService.record tenantId metric value limit period w)) !! k
  = Some (VUsage r)
  /\ u_current r = value
  /\ u_limit r = limit
  /\ u_percentage r = Some (UsageService.percentage_of value limit).
Proof.
  cbn zeta. rewrite record_run. cbn [fst snd kv].
  rewrite lookup_insert_eq. repeat split.
Qed.

(** C9.  Starting without a usage record, [increment(t, m, 5, 100)]
    followed by [increment(t, m, 3, 100)] in the same period (the clock may
    have moved on in between, within that period) leaves a stored record
    with [current = 8] and [percentage = 8]; it is also what the second
    call returns. *)
Theorem increment_5_then_3 tenantId metric period w later :
  fst (UsageService.get tenantId metric period w) = None ->
  fst (period_or_current period (at_time later w))
  = fst (period_or_current period w) ->
  let w1 :=
    snd (UsageService.increment tenantId metric (Some 5%float) 100%float period w) in
  let second :=
    UsageService.increment tenantId metric (Some 3%float) 100%float period
      (at_time later w1) in
  exists r,
    fst (UsageService.get tenantId metric period (snd second)) = Some r
    /\ fst second = r
    /\ u_current r = 8%float
    /\ u_percentage r = Some 8%float.
Proof.
  intros Habsent Hperiod. cbn zeta.
  rewrite get_run in Habsent. cbn [fst] in Habsent.
  remember (fst (period_or_current period w)) as p eqn:Hp.
  symmetry in Hp.
  remember (UsageService.key tenantId metric p) as k eqn:Hk.
  (* the first call *)
  rewrite (increment_run tenantId metric (Some 5%float) 100%float period w).
  cbn zeta. rewrite Hp, <- Hk, Habsent.
  rewrite record_run. cbn zeta.
  same_clock period w. rewrite Hp, <- Hk.
  cbn [snd fst emit kv pg now log].
  match goal with
  | |- context [at_time later ?w1] => remember w1 as first eqn:Hfirst
  end.
  assert (Hp1 : fst (period_or_current period (at_time later first)) = p).
  { rewrite (period_or_current_now period (at_time later first) (at_time later w) eq_refl).
    congruence. }
  assert (Hk1 : kv (at_time later first) !! k
                = Some (VUsage (mkUsage (Some k) (Some tenantId) metric p
                                  5%float 100%float (Some 5%float)
                                  (Some (<[today_of (now w) := 5%float]> ∅))
                                  (Some (Js.toISOString (now w))) None))).
  { rewrite Hfirst. cbn [at_time kv]. rewrite lookup_insert_eq, Habsent.
    reflexivity. }
  (* the second call *)
  rewrite increment_run. cbn zeta. rewrite Hp1, <- Hk, Hk1.
  cbn [as_usage fmap option_fmap option_map u_current Js.or_undef_num default].
  rewrite record_run. cbn zeta.
  same_clock period (at_time later first). rewrite Hp1, <- Hk.
  rewrite get_run. cbn zeta. cbn [snd fst].
  same_clock period (at_time later first). rewrite Hp1, <- Hk.
  cbn [kv]. rewrite lookup_insert_eq. cbn [as_usage].
  eexists. split; [reflexivity|]. repeat split.
Qed.

Lemma increment_5_then_3_witness :
  exists r,
    fst (UsageService.get "tn_1" "api_calls" None
           (snd (UsageService.increment "tn_1" "api_calls" (Some 3%float) 100%float None
                   (at_time Sample.nov20
                      (snd (UsageService.increment "tn_1" "api_calls" (Some 5%float)
                              100%float None Sample.empty))))))
    = Some r
    /\ u_current r = 8%float
    /\ u_percentage r = Some 8%float.
Proof.
  destruct (increment_5_then_3 "tn_1" "api_calls" None Sample.empty Sample.nov20)
    as (r & Hget & _ & Hcur & Hpct); [reflexivity | reflexivity |].
  exists r. repeat split; assumption.
Defined.

End UsageFacts.

(** ** Usage routes *)

Module UsageRouteFacts.

Lemma append_inj_r (s a b : string) : s +:+ a = s +:+ b -> a = b.
Proof.
  induction s as [|c s IH]; cbn; [trivial|].
  intros H. injection H as H. auto.
Qed.

(** Within one tenant and period, the route key determines the metric. *)
Lemma key_inj tenantId period m1 m2 :
  usage_routes.key tenantId period m1 = usage_routes.key tenantId period m2 ->
  m1 = m2.
Proof.
  unfold usage_routes.key. intros H.
  repeat apply append_inj_r in H. exact H.
Qed.

(** [trackUsage] on a metric already tracked this period: the stored object
    is spread and only [current] and [updated_at] are replaced. *)
Lemma trackUsage_existing tenantId metric amount w existing :
  let k := usage_routes.key tenantId (period_of (now w)) metric in
  as_usage (kv w !! k) = Some existing ->
  usage_routes.trackUsage tenantId metric amount w
  = (tt,
     mkWorld
       (<[k := VUsage (with_current existing
                         (PrimFloat.add (Js.or_num (u_current existing) 0%float)
                                        (default 1%float amount))
                         (Js.toISOString (now w)))]> (kv w))
       (pg w) (now w) (log w ++ [KvGet k; KvSet k])%list).
Proof.
  cbn zeta. intros Hk. unfold usage_routes.trackUsage. run.
  rewrite Hk. run. rewrite <- app_assoc. reflexivity.
Qed.

(** [trackUsage] on a metric not yet tracked this period: a new object with
    the five route fields, under a limit looked up from the tenant's plan. *)
Lemma trackUsage_fresh tenantId metric amount w :
  let period := period_of (now w) in
  let k := usage_routes.key tenantId period metric in
  as_usage (kv w !! k) = None ->
  exists limit reads,
    usage_routes.trackUsage tenantId metric amount w
    = (tt,
       mkWorld
         (<[k := VUsage (usage_routes.fresh metric (default 1%float amount) limit
                           period (Js.toISOString (now w)))]> (kv w))
         (pg w) (now w) (log w ++ KvGet k :: reads ++ [KvSet k])%list).
Proof.
  cbn zeta. intros Hk. unfold usage_routes.trackUsage. run.
  rewrite Hk. run.
  destruct (as_tenant (kv w !! ("tenant:" +:+ tenantId))) as [t|]; run.
  - eexists _, [KvGet _; KvGet _]. cbn [app]. rewrite <- !app_assoc. reflexivity.
  - eexists _, [KvGet _]. cbn [app]. rewrite <- !app_assoc. reflexivity.
Qed.

(** The reconciliation loop leaves alone the keys of metrics it is not
    handed. *)
Lemma reconcile_other kvTenantId period limits records metric w :
  metric ∉ map u_metric records ->
  kv (snd (usage_routes.reconcile kvTenantId period limits records w))
     !! usage_routes.key kvTenantId period metric
  = kv w !! usage_routes.key kvTenantId period metric.
Proof.
  revert w. induction records as [|record rest IH]; intros w Hnotin; [reflexivity|].
  cbn [map] in Hnotin. apply not_elem_of_cons in Hnotin as [Hne Hrest].
  cbn [usage_routes.reconcile].
  destruct (Js.strict_ne _ _); run;
    destruct (usage_routes.reconcile _ _ _ rest _) as [views w'] eqn:Hrec;
    cbn [snd]; change w' with (snd (views, w')); rewrite <- Hrec;
    rewrite IH by assumption; cbn [kv]; [|reflexivity].
  rewrite lookup_insert_ne; [reflexivity|].
  intros Heq. apply key_inj in Heq. congruence.
Qed.

(** The reconciliation loop: a record whose limit differs from the limit of
    the tenant's current plan is rewritten with the plan's limit; one that
    agrees is not written. *)
Lemma reconcile_rewrites kvTenantId period limits records record w :
  NoDup (map u_metric records) ->
  record ∈ records ->
  let correctLimit := Js.or_get limits (u_metric record) (u_limit record) in
  let k := usage_routes.key kvTenantId period (u_metric record) in
  kv (snd (usage_routes.reconcile kvTenantId period limits records w)) !! k
  = if Js.strict_ne correctLimit (u_limit record)
    then Some (VUsage (with_limit record correctLimit (Js.toISOString (now w))))
    else kv w !! k.
Proof.
  cbn zeta. revert w.
  induction records as [|first rest IH]; intros w Hnodup Hin.
  - apply elem_of_nil in Hin. contradiction.
  - cbn [map] in Hnodup. apply NoDup_cons in Hnodup as [Hfresh Hnodup].
    apply elem_of_cons in Hin as [->|Hin].
    + cbn [usage_routes.reconcile].
      destruct (Js.strict_ne _ _); run;
        destruct (usage_routes.reconcile _ _ _ rest _) as [views w'] eqn:Hrec;
        cbn [snd]; change w' with (snd (views, w')); rewrite <- Hrec;
        rewrite reconcile_other by assumption; cbn [kv].
      * apply lookup_insert_eq.
      * reflexivity.
    + assert (Hne : u_metric first <> u_metric record).
      { intros Heq. apply Hfresh. rewrite Heq.
        apply list_elem_of_fmap. exists record. split; [reflexivity|assumption]. }
      cbn [usage_routes.reconcile].
      destruct (Js.strict_ne _ (u_limit first)); run;
        destruct (usage_routes.reconcile _ _ _ rest _) as [views w'] eqn:Hrec;
        cbn [snd]; change w' with (snd (views, w')); rewrite <- Hrec;
        rewrite IH by assumption; cbn [kv now].
      * destruct (Js.strict_ne _ (u_limit record)); [reflexivity|].
        rewrite lookup_insert_ne; [reflexivity|].
        intros Heq. apply key_inj in Heq. congruence.
      * reflexivity.
Qed.

(** The loop that adds missing metrics leaves alone the keys of the metrics
    that were found. *)
Lemma complete_other kvTenantId period limits existingMetrics metrics metric w :
  Js.includes existingMetrics metric = true ->
  kv (snd (usage_routes.complete kvTenantId period limits existingMetrics metrics w))
     !! usage_routes.key kvTenantId period metric
  = kv w !! usage_routes.key kvTenantId period metric.
Proof.
  intros Hfound. revert w.
  induction metrics as [|m rest IH]; intros w; [reflexivity|].
  cbn [usage_routes.complete].
  destruct (Js.includes existingMetrics m) eqn:Hm; [apply IH|].
  run.
  destruct (usage_routes.complete _ _ _ _ rest _) as [views w'] eqn:Hrec.
  cbn [snd]. change w' with (snd (views, w')). rewrite <- Hrec.
  rewrite IH. cbn [kv].
  rewrite lookup_insert_ne; [reflexivity|].
  intros Heq. apply key_inj in Heq. congruence.
Qed.

(** The tenant lookup of the listing only reads. *)
Lemma find_tenant_frame tenantId w :
  let w' := snd (usage_routes.find_tenant tenantId w) in
  kv w' = kv w /\ pg w' = pg w /\ now w' = now w.
Proof.
  cbn zeta. unfold usage_routes.find_tenant. run.
  destruct (as_tenant (kv w !! ("tenant:" +:+ tenantId))); [repeat split|].
  run. destruct (supabase.single _); run; repeat split.
Qed.

(** The usage listing, end to end: for a tenant it finds, every record of
    the current period whose limit differs from the limit of the tenant's
    current plan is stored again with the plan's limit, and a record that
    agrees is left as it was. *)
Lemma list_usage_reconciles tenantId w id plan record :
  fst (usage_routes.find_tenant tenantId w) = Some (id, plan) ->
  let kvTenantId := Js.or_str (Some id) tenantId in
  let period := period_of (now w) in
  let records :=
    usages_of
      (fst (kv_store.getByPrefix
              ("usage:" +:+ kvTenantId +:+ ":" +:+ period +:+ ":") w)) in
  let limits :=
    usage_routes.currentPlanLimits (as_plan (kv w !! usage_routes.plan_key plan))
                                   plan in
  let correctLimit := Js.or_get limits (u_metric record) (u_limit record) in
  NoDup (map u_metric records) ->
  record ∈ records ->
  kv (snd (usage_routes.list_usage tenantId w))
     !! usage_routes.key kvTenantId period (u_metric record)
  = if Js.strict_ne correctLimit (u_limit record)
    then Some (VUsage (with_limit record correctLimit (Js.toISOString (now w))))
    else kv w !! usage_routes.key kvTenantId period (u_metric record).
Proof.
  cbn zeta. intros Hfind Hnodup Hin.
  unfold usage_routes.list_usage. unfold bind at 1.
  destruct (find_tenant_frame tenantId w) as (Hkv & _ & Hnow).
  destruct (usage_routes.find_tenant tenantId w) as [found w1].
  cbn [fst] in Hfind. cbn [snd] in Hkv, Hnow. subst found.
  run. rewrite Hkv, Hnow.
  unfold kv_store.getByPrefix in Hnodup, Hin. cbn [fst] in Hnodup, Hin.
  set (records :=
         usages_of
           (map snd
              (List.filter
                 (fun e => String.prefix
                             ("usage:" +:+ Js.or_str (Some id) tenantId +:+ ":"
                              +:+ period_of (now w) +:+ ":") (fst e))
                 (map_to_list (kv w))))) in *.
  destruct records as [|first rest] eqn:Hrecords.
  { apply elem_of_nil in Hin. contradiction. }
  rewrite <- Hrecords in *. clear Hrecords first rest.
  run.
  match goal with
  | |- context [usage_routes.reconcile ?a ?b ?c ?d ?e] =>
      pose proof (reconcile_rewrites a b c d record e Hnodup Hin) as Hrec;
      destruct (usage_routes.reconcile a b c d e) as [views w2]
  end.
  cbn zeta in Hrec. cbn [snd kv now] in Hrec.
  match goal with
  | |- context [usage_routes.complete ?a ?b ?c ?d ?e ?f] =>
      pose proof (complete_other a b c d e (u_metric record) f) as Hcomp;
      destruct (usage_routes.complete a b c d e f) as [added w3]
  end.
  cbn [snd] in Hcomp |- *. rewrite Hcomp; [exact Hrec|].
  apply JsFacts.includes_iff.
  apply list_elem_of_fmap. exists record. split; [reflexivity|assumption].
Qed.

End UsageRouteFacts.

(** ** The usage ledger across the two layers *)

Module LedgerFacts.

Import UsageFacts UsageRouteFacts.

(** C4, as claimed, fails: a service write that supplies another limit
    replaces the stored one.  The record holds limit 100; after
    [increment(tn_1, api_calls, 1, 250)] in the same period it holds 250. *)
Lemma service_write_replaces_limit :
  u_limit <$> as_usage (kv Sample.service_ledger !! "usage:tn_1:api_calls:2026-11")
  = Some 100%float
  /\ u_limit <$>
       as_usage
         (kv (snd (UsageService.increment "tn_1" "api_calls" (Some 1%float)
                     250%float None Sample.service_ledger))
             !! "usage:tn_1:api_calls:2026-11")
     = Some 250%float.
Proof. split; vm_compute; reflexivity. Qed.

(** C4, amended.  For a usage record that already exists:
    - a later write by the route tracker [trackUsage] keeps the stored
      limit, whatever the tenant's plan has become in the meantime;
    - a later [record] or [increment] of the service, which is handed a
      limit, stores the limit it is handed;
    - the usage listing, for a tenant it finds and the records of the
      current period (one per metric), stores again with the plan's limit
      each record whose limit differs from the current plan's limit for its
      metric, and leaves a record that agrees as it was.  This is for a
      plan and a metric whose names are not names of properties that every
      object inherits (as [constructor]): there the limit read is an entry
      of the plan's table, or missing. *)
Theorem limit_sticky_only_in_tracker tenantId metric w :
  (forall amount existing,
      as_usage (kv w !! usage_routes.key tenantId (period_of (now w)) metric)
      = Some existing ->
      exists r,
        as_usage (kv (snd (usage_routes.trackUsage tenantId metric amount w))
                     !! usage_routes.key tenantId (period_of (now w)) metric)
        = Some r
        /\ u_limit r = u_limit existing)
  /\ (forall value amount limit period,
         let k := UsageService.key tenantId metric (fst (period_or_current period w)) in
         u_limit <$>
           as_usage (kv (snd (UsageService.record tenantId metric value limit period w)) !! k)
         = Some limit
         /\ u_limit <$>
              as_usage (kv (snd (UsageService.increment tenantId metric amount limit period w)) !! k)
            = Some limit)
  /\ (forall id plan record,
         fst (usage_routes.find_tenant tenantId w) = Some (id, plan) ->
         Js.inherited plan = false ->
         Js.inherited (u_metric record) = false ->
         let kvTenantId := Js.or_str (Some id) tenantId in
         let period := period_of (now w) in
         let records :=
           usages_of
             (fst (kv_store.getByPrefix
                     ("usage:" +:+ kvTenantId +:+ ":" +:+ period +:+ ":") w)) in
         let limits :=
           usage_routes.currentPlanLimits
             (as_plan (kv w !! usage_routes.plan_key plan)) plan in
         let correctLimit :=
           Js.or_undef_num (limits !! u_metric record) (u_limit record) in
         let k := usage_routes.key kvTenantId period (u_metric record) in
         NoDup (map u_metric records) ->
         record ∈ records ->
         kv (snd (usage_routes.list_usage tenantId w)) !! k
         = if Js.strict_ne correctLimit (u_limit record)
           then Some (VUsage (with_limit record correctLimit
                                (Js.toISOString (now w))))
           else kv w !! k).
Proof.
  split; [|split].
  - intros amount existing Hk. rewrite (trackUsage_existing _ _ _ _ _ Hk).
    cbn [snd kv]. rewrite lookup_insert_eq. eexists. split; reflexivity.
  - intros value amount limit period. cbn zeta. split.
    + rewrite record_run. cbn [snd kv]. rewrite lookup_insert_eq. reflexivity.
    + rewrite increment_run, record_run. cbn zeta. same_clock period w.
      cbn [snd kv]. rewrite lookup_insert_eq. reflexivity.
  - intros id plan record Hfind _ Hmetric. cbn zeta. intros Hnodup Hin.
    rewrite <- (JsFacts.or_get_not_inherited _ _ _ Hmetric).
    apply (list_usage_reconciles tenantId w id plan record Hfind Hnodup Hin).
Qed.

(** The tracker on a tenant whose plan changed since the record was made:
    the count moves, the limit of the old plan stays. *)
Example tracker_keeps_old_limit :
  as_usage (kv (snd (usage_routes.trackUsage "tn_1" "api_calls" (Some 2%float)
                       Sample.route_ledger))
               !! "usage:tn_1:2026-11:api_calls")
  = Some (with_current Sample.tracked_record 42%float "2026-11-02T04:46:00.000Z").
Proof. vm_compute. reflexivity. Qed.

(** The listing on the same tenant: the drifted limit is rewritten to the
    plan's, and the answer carries the plan's limit. *)
Example listing_rewrites_drifted_limit :
  as_usage (kv (snd (usage_routes.list_usage "tn_1" Sample.route_ledger))
               !! "usage:tn_1:2026-11:api_calls")
  = Some (with_limit Sample.tracked_record 100000%float "2026-11-02T04:46:00.000Z")
  /\ fst (usage_routes.list_usage "tn_1" Sample.route_ledger)
     = ok [mkUsageView "api_calls" 40%float 100000%float "/month";
           mkUsageView "rooms" 0%float 35%float "";
           mkUsageView "users" 0%float 10%float "";
           mkUsageView "properties" 0%float 2%float "";
           mkUsageView "storage" 0%float 50%float "GB"].
Proof. split; vm_compute; reflexivity. Qed.

(** C5, as claimed, fails: the service does not address the key
    [usage:<tenantId>:<period>:<metric>].  For tenant [tn_1], metric
    [api_calls] and period [2026-11] the service reads
    [usage:tn_1:api_calls:2026-11]; the tracker writes
    [usage:tn_1:2026-11:api_calls]; and after the tracker has counted 5 calls
    the service still finds no record for the same tuple. *)
Lemma service_and_tracker_keys_differ :
  log (snd (UsageService.get "tn_1" "api_calls" (Some "2026-11") Sample.empty))
  = [KvGet "usage:tn_1:api_calls:2026-11"]
  /\ u_current <$>
       as_usage (kv (snd (usage_routes.trackUsage "tn_1" "api_calls" (Some 5%float)
                            Sample.empty))
                    !! "usage:tn_1:2026-11:api_calls")
     = Some 5%float
  /\ fst (UsageService.get "tn_1" "api_calls" (Some "2026-11")
             (snd (usage_routes.trackUsage "tn_1" "api_calls" (Some 5%float)
                     Sample.empty)))
     = None.
Proof. repeat split; vm_compute; reflexivity. Qed.

(** Keys that put two texts with different first characters in opposite
    orders are different keys. *)
Lemma swapped_keys_differ tenantId c1 m c2 p :
  c1 <> c2 ->
  UsageService.key tenantId (String c1 m) (String c2 p)
  <> usage_routes.key tenantId (String c2 p) (String c1 m).
Proof.
  intros Hne Heq. unfold UsageService.key, usage_routes.key in Heq.
  do 3 apply append_inj_r in Heq. simpl in Heq.
  injection Heq as Hc _. contradiction.
Qed.

(** C5, amended.  The service-level ledger operations ([get], [record],
    [increment], [isOverLimit]) address the one key
    [usage:<tenantId>:<metric>:<period>], and nothing else in the store; the
    route-level tracker addresses [usage:<tenantId>:<period>:<metric>] and
    writes nothing else.  The two are different keys whenever the metric and
    the period begin with different characters (a metric name and a
    [YYYY-MM] period always do), so the two layers do not share a record. *)
Theorem usage_key_per_layer tenantId metric period w :
  let p := fst (period_or_current period w) in
  let service_key := "usage:" +:+ tenantId +:+ ":" +:+ metric +:+ ":" +:+ p in
  let route_key :=
    "usage:" +:+ tenantId +:+ ":" +:+ period_of (now w) +:+ ":" +:+ metric in
  log (snd (UsageService.get tenantId metric period w))
  = (log w ++ [KvGet service_key])%list
  /\ log (snd (UsageService.isOverLimit tenantId metric period w))
     = (log w ++ [KvGet service_key])%list
  /\ (forall value limit,
         log (snd (UsageService.record tenantId metric value limit period w))
         = (log w ++ [KvGet service_key; KvSet service_key])%list)
  /\ (forall amount limit,
         log (snd (UsageService.increment tenantId metric amount limit period w))
         = (log w ++ [KvGet service_key; KvGet service_key; KvSet service_key])%list)
  /\ (forall amount,
         exists stored reads,
           kv (snd (usage_routes.trackUsage tenantId metric amount w))
           = <[route_key := stored]> (kv w)
           /\ log (snd (usage_routes.trackUsage tenantId metric amount w))
              = (log w ++ KvGet route_key :: reads ++ [KvSet route_key])%list)
  /\ (forall c1 m c2 q,
         metric = String c1 m -> p = String c2 q -> c1 <> c2 ->
         UsageService.key tenantId metric p <> usage_routes.key tenantId p metric).
Proof.
  cbn zeta. fold (UsageService.key tenantId metric (fst (period_or_current period w))).
  fold (usage_routes.key tenantId (period_of (now w)) metric).
  repeat split.
  - rewrite get_run. reflexivity.
  - rewrite isOverLimit_run. reflexivity.
  - intros value limit. rewrite record_run. reflexivity.
  - intros amount limit. rewrite increment_run, record_run. cbn zeta.
    same_clock period w. cbn [snd log emit]. rewrite <- app_assoc. reflexivity.
  - intros amount.
    destruct (as_usage (kv w !! usage_routes.key tenantId (period_of (now w)) metric))
      as [existing|] eqn:Hk.
    + rewrite (trackUsage_existing _ _ _ _ _ Hk). cbn [snd kv log].
      eexists _, []. split; reflexivity.
    + destruct (trackUsage_fresh tenantId metric amount w Hk) as (limit & reads & ->).
      cbn [snd kv log]. eexists _, reads. split; reflexivity.
  - intros c1 m c2 q -> -> Hne. apply swapped_keys_differ. assumption.
Qed.

(** C6, as claimed, fails on the route tracker: the record it creates has
    no percentage field.  Counting 5 calls for a tenant without usage stores
    current 5 under the default limit 1000, where the formula gives 1. *)
Lemma tracker_stores_no_percentage :
  (fun r => (u_current r, u_limit r, u_percentage r)) <$>
    as_usage (kv (snd (usage_routes.trackUsage "tn_1" "api_calls" (Some 5%float)
                         Sample.empty))
                 !! "usage:tn_1:2026-11:api_calls")
  = Some (5%float, 1000%float, None)
  /\ UsageService.percentage_of 5%float 1000%float = 1%float.
Proof. split; vm_compute; reflexivity. Qed.

(** C6, amended.  After every [record] and [increment] call of the service
    the stored record carries
    [percentage = min(100, round(current / limit * 100))], computed from the
    current value and limit it is stored with.  The route tracker stores no
    percentage: a record it creates has none, and a record it updates keeps
    the percentage it had. *)
Theorem service_records_carry_percentage tenantId metric w :
  let formula (r : UsageRecord) :=
    Js.Math_min 100
      (Js.Math_round (PrimFloat.mul (PrimFloat.div (u_current r) (u_limit r)) 100)) in
  (forall value amount limit period,
      let k := UsageService.key tenantId metric (fst (period_or_current period w)) in
      (exists r,
          as_usage (kv (snd (UsageService.record tenantId metric value limit period w)) !! k)
          = Some r
          /\ u_percentage r = Some (formula r))
      /\ (exists r,
             as_usage (kv (snd (UsageService.increment tenantId metric amount limit period w)) !! k)
             = Some r
             /\ u_percentage r = Some (formula r)))
  /\ (forall amount,
         let k := usage_routes.key tenantId (period_of (now w)) metric in
         exists r,
           as_usage (kv (snd (usage_routes.trackUsage tenantId metric amount w)) !! k)
           = Some r
           /\ u_percentage r
              = (as_usage (kv w !! k) ≫= u_percentage)).
Proof.
  cbn zeta. split.
  - intros value amount limit period. split.
    + rewrite record_run. cbn [snd kv]. rewrite lookup_insert_eq.
      eexists. split; reflexivity.
    + rewrite increment_run, record_run. cbn zeta. same_clock period w.
      cbn [snd kv]. rewrite lookup_insert_eq. eexists. split; reflexivity.
  - intros amount.
    destruct (as_usage (kv w !! usage_routes.key tenantId (period_of (now w)) metric))
      as [existing|] eqn:Hk.
    + rewrite (trackUsage_existing _ _ _ _ _ Hk). cbn [snd kv].
      rewrite lookup_insert_eq. eexists. split; reflexivity.
    + destruct (trackUsage_fresh tenantId metric amount w Hk) as (limit & reads & ->).
      cbn [snd kv]. rewrite lookup_insert_eq. eexists. split; reflexivity.
Qed.

(** The scenario of a first write: 50 calls under limit 10000 give
    percentage 1 and today's entry in the daily map. *)
Example first_record_of_50 :
  let r := fst (UsageService.record "tn_1" "api_calls" 50%float 10000%float None
                  Sample.empty) in
  u_percentage r = Some 1%float
  /\ u_daily r = Some {[ "2026-11-02" := 50%float ]}.
Proof. split; vm_compute; reflexivity. Qed.

End LedgerFacts.

(** ** TenantService.resolve *)

Module ResolveFacts.

(** The relational tail of [resolve]. *)
Lemma resolve_by_external_id_run identifier w :
  TenantService.resolve_by_external_id identifier w
  = (match supabase.single
             (List.filter (supabase.has_external_id identifier) (pg w)) with
     | Some r => (Some (TenantService.to_kv_format (now w) r), Some src_postgres)
     | None => (None, None)
     end,
     emit (PgSelectByExternalId identifier) w).
Proof.
  unfold TenantService.resolve_by_external_id, TenantService.convert. run.
  destruct (supabase.single _); reflexivity.
Qed.

(** C3.  [resolve(identifier)] tries its sources in order and stops at the
    first hit.  It first reads the store at the identifier's key
    [tenant:<identifier>]; on a hit that is the answer and nothing else is
    asked.  On a miss, and only when the identifier has the UUID shape, it
    queries the table by primary key; a row found is the answer.  When the
    UUID step does not apply or finds nothing, it queries the table by the
    [external_id] of the settings payload; a row found is the answer, and
    otherwise the answer is the null tenant with a null source.  Nothing is
    written on the way. *)
Theorem resolve_tries_sources_in_order identifier w :
  let k := "tenant:" +:+ identifier in
  let hit := as_tenant (kv w !! k) in
  let byId :=
    supabase.single
      (List.filter (fun r => supabase.uuid_eqb (pg_id r) identifier) (pg w)) in
  let byExternalId :=
    supabase.single (List.filter (supabase.has_external_id identifier) (pg w)) in
  let answer := fst (TenantService.resolve identifier w) in
  let w' := snd (TenantService.resolve identifier w) in
  kv w' = kv w /\ pg w' = pg w
  /\ (forall tenant,
         hit = Some tenant ->
         answer = (Some tenant, Some src_kv)
         /\ log w' = (log w ++ [KvGet k])%list)
  /\ (forall r,
         hit = None -> Js.matches_uuid identifier = true -> byId = Some r ->
         answer = (Some (TenantService.to_kv_format (now w) r), Some src_postgres)
         /\ log w' = (log w ++ [KvGet k; PgSelectById identifier])%list)
  /\ (hit = None ->
      (Js.matches_uuid identifier = true -> byId = None) ->
      log w'
      = (log w
         ++ (if Js.matches_uuid identifier
             then [KvGet k; PgSelectById identifier] else [KvGet k])
         ++ [PgSelectByExternalId identifier])%list
      /\ answer
         = match byExternalId with
           | Some r =>
               (Some (TenantService.to_kv_format (now w) r), Some src_postgres)
           | None => (None, None)
           end).
Proof.
  cbn zeta. unfold TenantService.resolve. run.
  destruct (as_tenant (kv w !! ("tenant:" +:+ identifier))) as [tenant|] eqn:Hhit.
  - cbn. split; [reflexivity|]. split; [reflexivity|]. split; [|split].
    + intros t [= <-]. split; reflexivity.
    + intros r Hnone. discriminate Hnone.
    + intros Hnone. discriminate Hnone.
  - destruct (Js.matches_uuid identifier) eqn:Huuid.
    + run.
      destruct (supabase.single
                  (List.filter (fun r => supabase.uuid_eqb (pg_id r) identifier) (pg w)))
        as [r|] eqn:Hid.
      * unfold TenantService.convert. run.
        split; [reflexivity|]. split; [reflexivity|]. split; [|split].
        -- intros t Hsome. discriminate Hsome.
        -- intros r' _ _ [= <-]. rewrite <- app_assoc. split; reflexivity.
        -- intros _ H. discriminate (H eq_refl).
      * rewrite resolve_by_external_id_run. cbn [fst snd emit kv pg log now].
        split; [reflexivity|]. split; [reflexivity|]. split; [|split].
        -- intros t Hsome. discriminate Hsome.
        -- intros r' _ _ Hsome. discriminate Hsome.
        -- intros _ _. rewrite <- !app_assoc. split; reflexivity.
    + rewrite resolve_by_external_id_run. cbn [fst snd emit kv pg log now].
      split; [reflexivity|]. split; [reflexivity|]. split; [|split].
      * intros t Hsome. discriminate Hsome.
      * intros r' _ Hfalse. discriminate Hfalse.
      * intros _ _. rewrite <- !app_assoc. split; reflexivity.
Qed.

(** A query whose matches can only be the row [r] returns nothing or [r]. *)
Lemma filter_at_most (P : PgTenant -> bool) rows r :
  NoDup rows ->
  (forall r', r' ∈ rows -> P r' = true -> r' = r) ->
  List.filter P rows = [] \/ List.filter P rows = [r].
Proof.
  induction rows as [|x rows IH]; intros Hnodup Honly; [left; reflexivity|].
  apply NoDup_cons in Hnodup as [Hx Hnodup]. cbn [List.filter].
  destruct (P x) eqn:HPx.
  - assert (x = r) as -> by (apply Honly; [left|assumption]).
    right. f_equal.
    destruct (IH Hnodup) as [Hnil|Hone].
    + intros r' Hin. apply Honly. right. assumption.
    + assumption.
    + exfalso. apply Hx.
      assert (Hin : In r (List.filter P rows)) by (rewrite Hone; left; reflexivity).
      apply filter_In in Hin as [Hin _]. apply list_elem_of_In. assumption.
  - apply IH; [assumption|]. intros r' Hin. apply Honly. right. assumption.
Qed.

(** A query matched by the row [r] of the table and by no other returns [r]. *)
Lemma filter_exactly (P : PgTenant -> bool) rows r :
  NoDup rows -> r ∈ rows -> P r = true ->
  (forall r', r' ∈ rows -> P r' = true -> r' = r) ->
  List.filter P rows = [r].
Proof.
  intros Hnodup Hin HP Honly.
  destruct (filter_at_most P rows r Hnodup Honly) as [Hnil|Hone]; [|assumption].
  exfalso. assert (Hf : In r (List.filter P rows)).
  { apply filter_In. split; [apply list_elem_of_In|]; assumption. }
  rewrite Hnil in Hf. contradiction.
Qed.

Lemma primary_key_NoDup rows : primary_key rows -> NoDup rows.
Proof. unfold primary_key. apply (NoDup_fmap_1 (fun r => Js.toLowerCase (pg_id r))). Qed.

(** Rows of a table with a primary key that carry the same id are the same
    row. *)
Lemma primary_key_inj rows r1 r2 :
  primary_key rows -> r1 ∈ rows -> r2 ∈ rows ->
  Js.toLowerCase (pg_id r1) = Js.toLowerCase (pg_id r2) -> r1 = r2.
Proof.
  unfold primary_key. induction rows as [|x rows IH]; intros Hnodup H1 H2 Heq.
  - apply elem_of_nil in H1. contradiction.
  - cbn [map] in Hnodup. apply NoDup_cons in Hnodup as [Hx Hnodup].
    apply elem_of_cons in H1 as [->|H1]; apply elem_of_cons in H2 as [->|H2].
    + reflexivity.
    + exfalso. apply Hx. rewrite Heq.
      apply list_elem_of_fmap. exists r2. split; [reflexivity|assumption].
    + exfalso. apply Hx. rewrite <- Heq.
      apply list_elem_of_fmap. exists r1. split; [reflexivity|assumption].
    + apply IH; assumption.
Qed.

(** C7.  Take a tenant [r] of the relational table (whose ids are a primary
    key and whose external codes are unique) with external code [code] in
    its settings, and no record in the key-value store under its UUID or its
    code; the code is not the primary key of another tenant (no code of the
    form [T-<n>] is).  Then [resolve] of the UUID and [resolve] of the code,
    made at any two times, both return the row translated to the normalized
    tenant shape and both name the relational store as the source.  The two
    records have the same id, uuid, name, status, plan and mapped settings
    fields, and are the same record when the calls are made at the same
    time. *)
Theorem resolve_same_by_uuid_and_by_code w r code :
  primary_key (pg w) ->
  one_tenant_per_code (pg w) ->
  r ∈ pg w ->
  supabase.external_id r = Some code ->
  Js.matches_uuid (pg_id r) = true ->
  (forall r', r' ∈ pg w -> supabase.uuid_eqb (pg_id r') code = true -> r' = r) ->
  as_tenant (kv w !! ("tenant:" +:+ pg_id r)) = None ->
  as_tenant (kv w !! ("tenant:" +:+ code)) = None ->
  forall t1 t2,
    fst (TenantService.resolve (pg_id r) (at_time t1 w))
    = (Some (TenantService.to_kv_format t1 r), Some src_postgres)
    /\ fst (TenantService.resolve code (at_time t2 w))
       = (Some (TenantService.to_kv_format t2 r), Some src_postgres)
    /\ same_attributes (TenantService.to_kv_format t1 r)
                       (TenantService.to_kv_format t2 r)
    /\ (t1 = t2 ->
        fst (TenantService.resolve (pg_id r) (at_time t1 w))
        = fst (TenantService.resolve code (at_time t2 w))).
Proof.
  intros Hpk Hcodes Hin Hcode Hshape Hforeign Hkv_uuid Hkv_code t1 t2.
  pose proof (primary_key_NoDup _ Hpk) as Hnodup.
  assert (HbyId :
    List.filter (fun r' => supabase.uuid_eqb (pg_id r') (pg_id r)) (pg w) = [r]).
  { apply filter_exactly; try assumption.
    - unfold supabase.uuid_eqb. apply String.eqb_refl.
    - intros r' Hin' Heq. unfold supabase.uuid_eqb in Heq.
      apply String.eqb_eq in Heq. eapply primary_key_inj; eassumption. }
  assert (HbyCode :
    List.filter (supabase.has_external_id code) (pg w) = [r]).
  { apply filter_exactly; try assumption.
    - unfold supabase.has_external_id. rewrite Hcode. apply String.eqb_refl.
    - intros r' Hin' Heq. unfold supabase.has_external_id in Heq.
      destruct (supabase.external_id r') as [e|] eqn:He; [|discriminate].
      apply String.eqb_eq in Heq. subst e.
      apply (Hcodes r' r code); assumption. }
  assert (Huuid :
    fst (TenantService.resolve (pg_id r) (at_time t1 w))
    = (Some (TenantService.to_kv_format t1 r), Some src_postgres)).
  { unfold TenantService.resolve. run. cbn [at_time kv pg].
    rewrite Hkv_uuid, Hshape. run. cbn [at_time pg].
    rewrite HbyId. reflexivity. }
  assert (Hbycode :
    fst (TenantService.resolve code (at_time t2 w))
    = (Some (TenantService.to_kv_format t2 r), Some src_postgres)).
  { unfold TenantService.resolve. run. cbn [at_time kv pg].
    rewrite Hkv_code.
    destruct (Js.matches_uuid code).
    - run. cbn [at_time pg].
      destruct (filter_at_most (fun r' => supabase.uuid_eqb (pg_id r') code)
                  (pg w) r Hnodup Hforeign) as [-> | ->]; cbn [supabase.single].
      + rewrite resolve_by_external_id_run. cbn [fst pg emit at_time].
        rewrite HbyCode. reflexivity.
      + reflexivity.
    - rewrite resolve_by_external_id_run. cbn [fst pg emit at_time].
      rewrite HbyCode. reflexivity. }
  split; [exact Huuid|]. split; [exact Hbycode|]. split.
  - repeat split.
  - intros <-. rewrite Huuid, Hbycode. reflexivity.
Qed.

Lemma resolve_same_by_uuid_and_by_code_witness :
  fst (TenantService.resolve "123e4567-e89b-12d3-a456-426614174000"
         (at_time Sample.nov2 Sample.relational_only))
  = (Some (TenantService.to_kv_format Sample.nov2 Sample.row_7), Some src_postgres)
  /\ fst (TenantService.resolve "T-7" (at_time Sample.nov20 Sample.relational_only))
     = (Some (TenantService.to_kv_format Sample.nov20 Sample.row_7), Some src_postgres).
Proof.
  assert (Hpk : primary_key (pg Sample.relational_only)).
  { unfold primary_key. refine (bool_decide_unpack _ _). vm_compute. exact I. }
  assert (Hcodes : one_tenant_per_code (pg Sample.relational_only)).
  { intros r1 r2 code H1 H2 E1 E2. cbn [Sample.relational_only pg] in H1, H2.
    apply elem_of_cons in H1 as [->|H1]; [|apply elem_of_cons in H1 as [->|H1]];
      [| |apply elem_of_nil in H1; contradiction];
      (apply elem_of_cons in H2 as [->|H2]; [|apply elem_of_cons in H2 as [->|H2]];
       [| |apply elem_of_nil in H2; contradiction]);
      try reflexivity;
      vm_compute in E1; vm_compute in E2; congruence. }
  assert (Hin : Sample.row_7 ∈ pg Sample.relational_only) by left.
  assert (Hcode : supabase.external_id Sample.row_7 = Some "T-7")
    by (vm_compute; reflexivity).
  assert (Hshape : Js.matches_uuid (pg_id Sample.row_7) = true)
    by (vm_compute; reflexivity).
  assert (Hforeign : forall r', r' ∈ pg Sample.relational_only ->
                                supabase.uuid_eqb (pg_id r') "T-7" = true ->
                                r' = Sample.row_7).
  { intros r' Hin' Heq. cbn [Sample.relational_only pg] in Hin'.
    apply elem_of_cons in Hin' as [->|Hin']; [|apply elem_of_cons in Hin' as [->|Hin']];
      [| |apply elem_of_nil in Hin'; contradiction];
      vm_compute in Heq; discriminate. }
  assert (Hkv1 : as_tenant (kv Sample.relational_only
                               !! ("tenant:" +:+ pg_id Sample.row_7)) = None)
    by (vm_compute; reflexivity).
  assert (Hkv2 : as_tenant (kv Sample.relational_only !! ("tenant:" +:+ "T-7")) = None)
    by (vm_compute; reflexivity).
  destruct (resolve_same_by_uuid_and_by_code Sample.relational_only Sample.row_7
              "T-7" Hpk Hcodes Hin Hcode Hshape Hforeign Hkv1 Hkv2
              Sample.nov2 Sample.nov20) as (Huuid & Hbycode & _).
  split; assumption.
Defined.

(** The translated record of that tenant: settings fields mapped to flat
    attributes, defaults where the row has nothing. *)
Example resolve_T7 :
  fst (TenantService.resolve "T-7" Sample.relational_only)
  = (Some {| t_id := "T-7";
             t_uuid := Some "123e4567-e89b-12d3-a456-426614174000";
             t_name := "Hotel Dajti"; t_status := "active"; t_plan := "Basic";
             t_email := "info@dajti.example"; t_phone := "";
             t_address := ""; t_city := "Tirana"; t_state := "";
             t_country := ""; t_postalCode := "1001"; t_website := "";
             t_industry := ""; t_size := ""; t_timezone := "UTC";
             t_currency := "USD"; t_logo := ""; t_primaryColor := "#ea580c";
             t_createdAt := Some "2025-03-09T10:15:00.000Z";
             t_created := "2025-03-09"; t_lastActiveAt := None |},
     Some src_postgres).
Proof. vm_compute. reflexivity. Qed.

(** The backend calls in the four outcomes of the chain. *)
Example resolve_calls :
  log (snd (TenantService.resolve "tn_1" Sample.both_stores))
  = [KvGet "tenant:tn_1"]
  /\ log (snd (TenantService.resolve "123E4567-E89B-12D3-A456-426614174000"
                 Sample.both_stores))
     = [KvGet "tenant:123E4567-E89B-12D3-A456-426614174000";
        PgSelectById "123E4567-E89B-12D3-A456-426614174000"]
  /\ log (snd (TenantService.resolve "00000000-0000-0000-0000-000000000000"
                 Sample.both_stores))
     = [KvGet "tenant:00000000-0000-0000-0000-000000000000";
        PgSelectById "00000000-0000-0000-0000-000000000000";
        PgSelectByExternalId "00000000-0000-0000-0000-000000000000"]
  /\ TenantService.resolve "T-404" Sample.both_stores
     = (None, None,
        mkWorld (kv Sample.both_stores) (pg Sample.both_stores) Sample.nov2
                [KvGet "tenant:T-404"; PgSelectByExternalId "T-404"]).
Proof. repeat split. Qed.

End ResolveFacts.

(** ** Feature flags *)

Module FlagFacts.

Import JsFacts.

Lemma opt_includes_iff xs x :
  FeatureFlagService.opt_includes xs x = true <-> on_list xs x.
Proof.
  unfold FeatureFlagService.opt_includes, on_list. destruct xs as [l|].
  - rewrite includes_iff. split.
    + intros Hin. exists l. split; [reflexivity|assumption].
    + intros (l' & [= <-] & Hin). assumption.
  - split; [discriminate|]. intros (l & Hl & _). discriminate.
Qed.

Lemma opt_includes_false xs x :
  FeatureFlagService.opt_includes xs x = false <-> ~ on_list xs x.
Proof.
  rewrite <- opt_includes_iff.
  destruct (FeatureFlagService.opt_includes xs x); split; congruence.
Qed.

Lemma truthy_str_iff s : Js.truthy_str s = true <-> s <> "".
Proof. destruct s; cbn; split; congruence. Qed.

(** The plan test of the evaluator is the plan rule. *)
Lemma plan_test_iff planType flag :
  match planType, f_enabledForPlans flag with
  | Some p, Some plans => Js.truthy_str p && negb (Js.includes plans p)
  | _, _ => false
  end = true
  <-> plan_excluded planType flag.
Proof.
  unfold plan_excluded. destruct planType as [p|], (f_enabledForPlans flag) as [plans|].
  - rewrite andb_true_iff, negb_true_iff, truthy_str_iff. split.
    + intros [Hp Hnot]. exists p, plans. repeat split; try assumption.
      intros Hin. apply includes_iff in Hin. congruence.
    + intros (p' & plans' & [= <-] & Hp & [= <-] & Hnot). split; [assumption|].
      destruct (Js.includes plans p) eqn:Hinc; [|reflexivity].
      apply includes_iff in Hinc. contradiction.
  - split; [discriminate|]. intros (p' & plans' & _ & _ & H & _). discriminate.
  - split; [discriminate|]. intros (p' & plans' & H & _). discriminate.
  - split; [discriminate|]. intros (p' & plans' & H & _). discriminate.
Qed.

Lemma plan_test_false planType flag :
  match planType, f_enabledForPlans flag with
  | Some p, Some plans => Js.truthy_str p && negb (Js.includes plans p)
  | _, _ => false
  end = false
  <-> ~ plan_excluded planType flag.
Proof.
  rewrite <- plan_test_iff.
  destruct (match planType, f_enabledForPlans flag with
            | Some p, Some plans => _
            | _, _ => false
            end); split; congruence.
Qed.

Lemma status_eqb_iff a b : status_eqb a b = true <-> a = b.
Proof. destruct a, b; cbn; split; congruence. Qed.

(** What [isEnabled] does: one prefix scan, then the rule chain on the
    first flag with the key. *)
Lemma isEnabled_run flagKey tenantId planType w :
  FeatureFlagService.isEnabled flagKey tenantId planType w
  = (match flag_for flagKey w with
     | None => false
     | Some flag =>
         if status_eqb (f_status flag) disabled then false
         else if FeatureFlagService.opt_includes (f_disabledForTenants flag) tenantId
         then false
         else if FeatureFlagService.opt_includes (f_enabledForTenants flag) tenantId
         then true
         else if
           match planType, f_enabledForPlans flag with
           | Some p, Some plans => Js.truthy_str p && negb (Js.includes plans p)
           | _, _ => false
           end
         then false
         else
           match f_rolloutPercentage flag with
           | Some pct =>
               if pct <? 100 then FeatureFlagService.bucket tenantId <? pct
               else status_eqb (f_status flag) enabled
           | None => status_eqb (f_status flag) enabled
           end
     end,
     emit (KvGetByPrefix "flag:") w).
Proof. reflexivity. Qed.

(** The character-code sum is not negative, so [%] is the modulus. *)
Lemma charCodeSum_nonneg s : 0 <= Js.charCodeSum s.
Proof. induction s as [|c s IH]; cbn [Js.charCodeSum]; lia. Qed.

Lemma bucket_mod tenantId :
  FeatureFlagService.bucket tenantId = Js.charCodeSum tenantId mod 100.
Proof.
  unfold FeatureFlagService.bucket.
  apply Z.rem_mod_nonneg; [apply charCodeSum_nonneg | lia].
Qed.

Lemma bucket_range tenantId : 0 <= FeatureFlagService.bucket tenantId < 100.
Proof. rewrite bucket_mod. apply Z.mod_pos_bound. lia. Qed.

(** Some identifier of the tenant is on the list. *)
Lemma any_on_list_iff xs ids :
  existsb (FeatureFlagService.opt_includes xs) ids = true
  <-> exists id, id ∈ ids /\ on_list xs id.
Proof.
  rewrite existsb_exists. split.
  - intros (id & Hin & Hon). exists id.
    split; [apply list_elem_of_In | apply opt_includes_iff]; assumption.
  - intros (id & Hin & Hon). exists id.
    split; [apply list_elem_of_In | apply opt_includes_iff]; assumption.
Qed.

(** What the listing does: resolve the tenant, then map [view] over the
    features. *)
Lemma tenant_features_ok tenantId w tenant :
  fst (fst (TenantService.resolve tenantId w)) = Some tenant ->
  exists features,
    fst (features_routes.tenant_features tenantId w)
    = ok (map (features_routes.view tenant) features).
Proof.
  intros Hres. unfold features_routes.tenant_features. unfold bind at 1.
  destruct (TenantService.resolve tenantId w) as [[t src] w'].
  cbn [fst] in Hres. subst t. cbn [fst]. run. eexists. reflexivity.
Qed.

(** C1, as claimed, fails on the listing path: there the allow-list is
    looked at first.  Tenant [T-1] is on both lists of [new_ui];
    [isEnabled] answers false, the tenant's feature listing shows the
    feature enabled.  The listing also shows it without regard to status or
    rollout: [reports] is disabled, and shown enabled because the tenant's
    plan is entitled.  (In [isEnabled] itself an empty plan name counts as
    not supplied: tenant [T-12], bucket 28, gets [new_ui] with plan [""]
    although the entitled-plan list does not hold it.) *)
Lemma listing_allow_beats_deny :
  on_list (f_disabledForTenants Sample.new_ui) "T-1"
  /\ on_list (f_enabledForTenants Sample.new_ui) "T-1"
  /\ fst (FeatureFlagService.isEnabled "new_ui" "T-1" (Some "Basic")
            Sample.flags_world) = false
  /\ fst (features_routes.tenant_features "T-1" Sample.flags_world)
     = ok [mkFeatureView "ff_1" "new_ui" "New UI" true true (Some scope_plan);
           mkFeatureView "ff_2" "reports" "Reports" true false (Some scope_global)]
  /\ fst (FeatureFlagService.isEnabled "new_ui" "T-12" (Some "")
            Sample.flags_world) = true.
Proof.
  split; [|split; [|split; [|split]]].
  - apply opt_includes_iff. reflexivity.
  - apply opt_includes_iff. reflexivity.
  - vm_compute. reflexivity.
  - vm_compute. reflexivity.
  - vm_compute. reflexivity.
Qed.

(** C1, amended.  [isEnabled] applies the layered rules in strict
    precedence: a missing flag or status [disabled] gives false; otherwise a
    tenant on the deny-list gives false; otherwise a tenant on the
    allow-list gives true; otherwise a supplied (non-empty) plan name absent
    from a declared entitled-plan list gives false; otherwise a declared
    rollout percentage below 100 decides by the tenant's bucket; otherwise
    the answer is true exactly when the status is [enabled].  In particular
    a tenant on the deny-list gets false whether or not it is on the
    allow-list.  The per-tenant feature listing is not governed by this
    precedence.  It decides from the two tenant lists and the plan list
    alone, whatever the status and the rollout: with an identifier of the
    tenant (its id or its uuid) on the allow-list and none on the deny-list
    the feature is shown enabled; with one on the deny-list and none on the
    allow-list it is shown not enabled; with none on either it is shown
    enabled exactly when the tenant's plan is on the entitled-plan list. *)
Theorem isEnabled_layered_precedence flagKey tenantId planType w :
  let answer := fst (FeatureFlagService.isEnabled flagKey tenantId planType w) in
  (flag_for flagKey w = None -> answer = false)
  /\ (forall flag,
         flag_for flagKey w = Some flag ->
         let denied := on_list (f_disabledForTenants flag) tenantId in
         let allowed := on_list (f_enabledForTenants flag) tenantId in
         (f_status flag = disabled -> answer = false)
         /\ (denied -> answer = false)
         /\ (f_status flag <> disabled -> ~ denied ->
             (allowed -> answer = true)
             /\ (~ allowed ->
                 (plan_excluded planType flag -> answer = false)
                 /\ (~ plan_excluded planType flag ->
                     (forall pct,
                         f_rolloutPercentage flag = Some pct -> pct < 100 ->
                         answer = (FeatureFlagService.bucket tenantId <? pct))
                     /\ ((forall pct,
                             f_rolloutPercentage flag = Some pct -> 100 <= pct) ->
                         (answer = true <-> f_status flag = enabled))))))
  /\ (forall tenant feature,
         let ids := features_routes.tenantIdentifiers tenant in
         let shown := fv_enabled (features_routes.view tenant feature) in
         let some_id_on xs := exists id, id ∈ ids /\ on_list xs id in
         (some_id_on (f_enabledForTenants feature) ->
          ~ some_id_on (f_disabledForTenants feature) -> shown = true)
         /\ (some_id_on (f_disabledForTenants feature) ->
             ~ some_id_on (f_enabledForTenants feature) -> shown = false)
         /\ (~ some_id_on (f_enabledForTenants feature) ->
             ~ some_id_on (f_disabledForTenants feature) ->
             (shown = true
              <-> on_list (f_enabledForPlans feature) (t_plan tenant))))
  /\ (forall tenant feature feature',
         f_enabledForTenants feature = f_enabledForTenants feature' ->
         f_disabledForTenants feature = f_disabledForTenants feature' ->
         f_enabledForPlans feature = f_enabledForPlans feature' ->
         fv_enabled (features_routes.view tenant feature)
         = fv_enabled (features_routes.view tenant feature'))
  /\ (forall id tenant,
         fst (fst (TenantService.resolve id w)) = Some tenant ->
         exists features,
           fst (features_routes.tenant_features id w)
           = ok (map (features_routes.view tenant) features)).
Proof.
  cbn zeta. rewrite isEnabled_run. cbn [fst].
  split; [|split; [|split; [|split]]].
  - intros ->. reflexivity.
  - intros flag ->. split; [|split].
    + intros ->. reflexivity.
    + intros Hdenied. apply opt_includes_iff in Hdenied. rewrite Hdenied.
      destruct (status_eqb _ _); reflexivity.
    + intros Hstatus Hdenied.
      assert (status_eqb (f_status flag) disabled = false) as ->.
      { destruct (status_eqb _ _) eqn:E; [|reflexivity].
        apply status_eqb_iff in E. contradiction. }
      apply opt_includes_false in Hdenied. rewrite Hdenied. split.
      * intros Hallowed. apply opt_includes_iff in Hallowed. rewrite Hallowed.
        reflexivity.
      * intros Hallowed. apply opt_includes_false in Hallowed. rewrite Hallowed.
        split.
        -- intros Hplan. apply plan_test_iff in Hplan. rewrite Hplan. reflexivity.
        -- intros Hplan. apply plan_test_false in Hplan. rewrite Hplan. split.
           ++ intros pct -> Hlt. apply Z.ltb_lt in Hlt. rewrite Hlt. reflexivity.
           ++ intros Hnone. destruct (f_rolloutPercentage flag) as [pct|].
              ** specialize (Hnone pct eq_refl).
                 apply Z.ltb_ge in Hnone. rewrite Hnone. apply status_eqb_iff.
              ** apply status_eqb_iff.
  - intros tenant feature. unfold features_routes.view. cbn [fv_enabled].
    rewrite <- !any_on_list_iff. split; [|split].
    + intros -> _. reflexivity.
    + intros -> Hallow. apply not_true_is_false in Hallow. rewrite Hallow.
      reflexivity.
    + intros Hallow Hdeny.
      apply not_true_is_false in Hallow. apply not_true_is_false in Hdeny.
      rewrite Hallow, Hdeny. apply opt_includes_iff.
  - intros tenant feature feature' Hallow Hdeny Hplans.
    unfold features_routes.view. cbn [fv_enabled].
    rewrite Hallow, Hdeny, Hplans. reflexivity.
  - intros id tenant. apply tenant_features_ok.
Qed.

(** [isEnabled] only reads, and its answer does not depend on the clock or
    on the calls made before. *)
Lemma isEnabled_reads_only flagKey tenantId planType w :
  let w' := snd (FeatureFlagService.isEnabled flagKey tenantId planType w) in
  kv w' = kv w /\ pg w' = pg w
  /\ forall later,
      fst (FeatureFlagService.isEnabled flagKey tenantId planType (at_time later w'))
      = fst (FeatureFlagService.isEnabled flagKey tenantId planType w).
Proof. cbn zeta. rewrite !isEnabled_run. repeat split. Qed.

(** C2, as claimed, fails for a disabled flag: [reports] declares rollout
    50 and tenant [T-12], on no list, has bucket 28, which is below 50, yet
    [isEnabled] answers false. *)
Lemma disabled_flag_not_rolled_out :
  flag_for "reports" Sample.flags_world = Some Sample.reports
  /\ f_rolloutPercentage Sample.reports = Some 50
  /\ Js.charCodeSum "T-12" mod 100 = 28
  /\ fst (FeatureFlagService.isEnabled "reports" "T-12" None Sample.flags_world)
     = false.
Proof. repeat split; vm_compute; reflexivity. Qed.

(** C2, amended.  For a flag that is not disabled and declares a rollout
    percentage, and a tenant identifier matched by no deny, allow or plan
    rule: when the percentage is below 100, [isEnabled] answers true exactly
    when the sum of the character codes of the identifier, modulo 100, is
    below the percentage; so with percentage 0 the answer is false; with
    percentage 100 the rollout does not gate and the answer is true exactly
    when the status is [enabled].  The bucket depends on the identifier
    alone, and a second call, at any later time, gives the same answer. *)
Theorem rollout_by_character_code_bucket flagKey tenantId planType w flag pct :
  flag_for flagKey w = Some flag ->
  f_status flag <> disabled ->
  ~ on_list (f_disabledForTenants flag) tenantId ->
  ~ on_list (f_enabledForTenants flag) tenantId ->
  ~ plan_excluded planType flag ->
  f_rolloutPercentage flag = Some pct ->
  let answer := fst (FeatureFlagService.isEnabled flagKey tenantId planType w) in
  (pct < 100 -> (answer = true <-> Js.charCodeSum tenantId mod 100 < pct))
  /\ (pct = 0 -> answer = false)
  /\ (pct = 100 -> (answer = true <-> f_status flag = enabled))
  /\ (forall later,
        fst (FeatureFlagService.isEnabled flagKey tenantId planType
               (at_time later
                  (snd (FeatureFlagService.isEnabled flagKey tenantId planType w))))
        = answer).
Proof.
  intros Hflag Hstatus Hdeny Hallow Hplan Hpct. cbn zeta.
  split; [|split; [|split]]; [| | |apply isEnabled_reads_only];
    rewrite isEnabled_run; cbn [fst]; rewrite Hflag;
    (assert (status_eqb (f_status flag) disabled = false) as ->
       by (destruct (status_eqb _ _) eqn:E; [|reflexivity];
           apply status_eqb_iff in E; contradiction));
    apply opt_includes_false in Hdeny; apply opt_includes_false in Hallow;
    apply plan_test_false in Hplan;
    rewrite Hdeny, Hallow, Hplan, Hpct.
  - intros Hlt. apply Z.ltb_lt in Hlt. rewrite Hlt, bucket_mod. apply Z.ltb_lt.
  - intros ->. cbn. apply Z.ltb_ge. apply bucket_range.
  - intros ->. cbn. apply status_eqb_iff.
Qed.

Lemma rollout_by_character_code_bucket_witness :
  Js.charCodeSum "T-12" mod 100 = 28
  /\ fst (FeatureFlagService.isEnabled "new_ui" "T-12" (Some "Pro")
            Sample.flags_world) = true.
Proof.
  split; [reflexivity|].
  assert (Hflag : flag_for "new_ui" Sample.flags_world = Some Sample.new_ui)
    by (vm_compute; reflexivity).
  assert (Hstatus : f_status Sample.new_ui <> disabled) by discriminate.
  assert (Hdeny : ~ on_list (f_disabledForTenants Sample.new_ui) "T-12")
    by (apply opt_includes_false; reflexivity).
  assert (Hallow : ~ on_list (f_enabledForTenants Sample.new_ui) "T-12")
    by (apply opt_includes_false; reflexivity).
  assert (Hplan : ~ plan_excluded (Some "Pro") Sample.new_ui)
    by (apply plan_test_false; reflexivity).
  destruct (rollout_by_character_code_bucket "new_ui" "T-12" (Some "Pro")
              Sample.flags_world Sample.new_ui 50
              Hflag Hstatus Hdeny Hallow Hplan eq_refl) as (Hbucket & _).
  apply Hbucket; [lia | reflexivity].
Defined.

(** The five rules on one flag, each winning in turn: deny over allow,
    allow over plan, plan over rollout, rollout over status. *)
Example new_ui_each_rule :
  let ask tenant plan :=
    fst (FeatureFlagService.isEnabled "new_ui" tenant plan Sample.flags_world) in
  ask "T-1" (Some "Pro") = false
  /\ ask "T-3" (Some "Pro") = false
  /\ ask "T-2" (Some "Basic") = true
  /\ ask "T-12" (Some "Basic") = false
  /\ ask "T-12" (Some "Pro") = true
  /\ ask "T-5" (Some "Pro") = false
  /\ ask "T-12" None = true.
Proof. repeat split. Qed.

(** A beta flag: rolled out by bucket when it declares a rollout below 100,
    off when it falls through to the status check; a missing flag is off. *)
Example beta_flags :
  fst (FeatureFlagService.isEnabled "beta_rollout" "T-12" None Sample.flags_world)
  = true
  /\ fst (FeatureFlagService.isEnabled "beta_plain" "T-12" None Sample.flags_world)
     = false
  /\ fst (FeatureFlagService.isEnabled "no_such_flag" "T-12" None Sample.flags_world)
     = false.
Proof. repeat split. Qed.

End FlagFacts.

(* ===================================================================== *)
(** * Further properties of the code around the claims *)
(* ===================================================================== *)

(** ** paginateArray *)

Module PaginationFacts.

Import Pagination.

Lemma firstn_plus {T} (a b : nat) (l : list T) :
  firstn (a + b) l = (firstn a l ++ firstn b (skipn a l))%list.
Proof.
  revert l. induction a as [|a IH]; intros l; [reflexivity|].
  destruct l as [|x l]; cbn [Nat.add firstn skipn app].
  - destruct b; reflexivity.
  - rewrite IH. reflexivity.
Qed.

(** For a page from 1 on and a positive page size the slice is the plain
    chunk of the list. *)
Lemma slice_chunk {T} (items : list T) p l :
  1 <= p -> 1 <= l ->
  slice items ((p - 1) * l) ((p - 1) * l + l)
  = firstn (Z.to_nat l) (skipn (Z.to_nat ((p - 1) * l)) items).
Proof.
  intros Hp Hl. unfold slice. cbn zeta.
  set (len := Z.of_nat (length items)).
  assert (Hlen : 0 <= len) by (unfold len; lia).
  assert (Hs : 0 <= (p - 1) * l) by nia.
  destruct ((p - 1) * l <? 0) eqn:E1; [apply Z.ltb_lt in E1; lia|].
  destruct ((p - 1) * l + l <? 0) eqn:E2; [apply Z.ltb_lt in E2; lia|].
  destruct (Z.le_gt_cases len ((p - 1) * l)) as [Hpast|Hin].
  - (* the page starts at or past the end *)
    rewrite (Z.min_r ((p - 1) * l) len) by lia.
    rewrite (Z.min_r ((p - 1) * l + l) len) by lia.
    rewrite Z.sub_diag. cbn [Z.to_nat firstn].
    rewrite (skipn_all2 items (n := Z.to_nat ((p - 1) * l)))
      by (unfold len in Hpast; lia).
    destruct (Z.to_nat l); reflexivity.
  - rewrite (Z.min_l ((p - 1) * l) len) by lia.
    destruct (Z.le_gt_cases ((p - 1) * l + l) len) as [Hfull|Hshort].
    + rewrite (Z.min_l ((p - 1) * l + l) len) by lia.
      f_equal. lia.
    + rewrite (Z.min_r ((p - 1) * l + l) len) by lia.
      rewrite !firstn_all2; [reflexivity| |];
        rewrite length_skipn; unfold len in *; lia.
Qed.

Lemma paginateArray_page_aux {T} (items : list T) p l :
  1 <= p -> 1 <= l ->
  data (paginateArray items (request p l))
  = firstn (Z.to_nat l) (skipn (Z.to_nat ((p - 1) * l)) items)
  /\ pi_total (pagination (paginateArray items (request p l)))
     = Z.of_nat (length items).
Proof.
  intros Hp Hl. unfold paginateArray, request.
  cbn [mbind option_bind page limit or_int data pagination pi_total].
  destruct (p =? 0) eqn:Ep; [apply Z.eqb_eq in Ep; lia|].
  destruct (l =? 0) eqn:El; [apply Z.eqb_eq in El; lia|].
  rewrite slice_chunk by assumption. split; reflexivity.
Qed.

(** X1.  For a page number from 1 on and a positive page size,
    [paginateArray] returns the items of that page in their order: the
    chunk of [limit] items that starts after the [(page - 1) * limit] items
    of the pages before.  The page never holds more than [limit] items, it
    is empty when it starts at or past the end of the list (no error is
    raised), and [total] is the length of the whole list. *)
Theorem paginateArray_page {T} (items : list T) p l :
  1 <= p -> 1 <= l ->
  let result := paginateArray items (request p l) in
  data result = firstn (Z.to_nat l) (skipn (Z.to_nat ((p - 1) * l)) items)
  /\ Z.of_nat (length (data result)) <= l
  /\ (Z.of_nat (length items) <= (p - 1) * l -> data result = [])
  /\ pi_total (pagination result) = Z.of_nat (length items).
Proof.
  intros Hp Hl. cbn zeta.
  destruct (paginateArray_page_aux items p l Hp Hl) as [-> ->].
  split; [reflexivity|]. split; [|split; [|reflexivity]].
  - rewrite length_firstn. lia.
  - intros Hpast. rewrite skipn_all2 by lia. destruct (Z.to_nat l); reflexivity.
Qed.

Lemma paginateArray_page_witness :
  data (paginateArray ["a"; "b"; "c"; "d"; "e"] (request 2 2)) = ["c"; "d"]
  /\ data (paginateArray ["a"; "b"; "c"; "d"; "e"] (request 4 2)) = [].
Proof.
  destruct (paginateArray_page ["a"; "b"; "c"; "d"; "e"] 2 2 ltac:(lia) ltac:(lia))
    as (Hdata & _).
  split; [exact Hdata | reflexivity].
Defined.

(** [Math.ceil(total / limit)] is the least number of pages that hold
    [total] items. *)
Lemma ceil_div_spec total l :
  1 <= l -> (ceil_div total l - 1) * l < total <= ceil_div total l * l.
Proof.
  intros Hl. unfold ceil_div.
  pose proof (Z.div_mod (- total) l ltac:(lia)) as Hdm.
  pose proof (Z.mod_pos_bound (- total) l ltac:(lia)) as Hmod.
  nia.
Qed.

Lemma lt_ceil_div p total l : 1 <= l -> (p < ceil_div total l <-> p * l < total).
Proof.
  intros Hl. pose proof (ceil_div_spec total l Hl) as Hc. split; intros H; nia.
Qed.

(** X2.  For a page number from 1 on and a positive page size, [hasNext] is
    true exactly when the next page holds at least one item, [hasPrev] is
    true exactly when the page is not the first, and [totalPages] is the
    least number of pages that hold all the items. *)
Theorem paginateArray_hasNext_hasPrev {T} (items : list T) p l :
  1 <= p -> 1 <= l ->
  let info := pagination (paginateArray items (request p l)) in
  (hasNext info = true <-> data (paginateArray items (request (p + 1) l)) <> [])
  /\ (hasPrev info = true <-> 1 < p)
  /\ (pi_totalPages info - 1) * l < Z.of_nat (length items)
     <= pi_totalPages info * l.
Proof.
  intros Hp Hl. cbn zeta.
  destruct (paginateArray_page_aux items (p + 1) l ltac:(lia) Hl) as [-> _].
  unfold paginateArray, request.
  cbn [mbind option_bind page limit or_int pagination hasNext hasPrev pi_totalPages].
  destruct (p =? 0) eqn:Ep; [apply Z.eqb_eq in Ep; lia|].
  destruct (l =? 0) eqn:El; [apply Z.eqb_eq in El; lia|].
  split; [|split].
  - rewrite Z.ltb_lt, (lt_ceil_div p _ l Hl).
    replace (p + 1 - 1) with p by lia. split.
    + intros Hlt Hnil. apply (f_equal (@length T)) in Hnil.
      rewrite length_firstn, length_skipn in Hnil. cbn [length] in Hnil. lia.
    + intros Hne. destruct (Z.lt_ge_cases (p * l) (Z.of_nat (length items)))
        as [Hlt|Hge]; [assumption|].
      exfalso. apply Hne. rewrite skipn_all2 by lia.
      destruct (Z.to_nat l); reflexivity.
  - apply Z.ltb_lt.
  - apply ceil_div_spec. assumption.
Qed.

Lemma paginateArray_hasNext_hasPrev_witness :
  hasNext (pagination (paginateArray ["a"; "b"; "c"; "d"; "e"] (request 2 2))) = true
  /\ hasNext (pagination (paginateArray ["a"; "b"; "c"; "d"; "e"] (request 3 2))) = false
  /\ pi_totalPages (pagination (paginateArray ["a"; "b"; "c"; "d"; "e"] (request 3 2))) = 3.
Proof.
  destruct (paginateArray_hasNext_hasPrev ["a"; "b"; "c"; "d"; "e"] 2 2
              ltac:(lia) ltac:(lia)) as (Hnext & _).
  split; [apply Hnext; discriminate | split; reflexivity].
Defined.

(** The chunks of the first [n] pages, one after the other, are the first
    [n * l] items. *)
Lemma chunks_concat {T} (items : list T) (l n : nat) :
  concat (map (fun q => firstn l (skipn ((q - 1) * l) items)) (seq 1 n))
  = firstn (n * l) items.
Proof.
  induction n as [|n IH]; [reflexivity|].
  rewrite seq_S, map_app, concat_app, IH. cbn [map concat Nat.add].
  rewrite app_nil_r. replace (S n - 1)%nat with n by lia.
  replace (S n * l)%nat with (n * l + l)%nat by lia.
  symmetry. apply firstn_plus.
Qed.

(** X3.  Paging through a list loses and repeats nothing: for a positive
    page size, the pages 1 to [totalPages], one after the other, are the
    list itself. *)
Theorem paginateArray_pages_cover {T} (items : list T) l :
  1 <= l ->
  let totalPages := pi_totalPages (pagination (paginateArray items (request 1 l))) in
  concat (map (fun q => data (paginateArray items (request (Z.of_nat q) l)))
              (seq 1 (Z.to_nat totalPages)))
  = items.
Proof.
  intros Hl. cbn zeta.
  assert (Htotal :
    pi_totalPages (pagination (paginateArray items (request 1 l)))
    = ceil_div (Z.of_nat (length items)) l).
  { unfold paginateArray, request.
    cbn [mbind option_bind page limit or_int pagination pi_totalPages].
    destruct (l =? 0) eqn:El; [apply Z.eqb_eq in El; lia|]. reflexivity. }
  rewrite Htotal.
  pose proof (ceil_div_spec (Z.of_nat (length items)) l Hl) as Hc.
  set (n := Z.to_nat (ceil_div (Z.of_nat (length items)) l)).
  transitivity
    (concat (map (fun q => firstn (Z.to_nat l)
                             (skipn ((q - 1) * Z.to_nat l) items)) (seq 1 n))).
  - f_equal. apply map_ext_in. intros q Hq. apply in_seq in Hq.
    destruct (paginateArray_page_aux items (Z.of_nat q) l ltac:(lia) Hl) as [-> _].
    do 2 f_equal. nia.
  - rewrite chunks_concat. apply firstn_all2. unfold n. nia.
Qed.

Lemma paginateArray_pages_cover_witness :
  concat (map (fun q => data (paginateArray ["a"; "b"; "c"; "d"; "e"]
                                (request (Z.of_nat q) 2)))
              (seq 1 3))
  = ["a"; "b"; "c"; "d"; "e"].
Proof.
  exact (paginateArray_pages_cover ["a"; "b"; "c"; "d"; "e"] 2 ltac:(lia)).
Defined.

End PaginationFacts.

(** ** Tenant counts *)

Module TenantCountFacts.

Import TenantCounts.

Lemma sum_of_insert counts k c :
  sum_of (<[k := c]> counts)
  = count_of c - default 0 (count_of <$> counts !! k) + sum_of counts.
Proof.
  unfold sum_of. destruct (counts !! k) as [old|] eqn:Hk.
  - rewrite <- (insert_delete_eq counts k c).
    rewrite map_fold_insert_L; [|intros; lia|apply lookup_delete_eq].
    rewrite (map_fold_delete_L _ 0 k old counts); [|intros; lia|assumption].
    simpl. lia.
  - rewrite map_fold_insert_L; [|intros; lia|assumption].
    simpl. lia.
Qed.

Lemma not_inherited_proto k : Js.inherited k = false -> String.eqb k "__proto__" = false.
Proof.
  intros Hk. destruct (String.eqb_spec k "__proto__") as [->|]; [|reflexivity].
  discriminate Hk.
Qed.

(** One round of the loop, at a key that no object inherits. *)
Lemma bump_counted counts k :
  Js.inherited k = false ->
  counted counts ->
  exists n, 0 < n
    /\ bump counts k = <[k := Num n]> counts
    /\ n = default 0 (count_of <$> counts !! k) + 1.
Proof.
  intros Hk Hcounted. unfold bump.
  destruct (counts !! k) as [c|] eqn:Hc.
  - destruct (Hcounted k c Hc) as (n & -> & Hn). exists (n + 1).
    split; [lia|]. simpl.
    unfold Pagination.or_int.
    destruct (n =? 0) eqn:E; [apply Z.eqb_eq in E; lia|]. split; reflexivity.
  - rewrite (not_inherited_proto k Hk), Hk. exists 1.
    split; [lia|]. split; reflexivity.
Qed.

Lemma bump_keeps_counted counts k :
  Js.inherited k = false -> counted counts -> counted (bump counts k).
Proof.
  intros Hk Hcounted.
  destruct (bump_counted counts k Hk Hcounted) as (n & Hn & -> & _).
  intros k' c. destruct (decide (k = k')) as [<-|Hne].
  - rewrite lookup_insert_eq. intros [= <-]. eauto.
  - rewrite lookup_insert_ne by assumption. apply Hcounted.
Qed.

(** Whatever the key bumped, an entry under another key that no object
    inherits stays as it was. *)
Lemma bump_other counts k k' :
  k <> k' -> bump counts k !! k' = counts !! k'.
Proof.
  intros Hne. unfold bump.
  destruct (counts !! k) as [[n|name ones]|];
    [rewrite lookup_insert_ne by assumption; reflexivity ..|].
  destruct (String.eqb k "__proto__"); [reflexivity|].
  destruct (Js.inherited k); rewrite lookup_insert_ne by assumption; reflexivity.
Qed.

(** The entry of a key that no object inherits, from any table in which it
    is a positive count or missing: it gains the number of values that give
    the key, whatever the other keys are. *)
Lemma tally_entry key vs k counts :
  Js.inherited k = false ->
  (forall c, counts !! k = Some c -> exists n, c = Num n /\ 0 < n) ->
  let after := fold_left bump (map key vs) counts in
  let total := default 0 (count_of <$> counts !! k) + having key k vs in
  after !! k = if total =? 0 then None else Some (Num total).
Proof.
  intros Hk. cbn zeta. revert counts.
  induction vs as [|v vs IH]; intros counts Hentry.
  - unfold having. cbn [map fold_left List.filter length].
    destruct (counts !! k) as [c|] eqn:Hc; [|reflexivity].
    destruct (Hentry c eq_refl) as (n & -> & Hn).
    simpl.
    destruct (n + Z.of_nat 0 =? 0) eqn:E; [apply Z.eqb_eq in E; lia|].
    do 2 f_equal. lia.
  - cbn [map fold_left]. unfold having in *. cbn [List.filter].
    destruct (String.eqb_spec (key v) k) as [Hkey|Hne].
    + assert (Hbump : exists n, 0 < n
                /\ bump counts (key v) !! k = Some (Num n)
                /\ n = default 0 (count_of <$> counts !! k) + 1).
      { rewrite Hkey. unfold bump.
        destruct (counts !! k) as [c|] eqn:Hc.
        - destruct (Hentry c eq_refl) as (n & -> & Hn). exists (n + 1).
          split; [lia|]. rewrite lookup_insert_eq.
          simpl.
          unfold Pagination.or_int.
          destruct (n =? 0) eqn:E; [apply Z.eqb_eq in E; lia|]. split; reflexivity.
        - rewrite (not_inherited_proto k Hk), Hk, lookup_insert_eq. exists 1.
          split; [lia|]. split; reflexivity. }
      destruct Hbump as (n & Hn & Hlook & Hval).
      rewrite IH.
      * rewrite Hlook. simpl.
        replace (n + Z.of_nat (length (List.filter (fun v0 => String.eqb (key v0) k) vs)))
          with (default 0 (count_of <$> counts !! k)
                + Z.of_nat (S (length (List.filter (fun v0 => String.eqb (key v0) k) vs))))
          by lia.
        reflexivity.
      * rewrite Hlook. intros c [= <-]. eauto.
    + rewrite IH.
      * rewrite bump_other by assumption. reflexivity.
      * rewrite bump_other by assumption. exact Hentry.
Qed.

(** When no value gives a key that objects inherit, the counts add up to
    the number of values. *)
Lemma tally_sum keys counts :
  (forall k, k ∈ keys -> Js.inherited k = false) ->
  counted counts ->
  sum_of (fold_left bump keys counts) = sum_of counts + Z.of_nat (length keys).
Proof.
  revert counts. induction keys as [|k keys IH]; intros counts Hkeys Hcounted.
  - cbn. lia.
  - cbn [fold_left]. rewrite IH.
    + destruct (bump_counted counts k (Hkeys k ltac:(left)) Hcounted)
        as (n & _ & -> & ->).
      rewrite sum_of_insert. cbn [count_of length]. lia.
    + intros k' Hin. apply Hkeys. right. assumption.
    + apply bump_keeps_counted; [apply Hkeys; left | assumption].
Qed.

(** X4.  [countByStatus] and [countByPlan] count every value stored under
    the [tenant:] prefix, tenant or not.  For a status (a plan) whose name
    is not the name of a property that objects inherit, the entry is the
    number of scanned values that have it, and there is no entry when none
    has; a value without a status (a plan) is counted under [undefined].
    When no scanned value has such an inherited name for its status (its
    plan), the entries add up to the number of values scanned.  Neither
    call writes. *)
Theorem counts_are_scan_counts w k :
  Js.inherited k = false ->
  let scanned := fst (kv_store.getByPrefix "tenant:" w) in
  let by_status := fst (countByStatus w) in
  let by_plan := fst (countByPlan w) in
  let entry n := if n =? 0 then None else Some (Num n) in
  by_status !! k = entry (having status_key k scanned)
  /\ by_plan !! k = entry (having plan_key k scanned)
  /\ ((forall v, v ∈ scanned -> Js.inherited (status_key v) = false) ->
      sum_of by_status = Z.of_nat (length scanned))
  /\ ((forall v, v ∈ scanned -> Js.inherited (plan_key v) = false) ->
      sum_of by_plan = Z.of_nat (length scanned))
  /\ kv (snd (countByStatus w)) = kv w
  /\ kv (snd (countByPlan w)) = kv w.
Proof.
  intros Hk. cbn zeta. unfold countByStatus, countByPlan. run. unfold tally.
  set (scanned := map snd _).
  assert (Hempty : forall c, (∅ : gmap string Count) !! k = Some c ->
                             exists n, c = Num n /\ 0 < n).
  { intros c Hc. rewrite lookup_empty in Hc. discriminate. }
  assert (Hcounted : counted ∅).
  { intros k' c Hc. rewrite lookup_empty in Hc. discriminate. }
  pose proof (tally_entry status_key scanned k ∅ Hk Hempty) as Hs.
  pose proof (tally_entry plan_key scanned k ∅ Hk Hempty) as Hp.
  cbn zeta in Hs, Hp. rewrite lookup_empty in Hs, Hp.
  simpl in Hs, Hp.
  rewrite Z.add_0_l in Hs, Hp.
  split; [exact Hs|]. split; [exact Hp|].
  assert (Hsum0 : sum_of (∅ : gmap string Count) = 0) by reflexivity.
  split; [|split; [|split; reflexivity]].
  - intros Hkeys. rewrite tally_sum, Hsum0, length_map; [lia| |assumption].
    intros k' Hin. apply list_elem_of_fmap in Hin as (v & -> & Hv). auto.
  - intros Hkeys. rewrite tally_sum, Hsum0, length_map; [lia| |assumption].
    intros k' Hin. apply list_elem_of_fmap in Hin as (v & -> & Hv). auto.
Qed.

Lemma counts_are_scan_counts_witness :
  fst (countByStatus Sample.flags_world) !! "active" = Some (Num 1)
  /\ fst (countByPlan Sample.flags_world) !! "Basic" = Some (Num 1)
  /\ fst (countByPlan Sample.flags_world) !! "Pro" = None.
Proof.
  destruct (counts_are_scan_counts Sample.flags_world "active" eq_refl)
    as (Hstatus & _).
  destruct (counts_are_scan_counts Sample.flags_world "Basic" eq_refl)
    as (_ & Hbasic & _).
  destruct (counts_are_scan_counts Sample.flags_world "Pro" eq_refl)
    as (_ & Hpro & _).
  rewrite Hstatus, Hbasic, Hpro. repeat split; vm_compute; reflexivity.
Defined.

End TenantCountFacts.

(** ** More of the usage ledger *)

Module LedgerMoreFacts.

Import UsageFacts UsageRouteFacts.

Lemma prefix_append (a b c : string) :
  String.prefix (a +:+ b) (a +:+ c) = String.prefix b c.
Proof.
  induction a as [|x a IH]; [reflexivity|].
  simpl. destruct (ascii_dec x x); [assumption | contradiction].
Qed.

(** A usage key of either layout starts with the tenant's prefix. *)
Lemma tenant_prefix tenantId rest :
  String.prefix ("usage:" +:+ tenantId +:+ ":") ("usage:" +:+ tenantId +:+ ":" +:+ rest)
  = true.
Proof.
  rewrite (prefix_append "usage:"), (prefix_append tenantId).
  simpl. destruct rest; reflexivity.
Qed.

(** What a prefix scan returns: the usage records stored under the prefix. *)
Lemma scan_finds prefix k r w :
  kv w !! k = Some (VUsage r) ->
  String.prefix prefix k = true ->
  r ∈ usages_of (fst (kv_store.getByPrefix prefix w)).
Proof.
  intros Hk Hp. unfold usages_of, kv_store.getByPrefix. cbn [fst].
  apply list_elem_of_omap. exists (VUsage r). split; [|reflexivity].
  apply list_elem_of_In. apply in_map_iff. exists (k, VUsage r). split; [reflexivity|].
  apply filter_In. split; [|assumption].
  apply list_elem_of_In. apply elem_of_map_to_list. assumption.
Qed.

Lemma scan_found prefix r w :
  r ∈ usages_of (fst (kv_store.getByPrefix prefix w)) ->
  exists k, kv w !! k = Some (VUsage r) /\ String.prefix prefix k = true.
Proof.
  unfold usages_of, kv_store.getByPrefix. cbn [fst]. intros Hin.
  apply list_elem_of_omap in Hin as (v & Hv & Hr).
  destruct v; try discriminate. injection Hr as ->.
  apply list_elem_of_In, in_map_iff in Hv as ([k v] & Hsnd & Hf).
  cbn in Hsnd. subst v. apply filter_In in Hf as [Hm Hp].
  exists k. split; [|assumption].
  apply elem_of_map_to_list. apply list_elem_of_In. assumption.
Qed.

Lemma getAll_run tenantId period w :
  fst (UsageServiceMore.getAll tenantId period w)
  = usages_of (fst (kv_store.getByPrefix ("usage:" +:+ tenantId +:+ ":") w)).
Proof.
  unfold UsageServiceMore.getAll, bind at 1.
  rewrite period_or_current_eta. reflexivity.
Qed.

(** X5.  [getAll] does not use its period: whatever period is asked for, it
    returns the tenant's usage records of every period, those the service
    wrote and those the route tracker wrote.  A record written for one
    period is returned when another period is asked for. *)
Theorem getAll_ignores_period tenantId metric value limit written asked asked' w :
  fst (UsageServiceMore.getAll tenantId asked w)
  = fst (UsageServiceMore.getAll tenantId asked' w)
  /\ fst (UsageService.record tenantId metric value limit written w)
     ∈ fst (UsageServiceMore.getAll tenantId asked
              (snd (UsageService.record tenantId metric value limit written w)))
  /\ (forall amount,
        exists r,
          kv (snd (usage_routes.trackUsage tenantId metric amount w))
             !! usage_routes.key tenantId (period_of (now w)) metric
          = Some (VUsage r)
          /\ r ∈ fst (UsageServiceMore.getAll tenantId asked
                        (snd (usage_routes.trackUsage tenantId metric amount w)))).
Proof.
  split; [|split].
  - rewrite !getAll_run. reflexivity.
  - rewrite getAll_run.
    destruct (record_stored tenantId metric value limit written w) as (Hk & _).
    eapply scan_finds; [exact Hk|]. apply tenant_prefix.
  - intros amount. rewrite getAll_run.
    assert (Hstored : exists r,
      kv (snd (usage_routes.trackUsage tenantId metric amount w))
         !! usage_routes.key tenantId (period_of (now w)) metric
      = Some (VUsage r)).
    { destruct (as_usage (kv w !! usage_routes.key tenantId (period_of (now w)) metric))
        as [existing|] eqn:Hk.
      - rewrite (trackUsage_existing _ _ _ _ _ Hk). cbn [snd kv].
        rewrite lookup_insert_eq. eexists. reflexivity.
      - destruct (trackUsage_fresh tenantId metric amount w Hk) as (l & reads & ->).
        cbn [snd kv]. rewrite lookup_insert_eq. eexists. reflexivity. }
    destruct Hstored as (r & Hr). exists r. split; [exact Hr|].
    eapply scan_finds; [exact Hr|]. apply tenant_prefix.
Qed.

(** X6.  Every [record] call stamps today's date into the record's daily
    map with the value written, over any value the day had, and carries the
    other days of the record it replaces over unchanged. *)
Theorem record_stamps_today tenantId metric value limit period w :
  let r := fst (UsageService.record tenantId metric value limit period w) in
  let before :=
    default ∅ (fst (UsageService.get tenantId metric period w) ≫= u_daily) in
  exists daily,
    u_daily r = Some daily
    /\ daily !! today_of (now w) = Some value
    /\ (forall day, day <> today_of (now w) -> daily !! day = before !! day).
Proof.
  cbn zeta. rewrite record_run, get_run. cbn [fst u_daily].
  eexists. split; [reflexivity|]. split.
  - apply lookup_insert_eq.
  - intros day Hday. apply lookup_insert_ne. congruence.
Qed.

(** X7.  A second [record] on the same day of the same period leaves no
    trace of the first: the store is as if only the second had been made. *)
Theorem record_last_write_wins tenantId metric value limit value' limit' period
        later w :
  today_of later = today_of (now w) ->
  fst (period_or_current period (at_time later w))
  = fst (period_or_current period w) ->
  kv (snd (UsageService.record tenantId metric value' limit' period
             (at_time later
                (snd (UsageService.record tenantId metric value limit period w)))))
  = kv (snd (UsageService.record tenantId metric value' limit' period
               (at_time later w))).
Proof.
  intros Hday Hperiod. rewrite !record_run. cbn [snd kv at_time now].
  same_clock period (at_time later w). rewrite Hperiod.
  rewrite lookup_insert_eq. cbn [as_usage mbind option_bind u_daily default].
  rewrite insert_insert_eq. rewrite Hday.
  unfold default at 1. cbn [from_option id].
  rewrite insert_insert_eq. reflexivity.
Qed.

Lemma record_last_write_wins_witness :
  kv (snd (UsageService.record "tn_1" "api_calls" 70%float 100%float None
             (at_time Sample.nov2
                (snd (UsageService.record "tn_1" "api_calls" 50%float 80%float None
                        Sample.empty)))))
  = kv (snd (UsageService.record "tn_1" "api_calls" 70%float 100%float None
               (at_time Sample.nov2 Sample.empty))).
Proof.
  apply (record_last_write_wins "tn_1" "api_calls" 50%float 80%float 70%float
           100%float None Sample.nov2 Sample.empty); reflexivity.
Defined.

(** X8.  What [record] writes is what the service reads back: [get]
    returns the record, [isOverLimit] answers whether the value written
    reaches the limit written, and every other key of the store is left as
    it was. *)
Theorem record_then_read tenantId metric value limit period w :
  let written := UsageService.record tenantId metric value limit period w in
  fst (UsageService.get tenantId metric period (snd written)) = Some (fst written)
  /\ fst (UsageService.isOverLimit tenantId metric period (snd written))
     = Js.ge value limit
  /\ (forall k,
        k <> UsageService.key tenantId metric (fst (period_or_current period w)) ->
        kv (snd written) !! k = kv w !! k).
Proof.
  cbn zeta. rewrite get_run, isOverLimit_run, record_run. cbn [fst snd kv].
  same_clock period w. rewrite lookup_insert_eq. cbn [as_usage u_current u_limit].
  split; [reflexivity|]. split; [reflexivity|].
  intros k Hk. apply lookup_insert_ne. congruence.
Qed.

(** Comparing two numbers the other way round gives the opposite answer. *)
Lemma SFcompare_antisym a b :
  SFcompare b a = option_map CompOpp (SFcompare a b).
Proof.
  destruct a as [sa|sa| |sa ma ea], b as [sb|sb| |sb mb eb]; cbn;
    try reflexivity;
    try (destruct sa; reflexivity); try (destruct sb; reflexivity);
    try (destruct sa, sb; reflexivity).
  destruct sa, sb; cbn; try reflexivity;
    rewrite (Z.compare_antisym ea eb);
    destruct (ea ?= eb); cbn; try reflexivity;
    change (Pos.compare_cont Eq mb ma)
      with (Pos.compare_cont (CompOpp Eq) mb ma);
    rewrite <- (Pos.compare_cont_antisym ma mb Eq);
    destruct (Pos.compare_cont Eq ma mb); reflexivity.
Qed.

(** A number that is not NaN and is neither below nor above another that
    is not NaN is at most that other. *)
Lemma number_trichotomy (x c : Js.number) :
  PrimFloat.is_nan x = false -> PrimFloat.is_nan c = false ->
  PrimFloat.ltb c x = false -> PrimFloat.leb x c = true.
Proof.
  unfold PrimFloat.is_nan.
  rewrite !negb_false_iff, !FloatAxioms.eqb_spec, FloatAxioms.ltb_spec,
          FloatAxioms.leb_spec.
  unfold SFeqb, SFltb, SFleb.
  rewrite (SFcompare_antisym (Prim2SF x) (Prim2SF c)).
  destruct (Prim2SF x) as [sx|sx| |sx mx ex] eqn:Ex,
           (Prim2SF c) as [sc|sc| |sc mc ec] eqn:Ec; cbn;
    try discriminate; try reflexivity;
    try (destruct sx, sc; cbn; discriminate || reflexivity);
    try (destruct sx; cbn; discriminate || reflexivity);
    try (destruct sc; cbn; discriminate || reflexivity).
  intros _ _.
  destruct sx, sc; cbn; try discriminate; try reflexivity;
    destruct (ex ?= ec); cbn; try discriminate; try reflexivity;
    destruct (Pos.compare_cont Eq mx mc); cbn; discriminate || reflexivity.
Qed.

(** X9.  The percentage a [record] stores is capped: whatever the value and
    the limit, it is at most 100, or it is NaN (as for 0 of 0). *)
Theorem percentage_capped value limit :
  let p := UsageService.percentage_of value limit in
  PrimFloat.is_nan p = true \/ PrimFloat.leb p 100 = true.
Proof.
  cbn zeta. unfold UsageService.percentage_of, Js.Math_min.
  set (x := Js.Math_round _).
  change (PrimFloat.is_nan 100) with false. cbn [orb].
  destruct (PrimFloat.is_nan x) eqn:Hnan; [left; reflexivity|].
  right.
  destruct (PrimFloat.ltb 100 x) eqn:Habove; [reflexivity|].
  assert (Hle : PrimFloat.leb x 100 = true)
    by (apply number_trichotomy; [assumption | reflexivity | assumption]).
  destruct (PrimFloat.ltb x 100); [assumption|].
  change (PrimFloat.is_zero 100) with false. cbn [andb]. assumption.
Qed.

(** The cap at work: over the limit, at a zero limit, and 0 of 0. *)
Example percentage_edges :
  UsageService.percentage_of 250%float 100%float = 100%float
  /\ UsageService.percentage_of 5%float 0%float = 100%float
  /\ PrimFloat.is_nan (UsageService.percentage_of 0%float 0%float) = true
  /\ UsageService.percentage_of 29%float 200%float = 14%float.
Proof. repeat split. Qed.

End LedgerMoreFacts.

(** ** More of the usage routes *)

Module UsageRouteMoreFacts.

Import UsageRouteFacts LedgerMoreFacts usage_routes_more.

Ltac run_in H :=
  unfold bind, ret, new_Date, getCurrentPeriod,
         kv_store.get, kv_store.set, kv_store.getByPrefix,
         supabase.tenants_by_id, supabase.tenants_by_external_id, emit in H;
  cbn [fst snd kv pg now log] in H.

(** A route key starts with the prefix of its tenant and period. *)
Lemma key_under_prefix tenantId period metric :
  String.prefix (period_prefix tenantId period)
                (usage_routes.key tenantId period metric) = true.
Proof.
  unfold period_prefix, usage_routes.key.
  rewrite (prefix_append "usage:"), (prefix_append tenantId),
          (prefix_append ":"), (prefix_append period).
  simpl. destruct metric; reflexivity.
Qed.

Lemma set_usage_run tenantId metric value w :
  let period := period_of (now w) in
  let k := usage_routes.key tenantId period metric in
  let limit := Js.or_undef_num (u_limit <$> as_usage (kv w !! k)) 1000%float in
  usage_routes_more.set_usage tenantId metric value w
  = (tt,
     mkWorld (<[k := VUsage (usage_routes.fresh metric value limit period
                               (Js.toISOString (now w)))]> (kv w))
             (pg w) (now w) (log w ++ [KvGet k; KvSet k])%list).
Proof.
  cbn zeta. unfold set_usage. run. rewrite <- app_assoc. reflexivity.
Qed.

(** X10.  The set route replaces the count and keeps the limit: the record
    it stores has the value given and the limit of the record that was
    there (1000 when there was none, or its limit was 0).  A tracker call
    that follows in the same period counts on from the value set, under
    that same limit. *)
Theorem set_then_track tenantId metric value amount later w :
  period_of later = period_of (now w) ->
  let k := usage_routes.key tenantId (period_of (now w)) metric in
  let w1 := snd (usage_routes_more.set_usage tenantId metric value w) in
  let w2 := snd (usage_routes.trackUsage tenantId metric amount (at_time later w1)) in
  exists r1 r2,
    as_usage (kv w1 !! k) = Some r1
    /\ u_current r1 = value
    /\ u_limit r1 = Js.or_undef_num (u_limit <$> as_usage (kv w !! k)) 1000%float
    /\ as_usage (kv w2 !! k) = Some r2
    /\ u_current r2
       = PrimFloat.add (Js.or_num value 0%float) (default 1%float amount)
    /\ u_limit r2 = u_limit r1.
Proof.
  intros Hperiod. cbn zeta. rewrite set_usage_run. cbn [snd kv].
  rewrite lookup_insert_eq. cbn [as_usage].
  eexists _, _. split; [reflexivity|]. split; [reflexivity|]. split; [reflexivity|].
  erewrite trackUsage_existing.
  2:{ cbn [at_time now kv]. rewrite Hperiod, lookup_insert_eq. reflexivity. }
  cbn [snd kv at_time now]. rewrite Hperiod, lookup_insert_eq. cbn [as_usage].
  split; [reflexivity|]. split; reflexivity.
Qed.

Lemma set_then_track_witness :
  exists r,
    as_usage (kv (snd (usage_routes.trackUsage "tn_1" "api_calls" (Some 2%float)
                         (at_time Sample.nov20
                            (snd (usage_routes_more.set_usage "tn_1" "api_calls"
                                    7%float Sample.route_ledger)))))
                 !! "usage:tn_1:2026-11:api_calls")
    = Some r
    /\ u_current r = 9%float /\ u_limit r = 1000%float.
Proof.
  destruct (set_then_track "tn_1" "api_calls" 7%float (Some 2%float) Sample.nov20
              Sample.route_ledger eq_refl)
    as (r1 & r2 & _ & _ & Hlimit1 & Hk & Hcur & Hlimit).
  exists r2. split; [exact Hk|]. split.
  - rewrite Hcur. reflexivity.
  - rewrite Hlimit, Hlimit1. vm_compute. reflexivity.
Defined.

Lemma NoDup_map_filter {A B} (f : A -> B) (P : A -> bool) (l : list A) :
  NoDup (map f l) -> NoDup (map f (List.filter P l)).
Proof.
  induction l as [|x l IH]; intros Hnodup; [constructor|].
  cbn [map] in Hnodup. apply NoDup_cons in Hnodup as [Hx Hnodup].
  cbn [List.filter]. destruct (P x); [|auto].
  cbn [map]. apply NoDup_cons. split; [|auto].
  intros Hin. apply Hx. apply list_elem_of_In in Hin.
  apply in_map_iff in Hin as (y & Hy & Hf). apply filter_In in Hf as [Hf _].
  apply list_elem_of_In. apply in_map_iff. exists y. split; assumption.
Qed.

Lemma usages_of_elem (l : list (string * KvValue)) r :
  r ∈ usages_of (map snd l) -> exists k, (k, VUsage r) ∈ l.
Proof.
  unfold usages_of. intros Hin.
  apply list_elem_of_omap in Hin as (v & Hv & Hr).
  destruct v; try discriminate. injection Hr as ->.
  apply list_elem_of_In, in_map_iff in Hv as ([k v] & Hsnd & Hl).
  cbn in Hsnd. subst v. exists k. apply list_elem_of_In. assumption.
Qed.

(** Records that sit at the keys their metrics name have different
    metrics. *)
Lemma usages_metrics_NoDup tenantId period (l : list (string * KvValue)) :
  NoDup (map fst l) ->
  (forall k r, (k, VUsage r) ∈ l ->
               k = usage_routes.key tenantId period (u_metric r)) ->
  NoDup (map u_metric (usages_of (map snd l))).
Proof.
  induction l as [|[k v] l IH]; intros Hnodup Hkeys; [constructor|].
  cbn [map fst] in Hnodup. apply NoDup_cons in Hnodup as [Hk Hnodup].
  assert (IHl : NoDup (map u_metric (usages_of (map snd l)))).
  { apply IH; [assumption|]. intros k' r' Hin. apply Hkeys. right. assumption. }
  destruct v as [t|r|f|p]; try exact IHl.
  change (usages_of (map snd ((k, VUsage r) :: l)))
    with (r :: usages_of (map snd l)).
  cbn [map]. apply NoDup_cons. split; [|exact IHl].
  intros Hin. apply list_elem_of_fmap in Hin as (r' & Hmetric & Hr').
  apply usages_of_elem in Hr' as (k' & Hk').
  apply Hk. apply list_elem_of_fmap. exists (k', VUsage r'). split; [|assumption].
  cbn [fst]. rewrite (Hkeys k r) by left.
  rewrite (Hkeys k' r') by (right; assumption). congruence.
Qed.

(** Under the routes' key discipline a scan of the period returns at most
    one record per metric. *)
Lemma scan_metrics_NoDup tenantId period w :
  keyed_by_metric tenantId period w ->
  NoDup (map u_metric
           (usages_of (fst (kv_store.getByPrefix (period_prefix tenantId period) w)))).
Proof.
  intros Hkeyed. unfold kv_store.getByPrefix. cbn [fst].
  apply (usages_metrics_NoDup tenantId period).
  - apply NoDup_map_filter. apply NoDup_fst_map_to_list.
  - intros k r Hin. apply list_elem_of_In, filter_In in Hin as [Hm Hp].
    apply Hkeyed; [|exact Hp].
    apply elem_of_map_to_list. apply list_elem_of_In. exact Hm.
Qed.

Lemma reset_all_frame tenantId period records k w :
  (forall r, r ∈ records -> k <> usage_routes.key tenantId period (u_metric r)) ->
  kv (snd (reset_all tenantId period records w)) !! k = kv w !! k.
Proof.
  revert w. induction records as [|record rest IH]; intros w Hk; [reflexivity|].
  cbn [reset_all]. run. rewrite IH.
  - cbn [kv]. apply lookup_insert_ne. apply not_eq_sym. apply Hk. left.
  - intros r Hr. apply Hk. right. assumption.
Qed.

Lemma reset_all_now tenantId period records w :
  now (snd (reset_all tenantId period records w)) = now w.
Proof.
  revert w. induction records as [|record rest IH]; intros w; [reflexivity|].
  cbn [reset_all]. run. rewrite IH. reflexivity.
Qed.

Lemma reset_all_hit tenantId period records r w :
  NoDup (map u_metric records) ->
  r ∈ records ->
  kv (snd (reset_all tenantId period records w))
     !! usage_routes.key tenantId period (u_metric r)
  = Some (VUsage (with_current r 0%float (Js.toISOString (now w)))).
Proof.
  revert w. induction records as [|record rest IH]; intros w Hnodup Hin.
  - apply elem_of_nil in Hin. contradiction.
  - cbn [map] in Hnodup. apply NoDup_cons in Hnodup as [Hfresh Hnodup].
    cbn [reset_all]. run.
    apply elem_of_cons in Hin as [->|Hin].
    + rewrite reset_all_frame; [cbn [kv]; apply lookup_insert_eq|].
      intros r' Hr' Heq. apply key_inj in Heq. apply Hfresh. rewrite Heq.
      apply list_elem_of_fmap. exists r'. split; [reflexivity|assumption].
    + rewrite IH by assumption. reflexivity.
Qed.

(** The sample ledger keeps the routes' key discipline. *)
Lemma route_ledger_keyed :
  keyed_by_metric "tn_1" (period_of (now Sample.route_ledger)) Sample.route_ledger.
Proof.
  intros k r Hk Hp. unfold Sample.route_ledger in Hk. cbn [kv list_to_map foldr] in Hk.
  repeat (apply lookup_insert_Some in Hk as [[<- Hv]|[_ Hk]];
          [try discriminate Hv|]).
  - injection Hv as <-. reflexivity.
  - rewrite lookup_empty in Hk. discriminate.
Qed.

(** X11.  The reset route zeroes the tenant's counts of the current period
    and nothing else: every usage record under the tenant's prefix for the
    period is stored again with [current = 0] and its limit and other
    fields as they were, and every key outside that prefix (other tenants,
    other periods, other kinds of object) is left as it was. *)
Theorem reset_zeroes_period tenantId w :
  let period := period_of (now w) in
  let w' := snd (reset_usage tenantId w) in
  keyed_by_metric tenantId period w ->
  (forall k r,
      kv w !! k = Some (VUsage r) ->
      String.prefix (period_prefix tenantId period) k = true ->
      kv w' !! k = Some (VUsage (with_current r 0%float (Js.toISOString (now w)))))
  /\ (forall k,
        String.prefix (period_prefix tenantId period) k = false ->
        kv w' !! k = kv w !! k).
Proof.
  cbn zeta. intros Hkeyed. unfold reset_usage. run. split.
  - intros k r Hk Hp. rewrite (Hkeyed k r Hk Hp).
    rewrite reset_all_hit; [reflexivity| |].
    + apply (scan_metrics_NoDup tenantId (period_of (now w)) w Hkeyed).
    + apply (scan_finds _ k r w Hk Hp).
  - intros k Hp. rewrite reset_all_frame; [reflexivity|].
    intros r _ Heq. subst k. rewrite key_under_prefix in Hp. discriminate.
Qed.

Lemma reset_zeroes_period_witness :
  kv (snd (reset_usage "tn_1" Sample.route_ledger)) !! "usage:tn_1:2026-11:api_calls"
  = Some (VUsage (with_current Sample.tracked_record 0%float
                    "2026-11-02T04:46:00.000Z"))
  /\ kv (snd (reset_usage "tn_1" Sample.route_ledger)) !! "tenant:tn_1"
     = Some (VTenant Sample.tn_1).
Proof.
  assert (Hkeyed : keyed_by_metric "tn_1" (period_of (now Sample.route_ledger))
                                   Sample.route_ledger).
  { apply route_ledger_keyed. }
  destruct (reset_zeroes_period "tn_1" Sample.route_ledger Hkeyed) as [Hhit Hframe].
  split.
  - apply Hhit; reflexivity.
  - rewrite Hframe; reflexivity.
Defined.

Lemma delete_all_frame tenantId period records k w :
  (forall r, r ∈ records -> k <> usage_routes.key tenantId period (u_metric r)) ->
  kv (snd (delete_all tenantId period records w)) !! k = kv w !! k.
Proof.
  revert w. induction records as [|record rest IH]; intros w Hk; [reflexivity|].
  cbn [delete_all]. unfold kv_store_more.del. run. rewrite IH.
  - cbn [kv]. apply lookup_delete_ne. apply not_eq_sym. apply Hk. left.
  - intros r Hr. apply Hk. right. assumption.
Qed.

(** The delete loop only removes. *)
Lemma delete_all_only_removes tenantId period records k w :
  kv (snd (delete_all tenantId period records w)) !! k = None
  \/ kv (snd (delete_all tenantId period records w)) !! k = kv w !! k.
Proof.
  revert w. induction records as [|record rest IH]; intros w; [right; reflexivity|].
  cbn [delete_all]. unfold kv_store_more.del. run.
  destruct (IH (mkWorld (delete (usage_routes.key tenantId period (u_metric record))
                                (kv w)) (pg w) (now w) (log w)))
    as [Hnone|Hsame]; [left; assumption|].
  rewrite Hsame. cbn [kv].
  destruct (decide (usage_routes.key tenantId period (u_metric record) = k))
    as [->|Hne].
  - left. apply lookup_delete_eq.
  - right. apply lookup_delete_ne. assumption.
Qed.

Lemma delete_all_hit tenantId period records r w :
  r ∈ records ->
  kv (snd (delete_all tenantId period records w))
     !! usage_routes.key tenantId period (u_metric r) = None.
Proof.
  revert w. induction records as [|record rest IH]; intros w Hin.
  - apply elem_of_nil in Hin. contradiction.
  - cbn [delete_all]. unfold kv_store_more.del. run.
    apply elem_of_cons in Hin as [->|Hin]; [|apply IH; assumption].
    match goal with
    | |- kv (snd (delete_all _ _ _ ?w1)) !! ?k = None =>
        destruct (delete_all_only_removes tenantId period rest k w1)
          as [Hnone|Hsame]; [assumption|rewrite Hsame]
    end.
    cbn [kv]. apply lookup_delete_eq.
Qed.

(** X12.  The delete route removes the tenant's usage of the current
    period and nothing else: afterwards no usage record is left under the
    tenant's prefix for the period, so a scan of it finds none, and every
    key outside that prefix is left as it was. *)
Theorem delete_clears_period tenantId w :
  let period := period_of (now w) in
  let w' := snd (delete_usage tenantId w) in
  keyed_by_metric tenantId period w ->
  (forall k,
      String.prefix (period_prefix tenantId period) k = true ->
      as_usage (kv w' !! k) = None)
  /\ usages_of (fst (kv_store.getByPrefix (period_prefix tenantId period) w')) = []
  /\ (forall k,
        String.prefix (period_prefix tenantId period) k = false ->
        kv w' !! k = kv w !! k).
Proof.
  cbn zeta. intros Hkeyed. unfold delete_usage. run.
  set (records :=
         usages_of (fst (kv_store.getByPrefix
                           (period_prefix tenantId (period_of (now w))) w))).
  change (usages_of (map snd (List.filter _ (map_to_list (kv w))))) with records.
  match goal with
  | |- context [delete_all _ _ records ?w1] => set (start := w1)
  end.
  assert (Hcleared : forall k,
    String.prefix (period_prefix tenantId (period_of (now w))) k = true ->
    as_usage (kv (snd (delete_all tenantId (period_of (now w)) records start)) !! k)
    = None).
  { intros k Hp.
    destruct (delete_all_only_removes tenantId (period_of (now w)) records k start)
      as [-> | Hsame]; [reflexivity|].
    rewrite Hsame. subst start. cbn [kv].
    destruct (kv w !! k) as [[t|r|f|p]|] eqn:Hk; try reflexivity.
    exfalso. rewrite (Hkeyed k r Hk Hp) in Hsame.
    rewrite delete_all_hit in Hsame.
    - cbn [kv] in Hsame. rewrite <- (Hkeyed k r Hk Hp), Hk in Hsame. discriminate.
    - apply (scan_finds _ k r w Hk Hp). }
  split; [exact Hcleared|]. split.
  - match goal with
    | |- ?scan = [] => destruct scan as [|r rest] eqn:Hscan; [reflexivity|]
    end.
    exfalso.
    assert (Hin : r ∈ usages_of
                     (fst (kv_store.getByPrefix
                             (period_prefix tenantId (period_of (now w)))
                             (snd (delete_all tenantId (period_of (now w)) records start)))))
      by (unfold kv_store.getByPrefix; cbn [fst]; rewrite Hscan; left).
    apply scan_found in Hin as (k & Hk & Hp).
    specialize (Hcleared k Hp). rewrite Hk in Hcleared. discriminate.
  - intros k Hp. rewrite delete_all_frame; [reflexivity|].
    intros r _ Heq. subst k. rewrite key_under_prefix in Hp. discriminate.
Qed.

Lemma delete_clears_period_witness :
  kv (snd (delete_usage "tn_1" Sample.route_ledger)) !! "usage:tn_1:2026-11:api_calls"
  = None
  /\ kv (snd (delete_usage "tn_1" Sample.route_ledger)) !! "plan:plan_pro"
     = Some (VPlan Sample.plan_pro).
Proof.
  destruct (delete_clears_period "tn_1" Sample.route_ledger route_ledger_keyed)
    as (Hcleared & _ & Hframe).
  split.
  - specialize (Hcleared "usage:tn_1:2026-11:api_calls" eq_refl).
    destruct (kv (snd (delete_usage "tn_1" Sample.route_ledger))
                 !! "usage:tn_1:2026-11:api_calls") as [[t|r|f|p]|] eqn:E;
      try reflexivity; try discriminate Hcleared; vm_compute in E; discriminate E.
  - rewrite Hframe; reflexivity.
Defined.

(** What the tenant lookup of the listing answers. *)
Lemma find_tenant_result tenantId w :
  fst (usage_routes.find_tenant tenantId w)
  = match as_tenant (kv w !! ("tenant:" +:+ tenantId)) with
    | Some t => Some (t_id t, t_plan t)
    | None =>
        (fun r =>
           let setting (k : string) : option string := s ← pg_settings r; s !! k in
           (Js.or_str (setting "external_id") (pg_id r),
            Js.or_str (setting "plan") "Trial"))
          <$> match supabase.single
                      (List.filter (supabase.has_external_id tenantId) (pg w)) with
              | Some r => Some r
              | None =>
                  supabase.single
                    (List.filter (fun r => supabase.uuid_eqb (pg_id r) tenantId)
                                 (pg w))
              end
    end.
Proof.
  unfold usage_routes.find_tenant. run.
  destruct (as_tenant (kv w !! ("tenant:" +:+ tenantId))); [reflexivity|].
  run. destruct (supabase.single _); reflexivity.
Qed.

(** The listing of a tenant that is found answers with data. *)
Lemma list_usage_found tenantId w found :
  fst (usage_routes.find_tenant tenantId w) = Some found ->
  exists data, fst (usage_routes.list_usage tenantId w) = ok data.
Proof.
  intros Hfound. unfold usage_routes.list_usage. unfold bind at 1.
  destruct (usage_routes.find_tenant tenantId w) as [tenant w1].
  cbn [fst] in Hfound. subst tenant. destruct found as [id plan]. run.
  destruct (usages_of _) as [|first rest].
  - run. destruct (usage_routes.initialise _ _ _ _ _) as [u w2].
    eexists. reflexivity.
  - run. destruct (usage_routes.reconcile _ _ _ _ _) as [views w2].
    destruct (usage_routes.complete _ _ _ _ _ _) as [added w3].
    eexists. reflexivity.
Qed.

(** X13.  The usage listing answers "Tenant not found" exactly when the
    tenant is in neither store: not under [tenant:<id>] in the key-value
    store, and matched by exactly one row of the table neither by external
    id nor by primary key.  In that case it writes nothing. *)
Theorem list_usage_not_found_iff tenantId w :
  let missing :=
    as_tenant (kv w !! ("tenant:" +:+ tenantId)) = None
    /\ supabase.single (List.filter (supabase.has_external_id tenantId) (pg w))
       = None
    /\ supabase.single
         (List.filter (fun r => supabase.uuid_eqb (pg_id r) tenantId) (pg w))
       = None in
  (fst (usage_routes.list_usage tenantId w) = not_found "Tenant not found"
   <-> missing)
  /\ (missing -> kv (snd (usage_routes.list_usage tenantId w)) = kv w).
Proof.
  cbn zeta.
  assert (Hnone :
    fst (usage_routes.find_tenant tenantId w) = None
    <-> as_tenant (kv w !! ("tenant:" +:+ tenantId)) = None
        /\ supabase.single (List.filter (supabase.has_external_id tenantId) (pg w))
           = None
        /\ supabase.single
             (List.filter (fun r => supabase.uuid_eqb (pg_id r) tenantId) (pg w))
           = None).
  { rewrite find_tenant_result.
    destruct (as_tenant _); [split; [discriminate|intros [? _]; discriminate]|].
    destruct (supabase.single (List.filter (supabase.has_external_id tenantId) _));
      [split; [discriminate|intros (_ & ? & _); discriminate]|].
    destruct (supabase.single _);
      [split; [discriminate|intros (_ & _ & ?); discriminate]|].
    split; [intros _; repeat split | reflexivity]. }
  assert (Hrun :
    fst (usage_routes.find_tenant tenantId w) = None ->
    fst (usage_routes.list_usage tenantId w) = not_found "Tenant not found"
    /\ kv (snd (usage_routes.list_usage tenantId w)) = kv w).
  { intros Hfind. destruct (find_tenant_frame tenantId w) as (Hkv & _).
    unfold usage_routes.list_usage, bind.
    destruct (usage_routes.find_tenant tenantId w) as [tenant w1].
    cbn [fst] in Hfind. cbn [snd] in Hkv. subst tenant.
    split; [reflexivity | exact Hkv]. }
  split; [split|].
  - intros Hresp. apply Hnone.
    destruct (fst (usage_routes.find_tenant tenantId w)) as [found|] eqn:Hfind;
      [|reflexivity].
    destruct (list_usage_found tenantId w found Hfind) as (data & Hok).
    rewrite Hok in Hresp. discriminate.
  - intros Hmissing. apply Hrun. apply Hnone. exact Hmissing.
  - intros Hmissing. apply Hrun. apply Hnone. exact Hmissing.
Qed.

Lemma initialise_frame kvTenantId period limits metrics k w :
  (forall metric, metric ∈ metrics ->
                  k <> usage_routes.key kvTenantId period metric) ->
  kv (snd (usage_routes.initialise kvTenantId period limits metrics w)) !! k
  = kv w !! k.
Proof.
  revert w. induction metrics as [|m rest IH]; intros w Hk; [reflexivity|].
  cbn [usage_routes.initialise]. run. rewrite IH.
  - cbn [kv]. apply lookup_insert_ne. apply not_eq_sym. apply Hk. left.
  - intros metric Hin. apply Hk. right. assumption.
Qed.

Lemma initialise_hit kvTenantId period limits metrics metric w :
  NoDup metrics ->
  metric ∈ metrics ->
  kv (snd (usage_routes.initialise kvTenantId period limits metrics w))
     !! usage_routes.key kvTenantId period metric
  = Some (VUsage (usage_routes.fresh metric 0%float
                    (usage_routes.limit_in limits metric) period
                    (Js.toISOString (now w)))).
Proof.
  revert w. induction metrics as [|m rest IH]; intros w Hnodup Hin.
  - apply elem_of_nil in Hin. contradiction.
  - apply NoDup_cons in Hnodup as [Hfresh Hnodup].
    cbn [usage_routes.initialise]. run.
    apply elem_of_cons in Hin as [->|Hin].
    + rewrite initialise_frame; [cbn [kv]; apply lookup_insert_eq|].
      intros m' Hm' Heq. apply key_inj in Heq. congruence.
    + rewrite IH by assumption. reflexivity.
Qed.

(** A plan named like a property that objects inherit gets the table
    found under that name, which has no limit for any default metric. *)
Lemma inherited_plan_limits plan metric :
  Js.inherited plan = true ->
  metric ∈ usage_routes.defaultMetrics ->
  usage_routes.fallbackLimits plan = Some usage_routes.inheritedTable
  /\ usage_routes.limit_in usage_routes.inheritedTable metric = 0%float.
Proof.
  intros Hplan Hmetric. split.
  - unfold Js.inherited in Hplan. apply JsFacts.includes_iff in Hplan.
    repeat (apply elem_of_cons in Hplan as [->|Hplan]; [reflexivity|]).
    apply elem_of_nil in Hplan. contradiction.
  - unfold usage_routes.defaultMetrics in Hmetric.
    repeat (apply elem_of_cons in Hmetric as [->|Hmetric]; [reflexivity|]).
    apply elem_of_nil in Hmetric. contradiction.
Qed.

(** X14.  The first listing of a period sets the tenant up: when the
    tenant is found and nothing is stored under its prefix for the current
    period, the listing stores one record per default metric (rooms, users,
    properties, api_calls, storage) with [current = 0] and the limit of the
    tenant's plan, answers with these five rows, and leaves every key
    outside the prefix as it was.  The limits are those of the plan
    object's limit table, else of the built-in table of the plan, else of
    Trial; for a plan without a plan object whose name is the name of a
    property that objects inherit (as [constructor]) Trial is not fallen
    back on, and all five limits are 0. *)
Theorem list_usage_initialises tenantId w id plan :
  fst (usage_routes.find_tenant tenantId w) = Some (id, plan) ->
  let kvTenantId := Js.or_str (Some id) tenantId in
  let period := period_of (now w) in
  fst (kv_store.getByPrefix (period_prefix kvTenantId period) w) = [] ->
  let limits :=
    default (default usage_routes.trialLimits (usage_routes.fallbackLimits plan))
            (as_plan (kv w !! usage_routes.plan_key plan) ≫= p_limits) in
  let w' := snd (usage_routes.list_usage tenantId w) in
  fst (usage_routes.list_usage tenantId w)
  = ok (map (fun metric =>
               mkUsageView metric 0%float (usage_routes.limit_in limits metric)
                           (usage_routes.unit_of metric))
            usage_routes.defaultMetrics)
  /\ (forall metric,
        metric ∈ usage_routes.defaultMetrics ->
        kv w' !! usage_routes.key kvTenantId period metric
        = Some (VUsage (usage_routes.fresh metric 0%float
                          (usage_routes.limit_in limits metric) period
                          (Js.toISOString (now w)))))
  /\ (forall k,
        String.prefix (period_prefix kvTenantId period) k = false ->
        kv w' !! k = kv w !! k)
  /\ (as_plan (kv w !! usage_routes.plan_key plan) ≫= p_limits = None ->
      Js.inherited plan = true ->
      forall metric, metric ∈ usage_routes.defaultMetrics ->
                     usage_routes.limit_in limits metric = 0%float).
Proof.
  intros Hfind. cbn zeta. intros Hscan.
  destruct (find_tenant_frame tenantId w) as (Hkv & _ & Hnow).
  remember (usage_routes.list_usage tenantId w) as result eqn:Hresult.
  unfold usage_routes.list_usage, bind in Hresult.
  destruct (usage_routes.find_tenant tenantId w) as [found w1].
  cbn [fst] in Hfind. cbn [snd] in Hkv, Hnow. subst found.
  run_in Hresult. rewrite Hkv, Hnow in Hresult.
  unfold kv_store.getByPrefix, period_prefix in Hscan. cbn [fst] in Hscan.
  rewrite Hscan in Hresult. cbn [usages_of omap list_omap] in Hresult.
  run_in Hresult.
  match type of Hresult with
  | context [usage_routes.initialise ?a ?b ?c ?d ?e] =>
      pose proof (fun metric => initialise_hit a b c d metric e) as Hhit;
      pose proof (fun k => initialise_frame a b c d k e) as Hframe;
      destruct (usage_routes.initialise a b c d e) as [u w2]
  end.
  cbn [fst snd kv now] in Hhit, Hframe. subst result. cbn [fst snd].
  split; [reflexivity|]. split; [|split].
  - intros metric Hin. apply Hhit; [|assumption].
    unfold usage_routes.defaultMetrics. refine (bool_decide_unpack _ _).
    vm_compute. exact I.
  - intros k Hp. rewrite Hframe; [reflexivity|].
    intros metric _ Heq. subst k.
    rewrite (key_under_prefix (Js.or_str (Some id) tenantId)) in Hp. discriminate.
  - intros -> Hplan metric Hmetric.
    destruct (inherited_plan_limits plan metric Hplan Hmetric) as [-> Hzero].
    exact Hzero.
Qed.

Lemma list_usage_initialises_witness :
  fst (usage_routes.list_usage "tn_1" Sample.both_stores)
  = ok [mkUsageView "rooms" 0%float 35%float "";
        mkUsageView "users" 0%float 10%float "";
        mkUsageView "properties" 0%float 2%float "";
        mkUsageView "api_calls" 0%float 100000%float "/month";
        mkUsageView "storage" 0%float 50%float "GB"].
Proof.
  destruct (list_usage_initialises "tn_1" Sample.both_stores "tn_1" "Pro"
              eq_refl eq_refl) as (Hresponse & _).
  rewrite Hresponse. reflexivity.
Defined.

(** What the tracker stores for a metric it has not seen this period. *)
Lemma trackUsage_first tenantId metric amount w :
  let period := period_of (now w) in
  let k := usage_routes.key tenantId period metric in
  as_usage (kv w !! k) = None ->
  let limit :=
    match as_tenant (kv w !! ("tenant:" +:+ tenantId)) with
    | Some t =>
        match as_plan (kv w !! usage_routes.plan_key (t_plan t)) ≫= p_limits with
        | Some limits =>
            Js.or_get limits (usage_routes.metric_key metric) 1000%float
        | None => 1000%float
        end
    | None => 1000%float
    end in
  kv (snd (usage_routes.trackUsage tenantId metric amount w))
  = <[k := VUsage (usage_routes.fresh metric (default 1%float amount) limit period
                     (Js.toISOString (now w)))]> (kv w).
Proof.
  cbn zeta. intros Hk. unfold usage_routes.trackUsage. run. rewrite Hk. run.
  destruct (as_tenant (kv w !! ("tenant:" +:+ tenantId))) as [t|]; run; reflexivity.
Qed.

(** X15.  The tracker's first write of a period fixes the limit from the
    tenant's plan as it is then: the limit table of the plan object stored
    under the lower-cased plan name, read at the metric's name ([apiCalls]
    for [api_calls]); and 1000 when the tenant is not in the key-value
    store, the plan object or its table is missing, the table's entry for
    the metric is zero, or the table has no entry for a metric whose name
    is not the name of a property that objects inherit.  The record starts
    at the amount counted, and the next call in the period adds to it under
    that same limit. *)
Theorem trackUsage_first_write tenantId metric amount w :
  let period := period_of (now w) in
  let k := usage_routes.key tenantId period metric in
  let tenant := as_tenant (kv w !! ("tenant:" +:+ tenantId)) in
  let table t := as_plan (kv w !! usage_routes.plan_key (t_plan t)) ≫= p_limits in
  let w1 := snd (usage_routes.trackUsage tenantId metric amount w) in
  as_usage (kv w !! k) = None ->
  exists r,
    as_usage (kv w1 !! k) = Some r
    /\ u_current r = default 1%float amount
    /\ (tenant = None -> u_limit r = 1000%float)
    /\ (forall t, tenant = Some t -> table t = None -> u_limit r = 1000%float)
    /\ (forall t limits,
          tenant = Some t -> table t = Some limits ->
          (forall x, limits !! usage_routes.metric_key metric = Some x ->
                     u_limit r = if Js.truthy x then x else 1000%float)
          /\ (limits !! usage_routes.metric_key metric = None ->
              Js.inherited (usage_routes.metric_key metric) = false ->
              u_limit r = 1000%float))
    /\ (forall next later,
          period_of later = period_of (now w) ->
          exists r2,
            as_usage (kv (snd (usage_routes.trackUsage tenantId metric next
                                 (at_time later w1))) !! k) = Some r2
            /\ u_current r2
               = PrimFloat.add (Js.or_num (default 1%float amount) 0%float)
                               (default 1%float next)
            /\ u_limit r2 = u_limit r).
Proof.
  cbn zeta. intros Hk. rewrite (trackUsage_first tenantId metric amount w Hk).
  eexists. split; [rewrite lookup_insert_eq; reflexivity|].
  split; [reflexivity|].
  cbn [usage_routes.fresh u_limit].
  split; [intros ->; reflexivity|].
  split; [intros t -> ->; reflexivity|].
  split.
  - intros t limits -> ->. split.
    + intros x Hx. rewrite (JsFacts.or_get_own _ _ _ _ Hx). reflexivity.
    + intros Hnone Hname. rewrite (JsFacts.or_get_not_inherited _ _ _ Hname), Hnone.
      reflexivity.
  - intros next later Hperiod.
    pose proof (trackUsage_first tenantId metric amount w Hk) as Hfirst.
    cbn zeta in Hfirst.
    erewrite trackUsage_existing.
    2:{ cbn [at_time now kv]. rewrite Hfirst, Hperiod, lookup_insert_eq.
        reflexivity. }
    cbn [snd kv at_time now]. rewrite Hperiod, lookup_insert_eq. cbn [as_usage].
    eexists. split; [reflexivity|]. split; reflexivity.
Qed.

Lemma trackUsage_first_write_witness :
  exists r,
    as_usage (kv (snd (usage_routes.trackUsage "tn_1" "api_calls" None
                         (at_time Sample.nov20
                            (snd (usage_routes.trackUsage "tn_1" "api_calls"
                                    (Some 4%float) SampleMore.plan_only)))))
                 !! "usage:tn_1:2026-11:api_calls")
    = Some r
    /\ u_current r = 5%float /\ u_limit r = 100000%float.
Proof.
  destruct (trackUsage_first_write "tn_1" "api_calls" (Some 4%float)
              SampleMore.plan_only eq_refl)
    as (r & _ & _ & _ & _ & Htable & Hnext).
  destruct (Hnext None Sample.nov20 eq_refl) as (r2 & Hk & Hcur & Hlimit).
  exists r2. split; [exact Hk|]. split.
  - rewrite Hcur. reflexivity.
  - rewrite Hlimit.
    destruct (Htable Sample.tn_1
                (list_to_map [("rooms", 35%float); ("users", 10%float);
                              ("properties", 2%float); ("apiCalls", 100000%float);
                              ("storage", 50%float)])
                eq_refl eq_refl) as [Hentry _].
    apply (Hentry 100000%float). reflexivity.
Defined.

End UsageRouteMoreFacts.

(** ** More of the feature routes *)

Module FeatureRouteFacts.

Import JsFacts FlagFacts features_routes_more.

Lemma without_iff x l y : y ∈ without x l <-> y ∈ l /\ y <> x.
Proof.
  unfold without. rewrite !list_elem_of_In, filter_In, negb_true_iff.
  split; intros [Hin Hne]; (split; [assumption|]).
  - intros ->. rewrite String.eqb_refl in Hne. discriminate.
  - apply String.eqb_neq. assumption.
Qed.

Lemma with_member_iff x l y : y ∈ with_member x l <-> y ∈ l \/ y = x.
Proof.
  unfold with_member. destruct (Js.includes l x) eqn:Hinc.
  - apply includes_iff in Hinc. split; [auto|]. intros [?| ->]; assumption.
  - rewrite elem_of_app, list_elem_of_singleton. reflexivity.
Qed.

Lemma on_list_Some l x : on_list (Some l) x <-> x ∈ l.
Proof.
  unfold on_list. split.
  - intros (l' & [= <-] & Hin). assumption.
  - intros Hin. exists l. split; [reflexivity|assumption].
Qed.

Lemma on_list_default xs x : on_list xs x <-> x ∈ default [] xs.
Proof.
  destruct xs as [l|]; [apply on_list_Some|].
  cbn. split; [intros (l & Hl & _); discriminate|].
  intros Hin. apply elem_of_nil in Hin. contradiction.
Qed.

Lemma toggle_tenant_run key tenant_id (enabled : bool) w feature :
  as_flag (kv w !! ("feature:" +:+ key)) = Some feature ->
  let updated :=
    if enabled then
      with_tenant_lists feature
        (with_member tenant_id (default [] (f_enabledForTenants feature)))
        (without tenant_id (default [] (f_disabledForTenants feature)))
    else
      with_tenant_lists feature
        (without tenant_id (default [] (f_enabledForTenants feature)))
        (with_member tenant_id (default [] (f_disabledForTenants feature))) in
  toggle_tenant key tenant_id enabled w
  = (ok updated,
     mkWorld (<["feature:" +:+ key := VFlag updated]> (kv w)) (pg w) (now w)
             (log w ++ [KvGet ("feature:" +:+ key); KvSet ("feature:" +:+ key)])%list).
Proof.
  cbn zeta. intros Hfound. unfold toggle_tenant. run. rewrite Hfound. run.
  rewrite <- app_assoc. reflexivity.
Qed.

(** X16.  Toggling a feature for a tenant puts the tenant on one list and
    takes it off the other: switched on, the tenant is on the allow-list
    and not on the deny-list; switched off, the other way round.  Every
    other identifier stays on exactly the lists it was on, and the
    feature's status, plans and rollout are not touched.  A feature that
    does not exist answers "Feature not found" and nothing is written. *)
Theorem toggle_tenant_moves_one tenant_key tenant_id (enabled : bool) w :
  let k := "feature:" +:+ tenant_key in
  let result := toggle_tenant tenant_key tenant_id enabled w in
  (kv w !! k = None ->
   fst result = not_found "Feature not found" /\ kv (snd result) = kv w)
  /\ (forall feature,
        as_flag (kv w !! k) = Some feature ->
        exists updated,
          fst result = ok updated
          /\ kv (snd result) = <[k := VFlag updated]> (kv w)
          /\ (on_list (f_enabledForTenants updated) tenant_id <-> enabled = true)
          /\ (on_list (f_disabledForTenants updated) tenant_id <-> enabled = false)
          /\ (forall other,
                other <> tenant_id ->
                (on_list (f_enabledForTenants updated) other
                 <-> on_list (f_enabledForTenants feature) other)
                /\ (on_list (f_disabledForTenants updated) other
                    <-> on_list (f_disabledForTenants feature) other))
          /\ f_status updated = f_status feature
          /\ f_enabledForPlans updated = f_enabledForPlans feature
          /\ f_rolloutPercentage updated = f_rolloutPercentage feature).
Proof.
  cbn zeta. split.
  - intros Hnone. unfold toggle_tenant. run. rewrite Hnone. split; reflexivity.
  - intros feature Hfound. rewrite (toggle_tenant_run _ _ _ _ _ Hfound).
    cbn [fst snd kv]. eexists. split; [reflexivity|]. split; [reflexivity|].
    destruct enabled; cbn [with_tenant_lists f_enabledForTenants f_disabledForTenants
                           f_status f_enabledForPlans f_rolloutPercentage];
      rewrite !on_list_Some, ?with_member_iff, ?without_iff;
      (split; [|split; [|split; [|repeat split]]]).
    + split; [reflexivity|]. intros _. right. reflexivity.
    + split; [intros [_ Hne]; contradiction | discriminate].
    + intros other Hne.
      rewrite !on_list_Some, with_member_iff, without_iff, !on_list_default.
      tauto.
    + split; [intros [_ Hne]; contradiction | discriminate].
    + split; [reflexivity|]. intros _. right. reflexivity.
    + intros other Hne.
      rewrite !on_list_Some, with_member_iff, without_iff, !on_list_default.
      tauto.
Qed.

(** What a prefix scan returns: the flag objects stored under the prefix. *)
Lemma scan_finds_flag prefix k f w :
  kv w !! k = Some (VFlag f) ->
  String.prefix prefix k = true ->
  f ∈ flags_of (fst (kv_store.getByPrefix prefix w)).
Proof.
  intros Hk Hp. unfold flags_of, kv_store.getByPrefix. cbn [fst].
  apply list_elem_of_omap. exists (VFlag f). split; [|reflexivity].
  apply list_elem_of_In. apply in_map_iff. exists (k, VFlag f). split; [reflexivity|].
  apply filter_In. split; [|assumption].
  apply list_elem_of_In. apply elem_of_map_to_list. assumption.
Qed.

Lemma feature_prefix key : String.prefix "feature:" ("feature:" +:+ key) = true.
Proof. simpl. destruct key; reflexivity. Qed.

(** The listing for a tenant the key-value store holds. *)
Lemma tenant_features_kv tenantId w tenant :
  as_tenant (kv w !! ("tenant:" +:+ tenantId)) = Some tenant ->
  fst (features_routes.tenant_features tenantId w)
  = ok (map (features_routes.view tenant)
            (flags_of (fst (kv_store.getByPrefix "feature:" w)))).
Proof.
  intros Hkv. unfold features_routes.tenant_features, TenantService.resolve. run.
  rewrite Hkv. run. reflexivity.
Qed.

(** X17.  A toggle shows in the tenant's feature listing.  For a tenant
    the key-value store holds under the identifier toggled (and whose uuid,
    if it has one, is not on the allow-list), the listing made after the
    toggle has a row for the feature, and the row is enabled exactly when
    the feature was switched on. *)
Theorem toggle_tenant_then_listing key tenant_id (switched_on : bool) w feature tenant :
  as_flag (kv w !! ("feature:" +:+ key)) = Some feature ->
  as_tenant (kv w !! ("tenant:" +:+ tenant_id)) = Some tenant ->
  t_id tenant = tenant_id ->
  (forall uuid, t_uuid tenant = Some uuid -> uuid <> tenant_id ->
                ~ on_list (f_enabledForTenants feature) uuid) ->
  let w' := snd (toggle_tenant key tenant_id switched_on w) in
  exists rows row,
    fst (features_routes.tenant_features tenant_id w') = ok rows
    /\ row ∈ rows
    /\ fv_id row = f_id feature
    /\ fv_key row = f_key feature
    /\ fv_enabled row = switched_on.
Proof.
  intros Hfeature Htenant Hid Huuid. cbn zeta.
  rewrite (toggle_tenant_run _ _ _ _ _ Hfeature). cbn [snd].
  set (updated := if switched_on then _ else _).
  set (w' := mkWorld _ _ _ _).
  assert (Htenant' : as_tenant (kv w' !! ("tenant:" +:+ tenant_id)) = Some tenant).
  { subst w'. cbn [kv]. rewrite lookup_insert_ne; [assumption|].
    intros E. simpl in E. discriminate E. }
  rewrite (tenant_features_kv tenant_id w' tenant Htenant').
  exists (map (features_routes.view tenant)
              (flags_of (fst (kv_store.getByPrefix "feature:" w')))),
         (features_routes.view tenant updated).
  split; [reflexivity|]. split.
  { apply list_elem_of_fmap. exists updated. split; [reflexivity|].
    apply (scan_finds_flag "feature:" ("feature:" +:+ key)).
    - subst w'. cbn [kv]. apply lookup_insert_eq.
    - apply feature_prefix. }
  assert (Hids : features_routes.tenantIdentifiers tenant
                 = tenant_id ::
                   match t_uuid tenant with
                   | Some uuid =>
                       if Js.truthy_str uuid && negb (String.eqb uuid tenant_id)
                       then [uuid] else []
                   | None => []
                   end).
  { unfold features_routes.tenantIdentifiers. rewrite Hid. reflexivity. }
  unfold features_routes.view. cbn [fv_id fv_key fv_enabled]. rewrite Hids.
  subst updated. destruct switched_on;
    cbn [with_tenant_lists f_id f_key f_enabledForTenants f_disabledForTenants
         existsb FeatureFlagService.opt_includes].
  - split; [reflexivity|]. split; [reflexivity|].
    assert (Js.includes (with_member tenant_id (default [] (f_enabledForTenants feature)))
                        tenant_id = true) as ->.
    { apply includes_iff, with_member_iff. right. reflexivity. }
    reflexivity.
  - split; [reflexivity|]. split; [reflexivity|].
    assert (Js.includes (without tenant_id (default [] (f_enabledForTenants feature)))
                        tenant_id = false) as ->.
    { destruct (Js.includes _ _) eqn:E; [|reflexivity].
      apply includes_iff, without_iff in E as [_ Hne]. contradiction. }
    assert (Js.includes (with_member tenant_id (default [] (f_disabledForTenants feature)))
                        tenant_id = true) as ->.
    { apply includes_iff, with_member_iff. right. reflexivity. }
    cbn [orb].
    destruct (t_uuid tenant) as [uuid|] eqn:Hu; [|reflexivity].
    destruct (Js.truthy_str uuid && negb (String.eqb uuid tenant_id)) eqn:Hsep;
      [|reflexivity].
    apply andb_true_iff in Hsep as [_ Hne]. apply negb_true_iff in Hne.
    apply String.eqb_neq in Hne.
    cbn [existsb orb FeatureFlagService.opt_includes].
    assert (Js.includes (without tenant_id (default [] (f_enabledForTenants feature)))
                        uuid = false) as ->.
    { destruct (Js.includes _ _) eqn:E; [|reflexivity].
      apply includes_iff, without_iff in E as [Hin _].
      exfalso. apply (Huuid uuid eq_refl Hne). apply on_list_default. assumption. }
    reflexivity.
Qed.

Lemma toggle_tenant_then_listing_witness :
  exists rows row,
    fst (features_routes.tenant_features "T-1"
           (snd (toggle_tenant "reports" "T-1" false Sample.flags_world)))
    = ok rows
    /\ row ∈ rows /\ fv_key row = "reports" /\ fv_enabled row = false.
Proof.
  assert (Huuid : forall uuid, t_uuid Sample.T_1 = Some uuid -> uuid <> "T-1" ->
                               ~ on_list (f_enabledForTenants Sample.reports) uuid).
  { intros uuid _ _ (l & Hl & _). discriminate Hl. }
  destruct (toggle_tenant_then_listing "reports" "T-1" false Sample.flags_world
              Sample.reports Sample.T_1 eq_refl eq_refl eq_refl Huuid)
    as (rows & row & Hrows & Hin & _ & Hkey & Hshown).
  exists rows, row. repeat split; assumption.
Defined.

Lemma toggle_plan_run key plan (switched_on : bool) w feature :
  as_flag (kv w !! ("feature:" +:+ key)) = Some feature ->
  let updated :=
    with_plans feature
      (if switched_on
       then with_member plan (default [] (f_enabledForPlans feature))
       else without plan (default [] (f_enabledForPlans feature))) in
  toggle_plan key plan switched_on w
  = (ok updated,
     mkWorld (<["feature:" +:+ key := VFlag updated]> (kv w)) (pg w) (now w)
             (log w ++ [KvGet ("feature:" +:+ key); KvSet ("feature:" +:+ key)])%list).
Proof.
  cbn zeta. intros Hfound. unfold toggle_plan. run. rewrite Hfound. run.
  rewrite <- app_assoc. reflexivity.
Qed.

(** X18.  Toggling a feature for a plan puts the plan on the feature's
    entitled-plan list or takes it off: afterwards the plan is on the list
    exactly when it was switched on.  Every other plan stays as it was, and
    the tenant lists, the status and the rollout are not touched.  A feature
    that does not exist answers "Feature not found" and nothing is
    written. *)
Theorem toggle_plan_moves_one key plan (switched_on : bool) w :
  let k := "feature:" +:+ key in
  let result := toggle_plan key plan switched_on w in
  (kv w !! k = None ->
   fst result = not_found "Feature not found" /\ kv (snd result) = kv w)
  /\ (forall feature, as_flag (kv w !! k) = Some feature ->
        exists updated,
          fst result = ok updated
          /\ kv (snd result) = <[k := VFlag updated]> (kv w)
          /\ (on_list (f_enabledForPlans updated) plan <-> switched_on = true)
          /\ (forall other, other <> plan ->
                (on_list (f_enabledForPlans updated) other
                 <-> on_list (f_enabledForPlans feature) other))
          /\ f_enabledForTenants updated = f_enabledForTenants feature
          /\ f_disabledForTenants updated = f_disabledForTenants feature
          /\ f_status updated = f_status feature
          /\ f_rolloutPercentage updated = f_rolloutPercentage feature).
Proof.
  cbn zeta. split.
  - intros Hnone. unfold toggle_plan. run. rewrite Hnone. split; reflexivity.
  - intros feature Hfound. rewrite (toggle_plan_run _ _ _ _ _ Hfound).
    cbn [fst snd kv]. eexists. split; [reflexivity|]. split; [reflexivity|].
    cbn [with_plans f_enabledForPlans f_enabledForTenants f_disabledForTenants
         f_status f_rolloutPercentage].
    split; [|split; [|repeat split]].
    + rewrite on_list_Some. destruct switched_on.
      * rewrite with_member_iff. split; [reflexivity|]. intros _. right. reflexivity.
      * rewrite without_iff. split; [intros [_ Hne]; contradiction | discriminate].
    + intros other Hne. rewrite on_list_Some, on_list_default.
      destruct switched_on; [rewrite with_member_iff | rewrite without_iff]; tauto.
Qed.

(** X19.  A plan toggle shows in the feature listing of the plan's
    tenants.  For a tenant the key-value store holds, none of whose
    identifiers is on the feature's allow-list or deny-list, the listing
    made after toggling the feature for the tenant's plan has a row for the
    feature, and the row is enabled exactly when the plan was switched on. *)
Theorem toggle_plan_then_listing key tenantId (switched_on : bool) w feature tenant :
  as_flag (kv w !! ("feature:" +:+ key)) = Some feature ->
  as_tenant (kv w !! ("tenant:" +:+ tenantId)) = Some tenant ->
  (forall id, id ∈ features_routes.tenantIdentifiers tenant ->
              ~ on_list (f_enabledForTenants feature) id
              /\ ~ on_list (f_disabledForTenants feature) id) ->
  let w' := snd (toggle_plan key (t_plan tenant) switched_on w) in
  exists rows row,
    fst (features_routes.tenant_features tenantId w') = ok rows
    /\ row ∈ rows
    /\ fv_id row = f_id feature
    /\ fv_key row = f_key feature
    /\ fv_enabled row = switched_on.
Proof.
  intros Hfeature Htenant Hlists. cbn zeta.
  rewrite (toggle_plan_run _ _ _ _ _ Hfeature). cbn [snd].
  set (updated := with_plans _ _).
  set (w' := mkWorld _ _ _ _).
  assert (Htenant' : as_tenant (kv w' !! ("tenant:" +:+ tenantId)) = Some tenant).
  { subst w'. cbn [kv]. rewrite lookup_insert_ne; [assumption|].
    intros E. simpl in E. discriminate E. }
  rewrite (tenant_features_kv tenantId w' tenant Htenant').
  exists (map (features_routes.view tenant)
              (flags_of (fst (kv_store.getByPrefix "feature:" w')))),
         (features_routes.view tenant updated).
  split; [reflexivity|]. split.
  { apply list_elem_of_fmap. exists updated. split; [reflexivity|].
    apply (scan_finds_flag "feature:" ("feature:" +:+ key)).
    - subst w'. cbn [kv]. apply lookup_insert_eq.
    - apply feature_prefix. }
  split; [reflexivity|]. split; [reflexivity|].
  unfold features_routes.view. cbn [fv_enabled]. subst updated.
  cbn [with_plans f_enabledForTenants f_disabledForTenants f_enabledForPlans].
  assert (existsb (FeatureFlagService.opt_includes (f_enabledForTenants feature))
                  (features_routes.tenantIdentifiers tenant) = false) as ->.
  { destruct (existsb _ _) eqn:E; [|reflexivity].
    apply any_on_list_iff in E as (id & Hin & Hon).
    destruct (Hlists id Hin) as [Hno _]. contradiction. }
  assert (existsb (FeatureFlagService.opt_includes (f_disabledForTenants feature))
                  (features_routes.tenantIdentifiers tenant) = false) as ->.
  { destruct (existsb _ _) eqn:E; [|reflexivity].
    apply any_on_list_iff in E as (id & Hin & Hon).
    destruct (Hlists id Hin) as [_ Hno]. contradiction. }
  cbn [FeatureFlagService.opt_includes]. destruct switched_on.
  - apply includes_iff, with_member_iff. right. reflexivity.
  - destruct (Js.includes _ _) eqn:E; [|reflexivity].
    apply includes_iff, without_iff in E as [_ Hne]. contradiction.
Qed.

Lemma toggle_plan_then_listing_witness :
  exists rows row,
    fst (features_routes.tenant_features "T-1"
           (snd (toggle_plan "reports" "Basic" false Sample.flags_world)))
    = ok rows
    /\ row ∈ rows /\ fv_key row = "reports" /\ fv_enabled row = false.
Proof.
  assert (Hlists : forall id, id ∈ features_routes.tenantIdentifiers Sample.T_1 ->
                     ~ on_list (f_enabledForTenants Sample.reports) id
                     /\ ~ on_list (f_disabledForTenants Sample.reports) id).
  { intros id _. split; intros (l & Hl & _); discriminate Hl. }
  destruct (toggle_plan_then_listing "reports" "T-1" false Sample.flags_world
              Sample.reports Sample.T_1 eq_refl eq_refl Hlists)
    as (rows & row & Hrows & Hin & _ & Hkey & Hshown).
  exists rows, row. repeat split; assumption.
Defined.

(** One round of the loop of [initialize]. *)
Lemma initialize_cons feature rest w :
  let stored := snd (kv_store.set ("feature:" +:+ fi_key feature)
                                  (VFlag (featureData feature)) w) in
  initialize (feature :: rest) w
  = (featureData feature :: fst (initialize rest stored),
     snd (initialize rest stored)).
Proof.
  cbn zeta. cbn [initialize]. run. destruct (initialize rest _). reflexivity.
Qed.

(** What [initialize] leaves in the store, key by key. *)
Lemma initialize_result features w :
  fst (initialize features w) = map featureData features.
Proof.
  revert w. induction features as [|feature rest IH]; intros w; [reflexivity|].
  rewrite initialize_cons. cbn [fst map]. rewrite IH. reflexivity.
Qed.

Lemma initialize_frame features w k :
  (forall f, f ∈ features -> k <> "feature:" +:+ fi_key f) ->
  kv (snd (initialize features w)) !! k = kv w !! k.
Proof.
  revert w. induction features as [|feature rest IH]; intros w Hk; [reflexivity|].
  rewrite initialize_cons. cbn [snd]. rewrite IH.
  - unfold kv_store.set, emit. cbn [snd kv]. apply lookup_insert_ne. intros E. symmetry in E. revert E.
    apply Hk. left.
  - intros f Hin. apply Hk. right. assumption.
Qed.

Lemma feature_key_inj a b : "feature:" +:+ a = "feature:" +:+ b -> a = b.
Proof. simpl. intros [= E]. exact E. Qed.

Lemma initialize_hit features w f :
  f ∈ features ->
  exists f', f' ∈ features /\ fi_key f' = fi_key f
             /\ kv (snd (initialize features w)) !! ("feature:" +:+ fi_key f)
                = Some (VFlag (featureData f')).
Proof.
  revert w f. induction features as [|feature rest IH]; intros w f Hin.
  { apply elem_of_nil in Hin. contradiction. }
  rewrite initialize_cons. cbn [snd].
  destruct (decide (fi_key f ∈ map fi_key rest)) as [Hlater|Hlast].
  - apply list_elem_of_fmap in Hlater as (g & Hkey & Hg).
    destruct (IH (snd (kv_store.set ("feature:" +:+ fi_key feature)
                                    (VFlag (featureData feature)) w)) g Hg)
      as (f' & Hf' & Hkey' & Hlook).
    exists f'. split; [right; assumption|]. split; [congruence|].
    rewrite Hkey. exact Hlook.
  - apply elem_of_cons in Hin as [->|Hin].
    + exists feature. split; [left|]. split; [reflexivity|].
      rewrite initialize_frame.
      * unfold kv_store.set. cbn [snd kv emit]. apply lookup_insert_eq.
      * intros g Hg E. apply feature_key_inj in E. apply Hlast.
        rewrite E. apply list_elem_of_fmap. exists g. split; [reflexivity|assumption].
    + exfalso. apply Hlast. apply list_elem_of_fmap. exists f.
      split; [reflexivity|assumption].
Qed.

(** X20.  Initialising features answers one stored object per requested
    feature, in order, and stores each under [feature:<key>] (of two
    requests with the same key the store keeps one of them); keys that no
    request names are left alone.  No stored object has a rollout of
    zero: a requested rollout of zero, like a missing one, is stored as
    100; and every stored object has its three lists and [feature:<key>]
    as its id. *)
Theorem initialize_stores features w :
  let result := initialize features w in
  fst result = map featureData features
  /\ (forall k, (forall f, f ∈ features -> k <> "feature:" +:+ fi_key f) ->
                kv (snd result) !! k = kv w !! k)
  /\ (forall f, f ∈ features ->
        exists f', f' ∈ features /\ fi_key f' = fi_key f
                   /\ kv (snd result) !! ("feature:" +:+ fi_key f)
                      = Some (VFlag (featureData f')))
  /\ (forall flag, flag ∈ fst result ->
        f_id flag = "feature:" +:+ f_key flag
        /\ (exists pct, f_rolloutPercentage flag = Some pct /\ pct <> 0)
        /\ (exists plans allowed denied,
              f_enabledForPlans flag = Some plans
              /\ f_enabledForTenants flag = Some allowed
              /\ f_disabledForTenants flag = Some denied))
  /\ (forall f, f ∈ features ->
        fi_rolloutPercentage f = Some 0 \/ fi_rolloutPercentage f = None ->
        f_rolloutPercentage (featureData f) = Some 100).
Proof.
  cbn zeta. split; [apply initialize_result|].
  split; [intros k Hk; apply initialize_frame; assumption|].
  split; [intros f Hin; apply initialize_hit; assumption|].
  split.
  - intros flag Hin. rewrite initialize_result in Hin.
    apply list_elem_of_fmap in Hin as (f & -> & _).
    unfold featureData. cbn [f_id f_key f_rolloutPercentage f_enabledForPlans
                             f_enabledForTenants f_disabledForTenants].
    split; [reflexivity|].
    split; [|do 3 eexists; repeat split; reflexivity].
    eexists. split; [reflexivity|].
    unfold Pagination.or_int. destruct (fi_rolloutPercentage f) as [pct|]; [|lia].
    destruct (pct =? 0) eqn:E; [lia|]. apply Z.eqb_neq. assumption.
  - intros f _ [H|H]; unfold featureData; cbn [f_rolloutPercentage]; rewrite H;
      reflexivity.
Qed.

(** A scan by prefix is the same, up to order, after a write to a key
    outside the prefix. *)
Lemma filter_Permutation {A} (P : A -> bool) (l l' : list A) :
  l ≡ₚ l' -> List.filter P l ≡ₚ List.filter P l'.
Proof.
  induction 1 as [|x l l' _ IH|x y l|l l' l'' _ IH1 _ IH2]; cbn [List.filter].
  - reflexivity.
  - destruct (P x); [constructor|]; assumption.
  - destruct (P x), (P y); try reflexivity. apply perm_swap.
  - etransitivity; eassumption.
Qed.

Lemma scan_insert_outside prefix k v (m : gmap string KvValue) :
  String.prefix prefix k = false ->
  List.filter (fun e => String.prefix prefix (fst e)) (map_to_list (<[k := v]> m))
  ≡ₚ List.filter (fun e => String.prefix prefix (fst e)) (map_to_list m).
Proof.
  intros Hout.
  assert (Hdrop : forall x,
            List.filter (fun e => String.prefix prefix (fst e))
                        ((k, x) :: map_to_list (delete k m))
            = List.filter (fun e => String.prefix prefix (fst e))
                          (map_to_list (delete k m))).
  { intros x. cbn [List.filter fst]. rewrite Hout. reflexivity. }
  rewrite <- (insert_delete_eq m k v).
  rewrite (filter_Permutation _ _ _
             (map_to_list_insert (delete k m) k v (lookup_delete_eq m k))).
  rewrite Hdrop.
  destruct (m !! k) as [v0|] eqn:Hk.
  - rewrite <- (filter_Permutation _ _ _ (map_to_list_delete m k v0 Hk)).
    rewrite Hdrop. reflexivity.
  - rewrite delete_id by assumption. reflexivity.
Qed.

Lemma list_insert_outside k v w w' :
  String.prefix "flag:" k = false ->
  kv w' = <[k := v]> (kv w) ->
  fst (FeatureFlagService.list w') ≡ₚ fst (FeatureFlagService.list w).
Proof.
  intros Hout Hkv. unfold FeatureFlagService.list, kv_store.getByPrefix. run.
  rewrite Hkv. unfold flags_of. apply omap_Permutation.
  apply Permutation_map. apply scan_insert_outside. assumption.
Qed.

(** With one flag per key, the flag the evaluator picks does not depend
    on the order of the scan. *)
Lemma find_Permutation flagKey (l l' : list FeatureFlag) :
  l ≡ₚ l' ->
  NoDup (map f_key l) ->
  List.find (fun f => String.eqb (f_key f) flagKey) l
  = List.find (fun f => String.eqb (f_key f) flagKey) l'.
Proof.
  induction 1 as [|x l l' _ IH|x y l|l l' l'' Hperm IH1 _ IH2]; intros Hnd.
  - reflexivity.
  - cbn [List.find]. destruct (String.eqb _ _); [reflexivity|].
    apply IH. cbn [map] in Hnd. apply NoDup_cons in Hnd as [_ Hnd]. assumption.
  - cbn [List.find].
    destruct (String.eqb (f_key x) flagKey) eqn:Ex,
             (String.eqb (f_key y) flagKey) eqn:Ey; try reflexivity.
    apply String.eqb_eq in Ex, Ey. cbn [map] in Hnd.
    apply NoDup_cons in Hnd as [Hnotin _]. exfalso. apply Hnotin.
    rewrite Ey, <- Ex. left.
  - rewrite IH1 by assumption. apply IH2.
    assert (Hkeys : map f_key l ≡ₚ map f_key l')
      by (apply Permutation_map; assumption).
    rewrite <- Hkeys. assumption.
Qed.

Lemma isEnabled_same_flags flagKey tenantId planType w w' :
  fst (FeatureFlagService.list w') ≡ₚ fst (FeatureFlagService.list w) ->
  NoDup (map f_key (fst (FeatureFlagService.list w))) ->
  fst (FeatureFlagService.isEnabled flagKey tenantId planType w')
  = fst (FeatureFlagService.isEnabled flagKey tenantId planType w).
Proof.
  intros Hperm Hnd. rewrite !isEnabled_run. cbn [fst]. unfold flag_for.
  rewrite (find_Permutation flagKey _ _ Hperm); [reflexivity|].
  assert (Hkeys : map f_key (fst (FeatureFlagService.list w'))
                  ≡ₚ map f_key (fst (FeatureFlagService.list w)))
    by (apply Permutation_map; assumption).
  rewrite Hkeys. assumption.
Qed.

Lemma feature_outside_flags key : String.prefix "flag:" ("feature:" +:+ key) = false.
Proof. reflexivity. Qed.

Lemma initialize_flags features w :
  fst (FeatureFlagService.list (snd (initialize features w)))
  ≡ₚ fst (FeatureFlagService.list w).
Proof.
  revert w. induction features as [|feature rest IH]; intros w; [reflexivity|].
  rewrite initialize_cons. cbn [snd]. rewrite IH.
  apply (list_insert_outside ("feature:" +:+ fi_key feature)
                             (VFlag (featureData feature))).
  - apply feature_outside_flags.
  - reflexivity.
Qed.

(** X21.  The feature routes and the flag service do not see each other:
    the routes write under [feature:], the service reads under [flag:].
    With one stored flag per flag key, what [isEnabled] answers for any
    flag, tenant and plan is the same after a tenant toggle, a plan toggle
    or an initialisation as before it. *)
Theorem feature_routes_leave_isEnabled flagKey tenantId planType w :
  NoDup (map f_key (fst (FeatureFlagService.list w))) ->
  (forall key tenant_id on,
     fst (FeatureFlagService.isEnabled flagKey tenantId planType
            (snd (toggle_tenant key tenant_id on w)))
     = fst (FeatureFlagService.isEnabled flagKey tenantId planType w))
  /\ (forall key plan on,
        fst (FeatureFlagService.isEnabled flagKey tenantId planType
               (snd (toggle_plan key plan on w)))
        = fst (FeatureFlagService.isEnabled flagKey tenantId planType w))
  /\ (forall features,
        fst (FeatureFlagService.isEnabled flagKey tenantId planType
               (snd (initialize features w)))
        = fst (FeatureFlagService.isEnabled flagKey tenantId planType w)).
Proof.
  intros Hnd. split; [|split].
  - intros key tenant_id on. apply isEnabled_same_flags; [|assumption].
    destruct (as_flag (kv w !! ("feature:" +:+ key))) as [feature|] eqn:Hfound.
    + rewrite (toggle_tenant_run _ _ _ _ _ Hfound). cbn [snd].
      eapply list_insert_outside; [apply (feature_outside_flags key)|reflexivity].
    + unfold toggle_tenant. run. rewrite Hfound. reflexivity.
  - intros key plan on. apply isEnabled_same_flags; [|assumption].
    destruct (as_flag (kv w !! ("feature:" +:+ key))) as [feature|] eqn:Hfound.
    + rewrite (toggle_plan_run _ _ _ _ _ Hfound). cbn [snd].
      eapply list_insert_outside; [apply (feature_outside_flags key)|reflexivity].
    + unfold toggle_plan. run. rewrite Hfound. reflexivity.
  - intros features. apply isEnabled_same_flags; [|assumption].
    apply initialize_flags.
Qed.

Lemma feature_routes_leave_isEnabled_witness :
  NoDup (map f_key (fst (FeatureFlagService.list Sample.flags_world)))
  /\ fst (FeatureFlagService.isEnabled "new_ui" "T-2" (Some "Pro")
            (snd (toggle_tenant "new_ui" "T-2" false Sample.flags_world)))
     = fst (FeatureFlagService.isEnabled "new_ui" "T-2" (Some "Pro")
              Sample.flags_world).
Proof.
  assert (Hnd : NoDup (map f_key (fst (FeatureFlagService.list Sample.flags_world)))).
  { refine (bool_decide_unpack _ _). vm_compute. reflexivity. }
  split; [exact Hnd|].
  exact (proj1 (feature_routes_leave_isEnabled "new_ui" "T-2" (Some "Pro")
                  Sample.flags_world Hnd) "new_ui" "T-2" false).
Defined.

End FeatureRouteFacts.
